(** * Sensor-bridge node firmware (node.ino): a shallow embedding

    The firmware runs on an ESP32.  Its globals become one record
    [State]; every function of node.ino that the properties below talk
    about becomes a state-passing function of the same name.  Calls into
    the vendor libraries (ESP-NOW, NVS, WebServer, HULP, Arduino core)
    are recorded in the part of the state that stands for the outside
    world: the radio log, the HTTP reply log, the NVS keys, the ULP
    run flag.  Serial printing has no effect on any of this and is left
    out.  setup() and loop() are embedded as far as they touch the wake
    windows; their timing loops and the deep-sleep call are not.

    Integers are [Z] with the wrap-around of the ESP32 ABI written out:
    [int] and [long] are 32-bit two's complement, [size_t] and
    [unsigned long] are 32-bit unsigned, [ulp_var_t.val] is a 16-bit
    field. *)

From stdpp Require Import base numbers list.
From Stdlib Require Import ZArith String Ascii Lia DecimalString.

Open Scope Z_scope.

(** ** Machine integers *)

Module Int.

(** [int], [long]: 32-bit two's complement. *)
Definition wrap32 (z : Z) : Z := (z + 2 ^ 31) mod 2 ^ 32 - 2 ^ 31.
(** [size_t], [unsigned long]. *)
Definition to_u32 (z : Z) : Z := z mod 2 ^ 32.
(** the 16-bit [val] field of [ulp_var_t], and [uint16_t]. *)
Definition to_u16 (z : Z) : Z := z mod 2 ^ 16.
Definition to_u8 (z : Z) : Z := z mod 2 ^ 8.
Definition to_i8 (z : Z) : Z := (z + 2 ^ 7) mod 2 ^ 8 - 2 ^ 7.

Definition add (a b : Z) : Z := wrap32 (a + b).
Definition sub (a b : Z) : Z := wrap32 (a - b).
Definition mul (a b : Z) : Z := wrap32 (a * b).
(** C++ division truncates towards zero. *)
Definition div (a b : Z) : Z := wrap32 (Z.quot a b).
Definition abs (a : Z) : Z := wrap32 (Z.abs a).

(** Comparison of an [int] with a [size_t]: the usual arithmetic
    conversions turn the [int] into an unsigned value first. *)
Definition gt_size (a : Z) (n : Z) : bool := to_u32 n <? to_u32 a.
Definition le_size (a : Z) (n : Z) : bool := to_u32 a <=? to_u32 n.

End Int.

(** ** Arduino core functions used by the decoder

    Neither is part of the repository.  [map] is the core's
    [(x - in_min) * (out_max - out_min) / (in_max - in_min) + out_min]
    on [long]; [pulseIn] returns the length of the pulse in
    microseconds, or 0 when no complete pulse was seen before the
    timeout ran out. *)

Module Arduino.

Definition map (x in_min in_max out_min out_max : Z) : Z :=
  let run := Int.sub in_max in_min in
  let rise := Int.sub out_max out_min in
  let delta := Int.sub x in_min in
  Int.add (Int.div (Int.mul delta rise) run) out_min.

(** What an input pin does after [pulseIn] is called: nothing, or a
    HIGH pulse of [width_us] microseconds whose falling edge comes
    [done_after_us] microseconds after the call. *)
Inductive pin_activity :=
| NoPulse
| PulseSeen (done_after_us width_us : Z).

Definition pulseIn (pin : pin_activity) (timeout : Z) : Z :=
  match pin with
  | NoPulse => 0
  | PulseSeen done_after_us width_us =>
      if done_after_us <=? Int.to_u32 timeout then Int.to_u32 width_us else 0
  end.

End Arduino.

(** ** PWM decoder (decodePwmSignals) *)

Definition CH32_PWM_MAX_DUTY_VALUE : Z := 4799.
Definition MAX_TILT_CENTI_DEG : Z := 90 * 100.
Definition MAX_VIBRATION_MDPS : Z := 750000.
Definition MIN_DISPLAY_VIBRATION_MILLI_G : Z := 50.
Definition MAX_DISPLAY_VIBRATION_MILLI_G : Z := 25000.
Definition TILT_PWM_FREQUENCY_HZ : Z := 10.
Definition VIBRATION_PWM_FREQUENCY_HZ : Z := 1.
Definition TILT_PWM_PERIOD_US : Z := Int.div 1000000 TILT_PWM_FREQUENCY_HZ.
Definition VIBRATION_PWM_PERIOD_US : Z := Int.div 1000000 VIBRATION_PWM_FREQUENCY_HZ.

(** [(pulse_us * (CH32_PWM_MAX_DUTY_VALUE + 1)) / period]: the duty step
    both channels compute from the measured pulse. *)
Definition decoded_pwm_val (pulse_us period_us : Z) : Z :=
  Int.div (Int.mul pulse_us (Int.add CH32_PWM_MAX_DUTY_VALUE 1)) period_us.

(** The tilt half of decodePwmSignals, after [pulseIn] has returned. *)
Definition decode_tilt (tilt_pulse_us : Z) : Z :=
  if 0 <? tilt_pulse_us then
    let decoded_pwm_val_tilt := decoded_pwm_val tilt_pulse_us TILT_PWM_PERIOD_US in
    Arduino.map decoded_pwm_val_tilt 0 CH32_PWM_MAX_DUTY_VALUE 0 MAX_TILT_CENTI_DEG
  else 0.

(** The vibration half of decodePwmSignals, after [pulseIn] has returned. *)
Definition decode_vibration (vibration_pulse_us : Z) : Z :=
  if 0 <? vibration_pulse_us then
    let decoded_pwm_val_vibration :=
      decoded_pwm_val vibration_pulse_us VIBRATION_PWM_PERIOD_US in
    let decoded_vibration_mdps :=
      Arduino.map decoded_pwm_val_vibration 0 CH32_PWM_MAX_DUTY_VALUE 0 MAX_VIBRATION_MDPS in
    Arduino.map decoded_vibration_mdps 0 MAX_VIBRATION_MDPS
      MIN_DISPLAY_VIBRATION_MILLI_G MAX_DISPLAY_VIBRATION_MILLI_G
  else 0.

(** decodePwmSignals: the two reference parameters become the result
    pair [(decoded_tilt, decoded_vibration_milli_g)]. *)
Definition decodePwmSignals (tilt_pin vibration_pin : Arduino.pin_activity) : Z * Z :=
  let tilt_pulse_us :=
    Int.wrap32 (Arduino.pulseIn tilt_pin (Int.mul TILT_PWM_PERIOD_US 2)) in
  let vibration_pulse_us :=
    Int.wrap32 (Arduino.pulseIn vibration_pin (Int.mul VIBRATION_PWM_PERIOD_US 2)) in
  (decode_tilt tilt_pulse_us, decode_vibration vibration_pulse_us).

(** ** Wake windows (ulp_vars) *)

Definition SENSOR_WINDOW_MARGIN : Z := 100.
Definition DATA_READY_THRESHOLD : Z := 2000.
(** Largest sample of [ADC_WIDTH_BIT_12], the width every analog pin is
    configured with. *)
Definition ADC_MAX : Z := 4095.

(** The RTC block shared with the ULP.  Each field is the 16-bit [val]
    of an [ulp_var_t]. *)
Record ulp_vars_t := mk_ulp_vars {
  rain_lower : Z;
  rain_upper : Z;
  last_rain_val : Z;
  soil_lower : Z;
  soil_upper : Z;
  last_soil_val : Z;
  last_ready_val : Z;
  triggered_count : Z
}.

(** [(x > SENSOR_WINDOW_MARGIN) ? x - SENSOR_WINDOW_MARGIN : 0], stored
    into a [val] field. *)
Definition window_lower (x : Z) : Z :=
  Int.to_u16 (if SENSOR_WINDOW_MARGIN <? x then Int.sub x SENSOR_WINDOW_MARGIN else 0).

(** [x + SENSOR_WINDOW_MARGIN], stored into a [val] field. *)
Definition window_upper (x : Z) : Z :=
  Int.to_u16 (Int.add x SENSOR_WINDOW_MARGIN).

(** setup(), deep-sleep wake-up branch: "Update ULP thresholds based on
    last read values for next deep sleep cycle". *)
Definition setup_wake_thresholds (u : ulp_vars_t) : ulp_vars_t :=
  let rain := Int.to_u16 (last_rain_val u) in
  let soil := Int.to_u16 (last_soil_val u) in
  {| rain_lower := window_lower rain;
     rain_upper := window_upper rain;
     last_rain_val := last_rain_val u;
     soil_lower := window_lower soil;
     soil_upper := window_upper soil;
     last_soil_val := last_soil_val u;
     last_ready_val := last_ready_val u;
     triggered_count := triggered_count u |}.

(** The assignments both loop() paths make once they have fresh samples. *)
Definition store_samples (currentRainADC currentSoilADC currentReadyADC : Z)
    (u : ulp_vars_t) : ulp_vars_t :=
  {| rain_lower := window_lower currentRainADC;
     rain_upper := window_upper currentRainADC;
     last_rain_val := Int.to_u16 currentRainADC;
     soil_lower := window_lower currentSoilADC;
     soil_upper := window_upper currentSoilADC;
     last_soil_val := Int.to_u16 currentSoilADC;
     last_ready_val := Int.to_u16 currentReadyADC;
     triggered_count := triggered_count u |}.

(** loop(), STANDBY_MODE, ROLE_RECEIVER: has a local sensor moved? *)
Definition local_sensor_changed (currentRainADC currentSoilADC currentReadyADC : Z)
    (u : ulp_vars_t) : bool :=
  let rainChanged :=
    SENSOR_WINDOW_MARGIN <? Int.abs (Int.sub currentRainADC (last_rain_val u)) in
  let soilChanged :=
    SENSOR_WINDOW_MARGIN <? Int.abs (Int.sub currentSoilADC (last_soil_val u)) in
  let readyChanged := DATA_READY_THRESHOLD <=? currentReadyADC in
  rainChanged || soilChanged || readyChanged.

(** loop(), STANDBY_MODE, ROLE_RECEIVER: the local-sensor check. *)
Definition loop_receiver_local_sensors
    (currentRainADC currentSoilADC currentReadyADC : Z) (u : ulp_vars_t) : ulp_vars_t :=
  if local_sensor_changed currentRainADC currentSoilADC currentReadyADC u
  then store_samples currentRainADC currentSoilADC currentReadyADC u
  else u.

(** loop(), DATA_COLLECTION_MODE: "Update RTC variables for consistency". *)
Definition loop_data_collection_samples
    (currentRainADC currentSoilADC currentReadyADC : Z) (u : ulp_vars_t) : ulp_vars_t :=
  store_samples currentRainADC currentSoilADC currentReadyADC u.

(** A wake window as the specification names it. *)
Record WakeWindow := mk_window { lower : Z; upper : Z; lastValue : Z }.

Definition rain_window (u : ulp_vars_t) : WakeWindow :=
  {| lower := rain_lower u; upper := rain_upper u; lastValue := last_rain_val u |}.
Definition soil_window (u : ulp_vars_t) : WakeWindow :=
  {| lower := soil_lower u; upper := soil_upper u; lastValue := last_soil_val u |}.

(** The window is centred on [v]. *)
Definition centred_on (v : Z) (w : WakeWindow) : Prop :=
  lower w = Z.max 0 (v - SENSOR_WINDOW_MARGIN) /\
  upper w = v + SENSOR_WINDOW_MARGIN /\
  lower w <= v <= upper w.

(** ** Data model of the node *)

Definition FAILOVER_THRESHOLD : Z := 3.
Definition ESP_NOW_ETH_ALEN : nat := 6.

Inductive node_role_t := ROLE_SENDER | ROLE_RECEIVER.
Inductive operating_mode_t := STANDBY_MODE | DATA_COLLECTION_MODE.
Inductive message_type_t :=
  MSG_TYPE_DATA | MSG_TYPE_PROBE | MSG_TYPE_ANNOUNCE_AR | MSG_TYPE_MODE_CHANGE.
Inductive esp_now_send_status_t := ESP_NOW_SEND_SUCCESS | ESP_NOW_SEND_FAIL.
Inductive wifi_mode_t := WIFI_STA | WIFI_AP_STA.
Inductive HTTPMethod := HTTP_GET | HTTP_POST.
(** The two request handlers a route can point at. *)
Inductive handler_t := HandleSensorData | HandleSetMode.

Definition role_eqb (a b : node_role_t) : bool :=
  match a, b with
  | ROLE_SENDER, ROLE_SENDER | ROLE_RECEIVER, ROLE_RECEIVER => true
  | _, _ => false
  end.

Definition mode_eqb (a b : operating_mode_t) : bool :=
  match a, b with
  | STANDBY_MODE, STANDBY_MODE | DATA_COLLECTION_MODE, DATA_COLLECTION_MODE => true
  | _, _ => false
  end.

Definition method_eqb (a b : HTTPMethod) : bool :=
  match a, b with
  | HTTP_GET, HTTP_GET | HTTP_POST, HTTP_POST => true
  | _, _ => false
  end.

(** The enumerator's integer value, as stored by [nvs_set_i8]. *)
Definition mode_value (m : operating_mode_t) : Z :=
  match m with STANDBY_MODE => 0 | DATA_COLLECTION_MODE => 1 end.

(** A link address: six bytes. *)
Definition mac_t := list Z.

Definition broadcastMac : mac_t := [255; 255; 255; 255; 255; 255].

(** The table node.ino is built with. *)
Definition nodeMacs_default : list mac_t :=
  [ [16; 6; 28; 130; 112; 84];
    [92; 1; 59; 78; 8; 252];
    [240; 36; 249; 89; 211; 188] ].

(** [memcmp(a, b, ESP_NOW_ETH_ALEN) == 0] *)
Definition mac_equal (a b : mac_t) : bool :=
  bool_decide (take ESP_NOW_ETH_ALEN a = take ESP_NOW_ETH_ALEN b).

Record struct_message := mk_message {
  type : message_type_t;
  senderId : Z;                 (* uint8_t *)
  wakeCounter : Z;
  tilt_centi_deg : Z;
  vibration_milli_g : Z;
  rain_adc_value : Z;
  soil_adc_value : Z;
  newMode : operating_mode_t;
  dummy_payload : list Z
}.

(** [sizeof(struct_message)]: packed, two 4-byte enums, one byte, five
    4-byte integers, four payload bytes. *)
Definition sizeof_struct_message : Z := 4 + 1 + 4 + 4 + 4 + 4 + 4 + 4 + 4.

Record CurrentSensorReadings := mk_readings {
  mac_addr : mac_t;
  r_rain_adc_value : Z;
  r_soil_adc_value : Z;
  r_vibration_milli_g : Z;
  r_tilt_centi_deg : Z;
  lastUpdated : Z;
  initialized : bool
}.

Definition blank_readings : CurrentSensorReadings :=
  mk_readings [] 0 0 0 0 0 false.

(** One answer of [server.send(code, content_type, content)]. *)
Record http_reply := mk_reply {
  code : Z;
  content_type : string;
  content : string
}.

(** One [server.on(uri, method, handler)] registration. *)
Record route := mk_route {
  route_uri : string;
  route_method : HTTPMethod;
  route_handler : handler_t
}.

(** The globals of node.ino that the modelled functions read or write,
    followed by the state of the outside world they act on.  The timers
    and counters that only setup() and loop() use are left out. *)
Record State := mkState {
  nodeMacs : list mac_t;
  failedLastSend : bool;
  lastAnnouncedAR : Z;
  consecutiveSendFailures : Z;
  lastFailedTargetId : Z;
  probingForFailover : bool;
  ulpJustWoke : bool;
  latestNodeData : list CurrentSensorReadings;
  myNodeId : Z;
  myRole : node_role_t;
  targetNodeId : Z;
  currentOperatingMode : operating_mode_t;
  messageToSend : struct_message;
  nodeModeSynced : list bool;
  (* NVS namespace "sensor_bridge" *)
  nvs_mode_flag : option Z;
  nvs_target_node_id : option Z;
  (* ULP co-processor: is the wake program loaded and running? *)
  ulp_running : bool;
  (* WiFi and WebServer *)
  wifi_mode : wifi_mode_t;
  softAP_up : bool;
  server_routes : list route;
  server_running : bool;
  (* everything handed to esp_now_send, oldest first *)
  radio_log : list (mac_t * struct_message);
  (* everything handed to server.send, oldest first *)
  reply_log : list http_reply
}.

(** [MAX_NODES]: [sizeof(nodeMacs) / ESP_NOW_ETH_ALEN], a [size_t]. *)
Definition MAX_NODES (s : State) : Z := Z.of_nat (List.length (nodeMacs s)).

(** *** Assignments to single globals *)

Definition set_failedLastSend (v : bool) (s : State) : State :=
  mkState
    (nodeMacs s) v (lastAnnouncedAR s) (consecutiveSendFailures s)
    (lastFailedTargetId s) (probingForFailover s) (ulpJustWoke s)
    (latestNodeData s) (myNodeId s) (myRole s) (targetNodeId s)
    (currentOperatingMode s) (messageToSend s) (nodeModeSynced s)
    (nvs_mode_flag s) (nvs_target_node_id s) (ulp_running s) (wifi_mode s)
    (softAP_up s) (server_routes s) (server_running s) (radio_log s)
    (reply_log s).
Definition set_lastAnnouncedAR (v : Z) (s : State) : State :=
  mkState
    (nodeMacs s) (failedLastSend s) v (consecutiveSendFailures s)
    (lastFailedTargetId s) (probingForFailover s) (ulpJustWoke s)
    (latestNodeData s) (myNodeId s) (myRole s) (targetNodeId s)
    (currentOperatingMode s) (messageToSend s) (nodeModeSynced s)
    (nvs_mode_flag s) (nvs_target_node_id s) (ulp_running s) (wifi_mode s)
    (softAP_up s) (server_routes s) (server_running s) (radio_log s)
    (reply_log s).
Definition set_consecutiveSendFailures (v : Z) (s : State) : State :=
  mkState
    (nodeMacs s) (failedLastSend s) (lastAnnouncedAR s) v
    (lastFailedTargetId s) (probingForFailover s) (ulpJustWoke s)
    (latestNodeData s) (myNodeId s) (myRole s) (targetNodeId s)
    (currentOperatingMode s) (messageToSend s) (nodeModeSynced s)
    (nvs_mode_flag s) (nvs_target_node_id s) (ulp_running s) (wifi_mode s)
    (softAP_up s) (server_routes s) (server_running s) (radio_log s)
    (reply_log s).
Definition set_lastFailedTargetId (v : Z) (s : State) : State :=
  mkState
    (nodeMacs s) (failedLastSend s) (lastAnnouncedAR s)
    (consecutiveSendFailures s) v (probingForFailover s) (ulpJustWoke s)
    (latestNodeData s) (myNodeId s) (myRole s) (targetNodeId s)
    (currentOperatingMode s) (messageToSend s) (nodeModeSynced s)
    (nvs_mode_flag s) (nvs_target_node_id s) (ulp_running s) (wifi_mode s)
    (softAP_up s) (server_routes s) (server_running s) (radio_log s)
    (reply_log s).
Definition set_probingForFailover (v : bool) (s : State) : State :=
  mkState
    (nodeMacs s) (failedLastSend s) (lastAnnouncedAR s)
    (consecutiveSendFailures s) (lastFailedTargetId s) v (ulpJustWoke s)
    (latestNodeData s) (myNodeId s) (myRole s) (targetNodeId s)
    (currentOperatingMode s) (messageToSend s) (nodeModeSynced s)
    (nvs_mode_flag s) (nvs_target_node_id s) (ulp_running s) (wifi_mode s)
    (softAP_up s) (server_routes s) (server_running s) (radio_log s)
    (reply_log s).
Definition set_ulpJustWoke (v : bool) (s : State) : State :=
  mkState
    (nodeMacs s) (failedLastSend s) (lastAnnouncedAR s)
    (consecutiveSendFailures s) (lastFailedTargetId s) (probingForFailover s)
    v (latestNodeData s) (myNodeId s) (myRole s) (targetNodeId s)
    (currentOperatingMode s) (messageToSend s) (nodeModeSynced s)
    (nvs_mode_flag s) (nvs_target_node_id s) (ulp_running s) (wifi_mode s)
    (softAP_up s) (server_routes s) (server_running s) (radio_log s)
    (reply_log s).
Definition set_latestNodeData (v : list CurrentSensorReadings) (s : State) : State :=
  mkState
    (nodeMacs s) (failedLastSend s) (lastAnnouncedAR s)
    (consecutiveSendFailures s) (lastFailedTargetId s) (probingForFailover s)
    (ulpJustWoke s) v (myNodeId s) (myRole s) (targetNodeId s)
    (currentOperatingMode s) (messageToSend s) (nodeModeSynced s)
    (nvs_mode_flag s) (nvs_target_node_id s) (ulp_running s) (wifi_mode s)
    (softAP_up s) (server_routes s) (server_running s) (radio_log s)
    (reply_log s).
Definition set_myRole (v : node_role_t) (s : State) : State :=
  mkState
    (nodeMacs s) (failedLastSend s) (lastAnnouncedAR s)
    (consecutiveSendFailures s) (lastFailedTargetId s) (probingForFailover s)
    (ulpJustWoke s) (latestNodeData s) (myNodeId s) v (targetNodeId s)
    (currentOperatingMode s) (messageToSend s) (nodeModeSynced s)
    (nvs_mode_flag s) (nvs_target_node_id s) (ulp_running s) (wifi_mode s)
    (softAP_up s) (server_routes s) (server_running s) (radio_log s)
    (reply_log s).
Definition set_targetNodeId (v : Z) (s : State) : State :=
  mkState
    (nodeMacs s) (failedLastSend s) (lastAnnouncedAR s)
    (consecutiveSendFailures s) (lastFailedTargetId s) (probingForFailover s)
    (ulpJustWoke s) (latestNodeData s) (myNodeId s) (myRole s) v
    (currentOperatingMode s) (messageToSend s) (nodeModeSynced s)
    (nvs_mode_flag s) (nvs_target_node_id s) (ulp_running s) (wifi_mode s)
    (softAP_up s) (server_routes s) (server_running s) (radio_log s)
    (reply_log s).
Definition set_currentOperatingMode (v : operating_mode_t) (s : State) : State :=
  mkState
    (nodeMacs s) (failedLastSend s) (lastAnnouncedAR s)
    (consecutiveSendFailures s) (lastFailedTargetId s) (probingForFailover s)
    (ulpJustWoke s) (latestNodeData s) (myNodeId s) (myRole s)
    (targetNodeId s) v (messageToSend s) (nodeModeSynced s) (nvs_mode_flag s)
    (nvs_target_node_id s) (ulp_running s) (wifi_mode s) (softAP_up s)
    (server_routes s) (server_running s) (radio_log s) (reply_log s).
Definition set_messageToSend (v : struct_message) (s : State) : State :=
  mkState
    (nodeMacs s) (failedLastSend s) (lastAnnouncedAR s)
    (consecutiveSendFailures s) (lastFailedTargetId s) (probingForFailover s)
    (ulpJustWoke s) (latestNodeData s) (myNodeId s) (myRole s)
    (targetNodeId s) (currentOperatingMode s) v (nodeModeSynced s)
    (nvs_mode_flag s) (nvs_target_node_id s) (ulp_running s) (wifi_mode s)
    (softAP_up s) (server_routes s) (server_running s) (radio_log s)
    (reply_log s).
Definition set_nodeModeSynced (v : list bool) (s : State) : State :=
  mkState
    (nodeMacs s) (failedLastSend s) (lastAnnouncedAR s)
    (consecutiveSendFailures s) (lastFailedTargetId s) (probingForFailover s)
    (ulpJustWoke s) (latestNodeData s) (myNodeId s) (myRole s)
    (targetNodeId s) (currentOperatingMode s) (messageToSend s) v
    (nvs_mode_flag s) (nvs_target_node_id s) (ulp_running s) (wifi_mode s)
    (softAP_up s) (server_routes s) (server_running s) (radio_log s)
    (reply_log s).
Definition set_nvs_mode_flag (v : option Z) (s : State) : State :=
  mkState
    (nodeMacs s) (failedLastSend s) (lastAnnouncedAR s)
    (consecutiveSendFailures s) (lastFailedTargetId s) (probingForFailover s)
    (ulpJustWoke s) (latestNodeData s) (myNodeId s) (myRole s)
    (targetNodeId s) (currentOperatingMode s) (messageToSend s)
    (nodeModeSynced s) v (nvs_target_node_id s) (ulp_running s) (wifi_mode s)
    (softAP_up s) (server_routes s) (server_running s) (radio_log s)
    (reply_log s).
Definition set_nvs_target_node_id (v : option Z) (s : State) : State :=
  mkState
    (nodeMacs s) (failedLastSend s) (lastAnnouncedAR s)
    (consecutiveSendFailures s) (lastFailedTargetId s) (probingForFailover s)
    (ulpJustWoke s) (latestNodeData s) (myNodeId s) (myRole s)
    (targetNodeId s) (currentOperatingMode s) (messageToSend s)
    (nodeModeSynced s) (nvs_mode_flag s) v (ulp_running s) (wifi_mode s)
    (softAP_up s) (server_routes s) (server_running s) (radio_log s)
    (reply_log s).
Definition set_ulp_running (v : bool) (s : State) : State :=
  mkState
    (nodeMacs s) (failedLastSend s) (lastAnnouncedAR s)
    (consecutiveSendFailures s) (lastFailedTargetId s) (probingForFailover s)
    (ulpJustWoke s) (latestNodeData s) (myNodeId s) (myRole s)
    (targetNodeId s) (currentOperatingMode s) (messageToSend s)
    (nodeModeSynced s) (nvs_mode_flag s) (nvs_target_node_id s) v
    (wifi_mode s) (softAP_up s) (server_routes s) (server_running s)
    (radio_log s) (reply_log s).
Definition set_wifi_mode (v : wifi_mode_t) (s : State) : State :=
  mkState
    (nodeMacs s) (failedLastSend s) (lastAnnouncedAR s)
    (consecutiveSendFailures s) (lastFailedTargetId s) (probingForFailover s)
    (ulpJustWoke s) (latestNodeData s) (myNodeId s) (myRole s)
    (targetNodeId s) (currentOperatingMode s) (messageToSend s)
    (nodeModeSynced s) (nvs_mode_flag s) (nvs_target_node_id s)
    (ulp_running s) v (softAP_up s) (server_routes s) (server_running s)
    (radio_log s) (reply_log s).
Definition set_softAP_up (v : bool) (s : State) : State :=
  mkState
    (nodeMacs s) (failedLastSend s) (lastAnnouncedAR s)
    (consecutiveSendFailures s) (lastFailedTargetId s) (probingForFailover s)
    (ulpJustWoke s) (latestNodeData s) (myNodeId s) (myRole s)
    (targetNodeId s) (currentOperatingMode s) (messageToSend s)
    (nodeModeSynced s) (nvs_mode_flag s) (nvs_target_node_id s)
    (ulp_running s) (wifi_mode s) v (server_routes s) (server_running s)
    (radio_log s) (reply_log s).
Definition set_server_routes (v : list route) (s : State) : State :=
  mkState
    (nodeMacs s) (failedLastSend s) (lastAnnouncedAR s)
    (consecutiveSendFailures s) (lastFailedTargetId s) (probingForFailover s)
    (ulpJustWoke s) (latestNodeData s) (myNodeId s) (myRole s)
    (targetNodeId s) (currentOperatingMode s) (messageToSend s)
    (nodeModeSynced s) (nvs_mode_flag s) (nvs_target_node_id s)
    (ulp_running s) (wifi_mode s) (softAP_up s) v (server_running s)
    (radio_log s) (reply_log s).
Definition set_server_running (v : bool) (s : State) : State :=
  mkState
    (nodeMacs s) (failedLastSend s) (lastAnnouncedAR s)
    (consecutiveSendFailures s) (lastFailedTargetId s) (probingForFailover s)
    (ulpJustWoke s) (latestNodeData s) (myNodeId s) (myRole s)
    (targetNodeId s) (currentOperatingMode s) (messageToSend s)
    (nodeModeSynced s) (nvs_mode_flag s) (nvs_target_node_id s)
    (ulp_running s) (wifi_mode s) (softAP_up s) (server_routes s) v
    (radio_log s) (reply_log s).
Definition set_radio_log (v : list (mac_t * struct_message)) (s : State) : State :=
  mkState
    (nodeMacs s) (failedLastSend s) (lastAnnouncedAR s)
    (consecutiveSendFailures s) (lastFailedTargetId s) (probingForFailover s)
    (ulpJustWoke s) (latestNodeData s) (myNodeId s) (myRole s)
    (targetNodeId s) (currentOperatingMode s) (messageToSend s)
    (nodeModeSynced s) (nvs_mode_flag s) (nvs_target_node_id s)
    (ulp_running s) (wifi_mode s) (softAP_up s) (server_routes s)
    (server_running s) v (reply_log s).
Definition set_reply_log (v : list http_reply) (s : State) : State :=
  mkState
    (nodeMacs s) (failedLastSend s) (lastAnnouncedAR s)
    (consecutiveSendFailures s) (lastFailedTargetId s) (probingForFailover s)
    (ulpJustWoke s) (latestNodeData s) (myNodeId s) (myRole s)
    (targetNodeId s) (currentOperatingMode s) (messageToSend s)
    (nodeModeSynced s) (nvs_mode_flag s) (nvs_target_node_id s)
    (ulp_running s) (wifi_mode s) (softAP_up s) (server_routes s)
    (server_running s) (radio_log s) v.

(** *** Assignments to single fields of a message *)

Definition msg_set_type (v : message_type_t) (m : struct_message) : struct_message :=
  mk_message
    v (senderId m) (wakeCounter m) (tilt_centi_deg m) (vibration_milli_g m)
    (rain_adc_value m) (soil_adc_value m) (newMode m) (dummy_payload m).
Definition msg_set_senderId (v : Z) (m : struct_message) : struct_message :=
  mk_message
    (type m) v (wakeCounter m) (tilt_centi_deg m) (vibration_milli_g m)
    (rain_adc_value m) (soil_adc_value m) (newMode m) (dummy_payload m).
Definition msg_set_wakeCounter (v : Z) (m : struct_message) : struct_message :=
  mk_message
    (type m) (senderId m) v (tilt_centi_deg m) (vibration_milli_g m)
    (rain_adc_value m) (soil_adc_value m) (newMode m) (dummy_payload m).
Definition msg_set_newMode (v : operating_mode_t) (m : struct_message) : struct_message :=
  mk_message
    (type m) (senderId m) (wakeCounter m) (tilt_centi_deg m)
    (vibration_milli_g m) (rain_adc_value m) (soil_adc_value m) v
    (dummy_payload m).

(** ** Arduino [String] and WebServer request helpers

    Library code again: [String(n)] prints a decimal, [%02X] two
    upper-case hexadecimal digits, [equalsIgnoreCase] compares after
    lower-casing, [toInt] is [atol] (optional blanks and sign, then as
    many digits as there are, clamped to the range of [long]). *)

Open Scope string_scope.
Open Scope Z_scope.

Definition dq : string := String "034"%char EmptyString.
(** [quoted s] is [s] between two double quotes. *)
Definition quoted (s : string) : string := dq ++ s ++ dq.

Definition String_of_int (n : Z) : string := NilEmpty.string_of_int (Z.to_int n).

Definition hex_digit (n : Z) : ascii :=
  if n <? 10 then ascii_of_nat (Z.to_nat (48 + n)) else ascii_of_nat (Z.to_nat (55 + n)).

Definition hex02X (b : Z) : string :=
  let b := Int.to_u8 b in
  String (hex_digit (b / 16)) (String (hex_digit (b mod 16)) EmptyString).

Definition tolower (c : ascii) : ascii :=
  let n := nat_of_ascii c in
  if ((65 <=? n) && (n <=? 90))%nat then ascii_of_nat (n + 32) else c.

Fixpoint equalsIgnoreCase (a b : string) : bool :=
  match a, b with
  | EmptyString, EmptyString => true
  | String x a', String y b' => Ascii.eqb (tolower x) (tolower y) && equalsIgnoreCase a' b'
  | _, _ => false
  end.

Definition is_space (c : ascii) : bool :=
  let n := nat_of_ascii c in ((n =? 32) || ((9 <=? n) && (n <=? 13)))%nat.

Definition digit_of (c : ascii) : option Z :=
  let n := Z.of_nat (nat_of_ascii c) in
  if (48 <=? n) && (n <=? 57) then Some (n - 48) else None.

Fixpoint skip_spaces (s : string) : string :=
  match s with
  | String c rest => if is_space c then skip_spaces rest else s
  | EmptyString => s
  end.

Fixpoint read_digits (s : string) (acc : Z) : Z :=
  match s with
  | String c rest =>
      match digit_of c with
      | Some d => read_digits rest (10 * acc + d)
      | None => acc
      end
  | EmptyString => acc
  end.

Definition clamp_long (z : Z) : Z := Z.max (- 2 ^ 31) (Z.min (2 ^ 31 - 1) z).

Definition toInt (s : string) : Z :=
  match skip_spaces s with
  | String "-"%char rest => clamp_long (- read_digits rest 0)
  | String "+"%char rest => clamp_long (read_digits rest 0)
  | digits => clamp_long (read_digits digits 0)
  end.

(** The query arguments of the request being served. *)
Definition request_args := list (string * string).

Definition hasArg (args : request_args) (name : string) : bool :=
  existsb (fun kv => String.eqb (fst kv) name) args.

Definition arg (args : request_args) (name : string) : string :=
  match List.find (fun kv => String.eqb (fst kv) name) args with
  | Some kv => snd kv
  | None => EmptyString
  end.

(** ** Calls into the vendor libraries *)

Definition getNodeIdFromMac_from (mac : mac_t) : list mac_t -> Z -> Z :=
  fix go (table : list mac_t) (i : Z) : Z :=
    match table with
    | [] => 0
    | entry :: rest => if mac_equal mac entry then Int.add i 1 else go rest (Int.add i 1)
    end.

(** getNodeIdFromMac: the 1-based position of [mac] in [nodeMacs], 0
    when it is not there. *)
Definition getNodeIdFromMac (s : State) (mac : mac_t) : Z :=
  getNodeIdFromMac_from mac (nodeMacs s) 0.

(** writeModeToNVS, on the path where the flash driver answers ESP_OK. *)
Definition writeModeToNVS (mode : operating_mode_t) (s : State) : State :=
  set_nvs_mode_flag (Some (Int.to_i8 (mode_value mode))) s.

(** writeTargetNodeIdToNVS, on the path where the flash driver answers
    ESP_OK. *)
Definition writeTargetNodeIdToNVS (id : Z) (s : State) : State :=
  set_nvs_target_node_id (Some (Int.to_i8 id)) s.

(** [esp_now_send(mac, &messageToSend, sizeof(messageToSend))] *)
Definition esp_now_send (mac : mac_t) (s : State) : State :=
  set_radio_log (radio_log s ++ [(mac, messageToSend s)])%list s.

(** [server.send(code, content_type, content)] *)
Definition server_send (c : Z) (ctype body : string) (s : State) : State :=
  set_reply_log (reply_log s ++ [mk_reply c ctype body])%list s.

(** ulp_init loads the wake program and starts it. *)
Definition ulp_init (s : State) : State := set_ulp_running true s.
Definition hulp_ulp_end (s : State) : State := set_ulp_running false s.

(** The recurring "reconfigure the ULP for the current mode" step. *)
Definition reconfigure_ulp (s : State) : State :=
  match currentOperatingMode s with
  | STANDBY_MODE => ulp_init s
  | DATA_COLLECTION_MODE => hulp_ulp_end s
  end.

(** [for (int i = 0; i <= MAX_NODES; ++i) nodeModeSynced[i] = false;]
    on the array of [MAX_NODES + 1] flags. *)
Definition reset_nodeModeSynced (s : State) : State :=
  set_nodeModeSynced (replicate (S (List.length (nodeMacs s))) false) s.

(** Fill in [messageToSend] for an ANNOUNCE_AR and broadcast it. *)
Definition broadcast_announce_ar (s : State) : State :=
  let m := messageToSend s in
  let m := msg_set_type MSG_TYPE_ANNOUNCE_AR m in
  let m := msg_set_senderId (Int.to_u8 (myNodeId s)) m in
  let m := msg_set_newMode (currentOperatingMode s) m in
  esp_now_send broadcastMac (set_messageToSend m s).

(** ** TCP server handlers *)

Definition mac_string_from : nat -> list Z -> string :=
  fix go (i : nat) (bytes : list Z) : string :=
    match bytes with
    | [] => EmptyString
    | b :: rest =>
        (match i with O => EmptyString | S _ => ":" end) ++ hex02X b ++ go (S i) rest
    end.

(** The colon-separated upper-case form of the six address bytes. *)
Definition macString_of (mac : mac_t) : string :=
  mac_string_from O (take ESP_NOW_ETH_ALEN mac).

Definition sensor_data_json (requestedNodeId : Z) (d : CurrentSensorReadings) : string :=
  let json := "{" in
  let json := json ++ quoted "nodeId" ++ ": " ++ String_of_int requestedNodeId ++ "," in
  let json := json ++ quoted "mac" ++ ": " ++ quoted (macString_of (mac_addr d)) ++ "," in
  let json := json ++ quoted "rain" ++ ": " ++ String_of_int (r_rain_adc_value d) ++ "," in
  let json := json ++ quoted "soil" ++ ": " ++ String_of_int (r_soil_adc_value d) ++ "," in
  let json :=
    json ++ quoted "vibration" ++ ": " ++ String_of_int (r_vibration_milli_g d) ++ "," in
  let json := json ++ quoted "tilt" ++ ": " ++ String_of_int (r_tilt_centi_deg d) ++ "," in
  let json := json ++ quoted "lastUpdated" ++ ": " ++ String_of_int (lastUpdated d) in
  json ++ "}".

Definition sensor_data_not_found : string :=
  "{" ++ quoted "error" ++ ":"
      ++ quoted "Sensor data for requested nodeId not found or invalid." ++ "}".

(** [latestNodeData[i]] *)
Definition node_data (s : State) (i : Z) : CurrentSensorReadings :=
  default blank_readings (latestNodeData s !! Z.to_nat i).

(** handleSensorData *)
Definition handleSensorData (args : request_args) (s : State) : State :=
  let requestedNodeId :=
    if hasArg args "nodeId" then Int.wrap32 (toInt (arg args "nodeId")) else myNodeId s in
  if (1 <=? requestedNodeId)
     && Int.le_size requestedNodeId (MAX_NODES s)
     && initialized (node_data s requestedNodeId)
  then
    server_send 200 "application/json"
      (sensor_data_json requestedNodeId (node_data s requestedNodeId)) s
  else
    server_send 404 "application/json" sensor_data_not_found s.

Definition set_mode_invalid : string :=
  "{" ++ quoted "error" ++ ":"
      ++ quoted "Invalid mode specified. Use 'standby' or 'data_collection'." ++ "}".

Definition set_mode_missing : string :=
  "{" ++ quoted "error" ++ ":"
      ++ quoted ("Mode parameter missing. Use /set_mode?mode=standby "
                 ++ "or /set_mode?mode=data_collection.") ++ "}".

Definition set_mode_success (modeStr : string) : string :=
  "{" ++ quoted "status" ++ ":" ++ quoted "success" ++ ", "
      ++ quoted "newMode" ++ ":" ++ quoted modeStr ++ "}".

Definition set_mode_unchanged (modeStr : string) : string :=
  "{" ++ quoted "status" ++ ":" ++ quoted "unchanged" ++ ", "
      ++ quoted "currentMode" ++ ":" ++ quoted modeStr ++ ", "
      ++ quoted "message" ++ ":" ++ quoted ("Mode already set to " ++ modeStr ++ ".")
      ++ "}".

(** The mode a [mode=] argument names, if any. *)
Definition parse_mode (modeStr : string) : option operating_mode_t :=
  if equalsIgnoreCase modeStr "standby" then Some STANDBY_MODE
  else if equalsIgnoreCase modeStr "data_collection" then Some DATA_COLLECTION_MODE
  else None.

(** Fill in [messageToSend] for a MODE_CHANGE and broadcast it five
    times. *)
Definition broadcast_mode_change (s : State) : State :=
  let m := messageToSend s in
  let m := msg_set_type MSG_TYPE_MODE_CHANGE m in
  let m := msg_set_senderId (Int.to_u8 (myNodeId s)) m in
  let m := msg_set_newMode (currentOperatingMode s) m in
  Nat.iter 5 (esp_now_send broadcastMac) (set_messageToSend m s).

(** handleSetMode *)
Definition handleSetMode (args : request_args) (s : State) : State :=
  if hasArg args "mode" then
    let modeStr := arg args "mode" in
    match parse_mode modeStr with
    | None => server_send 400 "application/json" set_mode_invalid s
    | Some newMode =>
        if negb (mode_eqb (currentOperatingMode s) newMode) then
          let s := set_currentOperatingMode newMode s in
          let s := writeModeToNVS (currentOperatingMode s) s in
          let s := broadcast_mode_change s in
          let s := reconfigure_ulp s in
          let s :=
            if myNodeId s =? 1
            then broadcast_announce_ar (reset_nodeModeSynced s)
            else s in
          server_send 200 "application/json" (set_mode_success modeStr) s
        else
          server_send 200 "application/json" (set_mode_unchanged modeStr) s
    end
  else
    server_send 400 "application/json" set_mode_missing s.

(** ** Role management *)

(** becomeActiveReceiver *)
Definition becomeActiveReceiver (s : State) : State :=
  let s := set_myRole ROLE_RECEIVER s in
  let s := set_targetNodeId 0 s in
  let s := set_lastAnnouncedAR (myNodeId s) s in
  let s := set_consecutiveSendFailures 0 s in
  let s := writeTargetNodeIdToNVS (targetNodeId s) s in
  let s := set_wifi_mode WIFI_AP_STA s in
  let s := set_softAP_up true s in
  let s :=
    set_server_routes
      (server_routes s
         ++ [mk_route "/sensor_data" HTTP_GET HandleSensorData;
             mk_route "/set_mode" HTTP_GET HandleSetMode])%list s in
  let s := set_server_running true s in
  let s := reset_nodeModeSynced s in
  broadcast_announce_ar s.

(** becomeSender *)
Definition becomeSender (newTargetId : Z) (s : State) : State :=
  let newTargetId :=
    if (newTargetId <? 1) || Int.gt_size newTargetId (MAX_NODES s) then 1 else newTargetId in
  let s := set_myRole ROLE_SENDER s in
  let s := set_targetNodeId newTargetId s in
  let s := set_lastAnnouncedAR newTargetId s in
  let s := set_consecutiveSendFailures 0 s in
  let s := writeTargetNodeIdToNVS (targetNodeId s) s in
  let s := set_wifi_mode WIFI_STA s in
  let s := set_softAP_up false s in
  set_server_running false s.

(** findNewTargetAndFailover *)
Definition findNewTargetAndFailover (s : State) : State :=
  let failedNodeId := lastFailedTargetId s in
  if failedNodeId =? 0 then
    let s := set_consecutiveSendFailures 0 s in
    let s := set_lastFailedTargetId 0 s in
    becomeSender 1 s
  else
    let expectedNewAR := Int.add failedNodeId 1 in
    if Int.gt_size expectedNewAR (MAX_NODES s) || (expectedNewAR =? myNodeId s)
    then becomeActiveReceiver s
    else becomeSender expectedNewAR s.

(** ** ESP-NOW callbacks *)

(** onDataSent *)
Definition onDataSent (mac : mac_t) (status : esp_now_send_status_t) (s : State) : State :=
  let remoteId := getNodeIdFromMac s mac in
  match status with
  | ESP_NOW_SEND_SUCCESS =>
      let s := set_consecutiveSendFailures 0 s in
      let s := set_probingForFailover false s in
      let s := set_failedLastSend false s in
      set_ulpJustWoke false s
  | ESP_NOW_SEND_FAIL =>
      let s := set_failedLastSend true s in
      if remoteId =? targetNodeId s then
        let s := set_consecutiveSendFailures (Int.add (consecutiveSendFailures s) 1) s in
        let s := set_lastFailedTargetId remoteId s in
        if FAILOVER_THRESHOLD <=? consecutiveSendFailures s then
          let s := findNewTargetAndFailover s in
          set_failedLastSend false s
        else s
      else s
  end.

(** Fill in [messageToSend] for an ANNOUNCE_AR answer, send it to [mac]
    and mark the peer as synced. *)
Definition answer_announce_ar (mac : mac_t) (peer : Z) (s : State) : State :=
  let m := messageToSend s in
  let m := msg_set_type MSG_TYPE_ANNOUNCE_AR m in
  let m := msg_set_senderId (Int.to_u8 (myNodeId s)) m in
  let m := msg_set_wakeCounter 0 m in
  let m := msg_set_newMode (currentOperatingMode s) m in
  let s := esp_now_send mac (set_messageToSend m s) in
  set_nodeModeSynced (<[Z.to_nat peer := true]> (nodeModeSynced s)) s.

(** The DATA branch's write to [latestNodeData[peer]]. *)
Definition store_node_data (now : Z) (mac : mac_t) (peer : Z) (msg : struct_message)
    (s : State) : State :=
  let entry :=
    {| mac_addr := take ESP_NOW_ETH_ALEN mac;
       r_rain_adc_value := rain_adc_value msg;
       r_soil_adc_value := soil_adc_value msg;
       r_vibration_milli_g := vibration_milli_g msg;
       r_tilt_centi_deg := tilt_centi_deg msg;
       lastUpdated := Int.to_u32 now;
       initialized := true |} in
  set_latestNodeData (<[Z.to_nat peer := entry]> (latestNodeData s)) s.

(** The ANNOUNCE_AR branch, first half ("AR Takeback Logic"): a
    receiver yields to a higher-priority announcer, a sender follows a
    different announcer. *)
Definition follow_announcer (sender : Z) (s : State) : State :=
  if role_eqb (myRole s) ROLE_RECEIVER && (sender <? myNodeId s) then
    reconfigure_ulp (becomeSender sender s)
  else if role_eqb (myRole s) ROLE_SENDER && negb (sender =? targetNodeId s) then
    becomeSender sender s
  else s.

(** The ANNOUNCE_AR branch, second half: "Handle mode synchronization
    if the AR's mode is different from ours". *)
Definition adopt_announced_mode (announced : operating_mode_t) (s : State) : State :=
  if negb (mode_eqb (currentOperatingMode s) announced) then
    let s := set_currentOperatingMode announced s in
    let s := writeModeToNVS (currentOperatingMode s) s in
    reconfigure_ulp s
  else s.

(** onDataRecv.  [msg] is the record the [len] received bytes are copied
    into, [now] is what [millis()] returns during the call. *)
Definition onDataRecv (now : Z) (mac : mac_t) (msg : struct_message) (len : Z)
    (s : State) : State :=
  let sender := getNodeIdFromMac s mac in
  if (sender =? 0) || negb (len =? sizeof_struct_message) then s
  else
    match type msg with
    | MSG_TYPE_ANNOUNCE_AR =>
        let s := set_lastAnnouncedAR (senderId msg) s in
        let s := follow_announcer sender s in
        adopt_announced_mode (newMode msg) s
    | MSG_TYPE_PROBE =>
        if role_eqb (myRole s) ROLE_RECEIVER then answer_announce_ar mac sender s else s
    | MSG_TYPE_DATA =>
        if role_eqb (myRole s) ROLE_RECEIVER then
          let s :=
            if (1 <=? sender) && Int.le_size sender (MAX_NODES s)
            then store_node_data now mac sender msg s
            else s in
          if negb (default false (nodeModeSynced s !! Z.to_nat sender))
          then answer_announce_ar mac sender s
          else s
        else s
    | MSG_TYPE_MODE_CHANGE =>
        if negb (mode_eqb (currentOperatingMode s) (newMode msg)) then
          let s := set_currentOperatingMode (newMode msg) s in
          let s := writeModeToNVS (currentOperatingMode s) s in
          let s := reconfigure_ulp s in
          if myNodeId s =? 1
          then broadcast_announce_ar (reset_nodeModeSynced s)
          else s
        else s
    end.

(** ** Request dispatch and the events a running node reacts to *)

(** [server.handleClient()] with one request waiting: the first
    registered route with this path and method runs; with none, the
    WebServer library answers 404 by itself. *)
Definition handleClient (method : HTTPMethod) (uri : string) (args : request_args)
    (s : State) : State :=
  if server_running s then
    match
      List.find
        (fun r => String.eqb (route_uri r) uri && method_eqb (route_method r) method)
        (server_routes s)
    with
    | Some r =>
        match route_handler r with
        | HandleSensorData => handleSensorData args s
        | HandleSetMode => handleSetMode args s
        end
    | None => server_send 404 "text/plain" ("Not found: " ++ uri) s
    end
  else s.

Inductive event :=
| DataRecv (now : Z) (mac : mac_t) (msg : struct_message) (len : Z)
| DataSent (mac : mac_t) (status : esp_now_send_status_t)
| HttpRequest (method : HTTPMethod) (uri : string) (args : request_args).

Definition react (e : event) (s : State) : State :=
  match e with
  | DataRecv now mac msg len => onDataRecv now mac msg len s
  | DataSent mac status => onDataSent mac status s
  | HttpRequest method uri args => handleClient method uri args s
  end.

(** The role as the specification writes it. *)
Inductive NodeRole := Sender (target : Z) | ActiveReceiver.

Definition role_of (s : State) : NodeRole :=
  match myRole s with
  | ROLE_SENDER => Sender (targetNodeId s)
  | ROLE_RECEIVER => ActiveReceiver
  end.

(** ** States used in the examples *)

Definition blank_message : struct_message :=
  mk_message MSG_TYPE_DATA 0 0 0 0 0 0 STANDBY_MODE [0; 0; 0; 0].

(** The globals as the C++ initialisers leave them, for node [id] of the
    default three-node table. *)
Definition boot_state (id : Z) : State :=
  {| nodeMacs := nodeMacs_default;
     failedLastSend := false;
     lastAnnouncedAR := 0;
     consecutiveSendFailures := 0;
     lastFailedTargetId := 0;
     probingForFailover := false;
     ulpJustWoke := false;
     latestNodeData := replicate 4 blank_readings;
     myNodeId := id;
     myRole := ROLE_SENDER;
     targetNodeId := 0;
     currentOperatingMode := STANDBY_MODE;
     messageToSend := blank_message;
     nodeModeSynced := replicate 4 false;
     nvs_mode_flag := None;
     nvs_target_node_id := None;
     ulp_running := false;
     wifi_mode := WIFI_STA;
     softAP_up := false;
     server_routes := [];
     server_running := false;
     radio_log := [];
     reply_log := [] |}.

(** ** Persistent storage: the reading side *)

(** The operating mode an [nvs_get_i8] byte casts to; [None] for a byte
    that is neither enumerator. *)
Definition mode_of_value (v : Z) : option operating_mode_t :=
  if v =? 0 then Some STANDBY_MODE
  else if v =? 1 then Some DATA_COLLECTION_MODE
  else None.

(** readModeFromNVS, on the path where the flash driver opens: the
    stored byte cast to the enumeration, STANDBY_MODE when the key is
    missing.  [None] stands for a stored byte outside the enumeration,
    which the C++ would carry around as an unnamed mode. *)
Definition readModeFromNVS (s : State) : option operating_mode_t :=
  match nvs_mode_flag s with
  | Some storedMode => mode_of_value storedMode
  | None => Some STANDBY_MODE
  end.

(** readTargetNodeIdFromNVS, on the path where the flash driver opens.
    The byte is written through [(int8_t* )&storedTargetId] into the
    lowest byte of an [int] that starts as 0, so it comes back
    unsigned. *)
Definition readTargetNodeIdFromNVS (s : State) : Z :=
  match nvs_target_node_id s with
  | Some stored => Int.to_u8 stored
  | None => 0
  end.

(** ** The ULP wake program (ulp_init)

    The instruction list of ulp_init, with the ULP co-processor's
    semantics for the instructions it uses: four 16-bit registers, an
    overflow flag that a subtraction sets when it borrows, loads and
    stores of the [val] half of an [ulp_var_t] at a base register that
    holds 0. *)

Module ULP.

Inductive reg := R0 | R1 | R2 | R3.
Inductive pin := PIN_ADC_RAIN | PIN_ADC_SOIL | PIN_ADC_READY.
Inductive label := LBL_SOIL_CHECK | LBL_READY_CHECK | LBL_TRIGGERED | LBL_HALT.
Inductive var :=
| v_rain_lower | v_rain_upper | v_last_rain_val
| v_soil_lower | v_soil_upper | v_last_soil_val
| v_last_ready_val | v_triggered_count.

Inductive insn :=
| I_MOVI (dest : reg) (imm : Z)
| I_ANALOG_READ (dest : reg) (p : pin)
| I_PUT (value base : reg) (v : var)
| I_GET (dest base : reg) (v : var)
| I_SUBR (dest a b : reg)
| I_ADDI (dest src : reg) (imm : Z)
| M_BXF (l : label)
| M_BX (l : label)
| M_LABEL (l : label)
| M_WAKE_WHEN_READY
| I_HALT.

Definition program : list insn :=
  [ I_MOVI R3 0;
    (* rain sensor check *)
    I_ANALOG_READ R1 PIN_ADC_RAIN;
    I_PUT R1 R3 v_last_rain_val;
    I_GET R0 R3 v_rain_lower;
    I_SUBR R2 R1 R0;
    M_BXF LBL_TRIGGERED;
    I_GET R0 R3 v_rain_upper;
    I_SUBR R2 R0 R1;
    M_BXF LBL_TRIGGERED;
    (* soil sensor check *)
    M_LABEL LBL_SOIL_CHECK;
    I_ANALOG_READ R1 PIN_ADC_SOIL;
    I_PUT R1 R3 v_last_soil_val;
    I_GET R0 R3 v_soil_lower;
    I_SUBR R2 R1 R0;
    M_BXF LBL_TRIGGERED;
    I_GET R0 R3 v_soil_upper;
    I_SUBR R2 R0 R1;
    M_BXF LBL_TRIGGERED;
    (* data ready check *)
    M_LABEL LBL_READY_CHECK;
    I_ANALOG_READ R1 PIN_ADC_READY;
    I_PUT R1 R3 v_last_ready_val;
    I_MOVI R0 DATA_READY_THRESHOLD;
    I_SUBR R2 R1 R0;
    M_BXF LBL_HALT;
    M_BX LBL_TRIGGERED;
    M_BX LBL_HALT;
    M_LABEL LBL_TRIGGERED;
    I_GET R0 R3 v_triggered_count;
    I_ADDI R0 R0 1;
    I_PUT R0 R3 v_triggered_count;
    M_WAKE_WHEN_READY;
    M_LABEL LBL_HALT;
    I_HALT ].

Definition label_eqb (a b : label) : bool :=
  match a, b with
  | LBL_SOIL_CHECK, LBL_SOIL_CHECK | LBL_READY_CHECK, LBL_READY_CHECK
  | LBL_TRIGGERED, LBL_TRIGGERED | LBL_HALT, LBL_HALT => true
  | _, _ => false
  end.

(** The position of [M_LABEL l] in a program, counted from [from]. *)
Definition label_position (l : label) : list insn -> nat -> option nat :=
  fix go (prog : list insn) (from : nat) : option nat :=
    match prog with
    | [] => None
    | M_LABEL l' :: rest => if label_eqb l l' then Some from else go rest (S from)
    | _ :: rest => go rest (S from)
    end.

Record machine := mk_machine {
  r0 : Z; r1 : Z; r2 : Z; r3 : Z;
  overflow : bool;
  pc : nat;
  memory : ulp_vars_t;
  wake_requested : bool
}.

Definition get_reg (r : reg) (m : machine) : Z :=
  match r with R0 => r0 m | R1 => r1 m | R2 => r2 m | R3 => r3 m end.

Definition set_reg (r : reg) (x : Z) (m : machine) : machine :=
  let x := Int.to_u16 x in
  match r with
  | R0 => mk_machine x (r1 m) (r2 m) (r3 m) (overflow m) (pc m) (memory m) (wake_requested m)
  | R1 => mk_machine (r0 m) x (r2 m) (r3 m) (overflow m) (pc m) (memory m) (wake_requested m)
  | R2 => mk_machine (r0 m) (r1 m) x (r3 m) (overflow m) (pc m) (memory m) (wake_requested m)
  | R3 => mk_machine (r0 m) (r1 m) (r2 m) x (overflow m) (pc m) (memory m) (wake_requested m)
  end.

Definition set_overflow (b : bool) (m : machine) : machine :=
  mk_machine (r0 m) (r1 m) (r2 m) (r3 m) b (pc m) (memory m) (wake_requested m).
Definition set_pc (n : nat) (m : machine) : machine :=
  mk_machine (r0 m) (r1 m) (r2 m) (r3 m) (overflow m) n (memory m) (wake_requested m).
Definition set_memory (u : ulp_vars_t) (m : machine) : machine :=
  mk_machine (r0 m) (r1 m) (r2 m) (r3 m) (overflow m) (pc m) u (wake_requested m).
Definition request_wake (m : machine) : machine :=
  mk_machine (r0 m) (r1 m) (r2 m) (r3 m) (overflow m) (pc m) (memory m) true.

Definition load (v : var) (u : ulp_vars_t) : Z :=
  match v with
  | v_rain_lower => rain_lower u | v_rain_upper => rain_upper u
  | v_last_rain_val => last_rain_val u
  | v_soil_lower => soil_lower u | v_soil_upper => soil_upper u
  | v_last_soil_val => last_soil_val u
  | v_last_ready_val => last_ready_val u
  | v_triggered_count => triggered_count u
  end.

Definition store (v : var) (x : Z) (u : ulp_vars_t) : ulp_vars_t :=
  match v with
  | v_rain_lower =>
      mk_ulp_vars x (rain_upper u) (last_rain_val u) (soil_lower u) (soil_upper u)
        (last_soil_val u) (last_ready_val u) (triggered_count u)
  | v_rain_upper =>
      mk_ulp_vars (rain_lower u) x (last_rain_val u) (soil_lower u) (soil_upper u)
        (last_soil_val u) (last_ready_val u) (triggered_count u)
  | v_last_rain_val =>
      mk_ulp_vars (rain_lower u) (rain_upper u) x (soil_lower u) (soil_upper u)
        (last_soil_val u) (last_ready_val u) (triggered_count u)
  | v_soil_lower =>
      mk_ulp_vars (rain_lower u) (rain_upper u) (last_rain_val u) x (soil_upper u)
        (last_soil_val u) (last_ready_val u) (triggered_count u)
  | v_soil_upper =>
      mk_ulp_vars (rain_lower u) (rain_upper u) (last_rain_val u) (soil_lower u) x
        (last_soil_val u) (last_ready_val u) (triggered_count u)
  | v_last_soil_val =>
      mk_ulp_vars (rain_lower u) (rain_upper u) (last_rain_val u) (soil_lower u)
        (soil_upper u) x (last_ready_val u) (triggered_count u)
  | v_last_ready_val =>
      mk_ulp_vars (rain_lower u) (rain_upper u) (last_rain_val u) (soil_lower u)
        (soil_upper u) (last_soil_val u) x (triggered_count u)
  | v_triggered_count =>
      mk_ulp_vars (rain_lower u) (rain_upper u) (last_rain_val u) (soil_lower u)
        (soil_upper u) (last_soil_val u) (last_ready_val u) x
  end.

(** What one instruction leaves behind. *)
Inductive outcome :=
| Continues (m : machine)
| Halts (m : machine)
| Faults.

Definition next (m : machine) : machine := set_pc (S (pc m)) m.

Definition jump (l : label) (prog : list insn) (m : machine) : outcome :=
  match label_position l prog O with
  | Some target => Continues (set_pc target m)
  | None => Faults
  end.

(** One instruction.  [adc] is what each analog pin reads during this
    run. *)
Definition step (adc : pin -> Z) (prog : list insn) (m : machine) : outcome :=
  match prog !! pc m with
  | None => Faults
  | Some i =>
      match i with
      | I_MOVI dest imm => Continues (next (set_reg dest imm m))
      | I_ANALOG_READ dest p => Continues (next (set_reg dest (adc p) m))
      | I_PUT value base v =>
          if get_reg base m =? 0
          then Continues (next (set_memory (store v (get_reg value m) (memory m)) m))
          else Faults
      | I_GET dest base v =>
          if get_reg base m =? 0
          then Continues (next (set_reg dest (Int.to_u16 (load v (memory m))) m))
          else Faults
      | I_SUBR dest a b =>
          let x := get_reg a m in
          let y := get_reg b m in
          Continues (next (set_overflow (x <? y) (set_reg dest (x - y) m)))
      | I_ADDI dest src imm =>
          let x := get_reg src m in
          Continues (next (set_overflow (2 ^ 16 <=? x + imm) (set_reg dest (x + imm) m)))
      | M_BXF l => if overflow m then jump l prog m else Continues (next m)
      | M_BX l => jump l prog m
      | M_LABEL _ => Continues (next m)
      | M_WAKE_WHEN_READY => Continues (next (request_wake m))
      | I_HALT => Halts m
      end
  end.

Fixpoint run (fuel : nat) (adc : pin -> Z) (prog : list insn) (m : machine)
    : option machine :=
  match fuel with
  | O => None
  | S fuel' =>
      match step adc prog m with
      | Continues m' => run fuel' adc prog m'
      | Halts m' => Some m'
      | Faults => None
      end
  end.

(** The machine as the ULP timer starts it: at offset 0 (hulp_ulp_run(0)),
    on the RTC block as the main core left it. *)
Definition start (u : ulp_vars_t) : machine := mk_machine 0 0 0 0 false O u false.

(** One timer period of the wake program: the RTC block it leaves and
    whether it asked for the main core to be woken. *)
Definition period (rain soil ready : Z) (u : ulp_vars_t) : option (ulp_vars_t * bool) :=
  let adc p :=
    match p with PIN_ADC_RAIN => rain | PIN_ADC_SOIL => soil | PIN_ADC_READY => ready end in
  match run 64 adc program (start u) with
  | Some m => Some (memory m, wake_requested m)
  | None => None
  end.

End ULP.

(** ** setup() and loop()

    The main thread.  Both are given what they read from the outside
    during the call as arguments.  The ESP-NOW and HTTP callbacks are
    the events of [react]; here they are taken to run between calls,
    not inside the [delay]s, so the two waits "for AR mode sync" pass
    without effect.  Pin modes, the peer list and the timers behind the
    [..._due] inputs are not part of [State]. *)

Definition msg_set_tilt_centi_deg (v : Z) (m : struct_message) : struct_message :=
  mk_message
    (type m) (senderId m) (wakeCounter m) v (vibration_milli_g m)
    (rain_adc_value m) (soil_adc_value m) (newMode m) (dummy_payload m).
Definition msg_set_vibration_milli_g (v : Z) (m : struct_message) : struct_message :=
  mk_message
    (type m) (senderId m) (wakeCounter m) (tilt_centi_deg m) v
    (rain_adc_value m) (soil_adc_value m) (newMode m) (dummy_payload m).
Definition msg_set_rain_adc_value (v : Z) (m : struct_message) : struct_message :=
  mk_message
    (type m) (senderId m) (wakeCounter m) (tilt_centi_deg m) (vibration_milli_g m)
    v (soil_adc_value m) (newMode m) (dummy_payload m).
Definition msg_set_soil_adc_value (v : Z) (m : struct_message) : struct_message :=
  mk_message
    (type m) (senderId m) (wakeCounter m) (tilt_centi_deg m) (vibration_milli_g m)
    (rain_adc_value m) v (newMode m) (dummy_payload m).
Definition msg_set_dummy_payload (v : list Z) (m : struct_message) : struct_message :=
  mk_message
    (type m) (senderId m) (wakeCounter m) (tilt_centi_deg m) (vibration_milli_g m)
    (rain_adc_value m) (soil_adc_value m) (newMode m) v.

Definition set_myNodeId (v : Z) (s : State) : State :=
  mkState
    (nodeMacs s) (failedLastSend s) (lastAnnouncedAR s)
    (consecutiveSendFailures s) (lastFailedTargetId s) (probingForFailover s)
    (ulpJustWoke s) (latestNodeData s) v (myRole s)
    (targetNodeId s) (currentOperatingMode s) (messageToSend s)
    (nodeModeSynced s) (nvs_mode_flag s) (nvs_target_node_id s)
    (ulp_running s) (wifi_mode s) (softAP_up s) (server_routes s)
    (server_running s) (radio_log s) (reply_log s).

(** [nodeMacs[i]].  An index outside the table makes the C++ read
    whatever lies next to it; here it yields the empty address. *)
Definition mac_of_index (s : State) (i : Z) : mac_t :=
  if i <? 0 then [] else default [] (nodeMacs s !! Z.to_nat i).

(** The loop all four probing places share:
    [for (int i = 0; i < myNodeId - 1; ++i)] send a PROBE to
    [nodeMacs[i]]. *)
Definition probe_lower_ids (s : State) : State :=
  foldl
    (fun s i =>
       let m := messageToSend s in
       let m := msg_set_type MSG_TYPE_PROBE m in
       let m := msg_set_senderId (Int.to_u8 (myNodeId s)) m in
       let m := msg_set_wakeCounter 0 m in
       esp_now_send (mac_of_index s (Z.of_nat i)) (set_messageToSend m s))
    s (seq 0 (Z.to_nat (Int.sub (myNodeId s) 1))).

(** The write both loop() modes make to [latestNodeData[myNodeId]]. *)
Definition store_own_data (now rain soil vibration tilt : Z) (s : State) : State :=
  let old := node_data s (myNodeId s) in
  let entry :=
    {| mac_addr := mac_addr old;
       r_rain_adc_value := rain;
       r_soil_adc_value := soil;
       r_vibration_milli_g := vibration;
       r_tilt_centi_deg := tilt;
       lastUpdated := Int.to_u32 now;
       initialized := true |} in
  set_latestNodeData (<[Z.to_nat (myNodeId s) := entry]> (latestNodeData s)) s.

(** What setup() reads from the hardware. *)
Record setup_inputs := mk_setup_inputs {
  device_mac : mac_t;            (* WiFi.macAddress *)
  deep_sleep_wakeup : bool;      (* hulp_is_deep_sleep_wakeup *)
  rawRainADC : Z;
  rawSoilADC : Z;
  rawReadyADC : Z
}.

Inductive setup_outcome :=
| Booted (s : State) (u : ulp_vars_t)
| HaltsUnknownDevice            (* "Device MAC not found in nodeMacs list. Halting." *)
| ReadsUnnamedMode.             (* readModeFromNVS met a byte that is no mode *)

(** setup(), first-boot branch: "Initialize ULP variables based on
    current raw readings or arbitrary defaults". *)
Definition setup_first_boot_ulp_vars (rawRain rawSoil rawReady : Z) : ulp_vars_t :=
  let initial_rain_val := Int.to_u16 (if 0 <? rawRain then rawRain else 1000) in
  let initial_soil_val := Int.to_u16 (if 0 <? rawSoil then rawSoil else 2000) in
  {| rain_lower := window_lower initial_rain_val;
     rain_upper := window_upper initial_rain_val;
     last_rain_val := initial_rain_val;
     soil_lower := window_lower initial_soil_val;
     soil_upper := window_upper initial_soil_val;
     last_soil_val := initial_soil_val;
     last_ready_val := Int.to_u16 rawReady;
     triggered_count := 0 |}.

(** setup(): every [latestNodeData[i].initialized] is cleared, then the
    node's own entry gets its address and is marked initialized. *)
Definition setup_node_data (mac : mac_t) (s : State) : State :=
  let cleared :=
    (fun d =>
       mk_readings (mac_addr d) (r_rain_adc_value d) (r_soil_adc_value d)
         (r_vibration_milli_g d) (r_tilt_centi_deg d) (lastUpdated d) false)
      <$> latestNodeData s in
  let s := set_latestNodeData cleared s in
  let old := node_data s (myNodeId s) in
  let own :=
    mk_readings (take ESP_NOW_ETH_ALEN mac) (r_rain_adc_value old) (r_soil_adc_value old)
      (r_vibration_milli_g old) (r_tilt_centi_deg old) (lastUpdated old) true in
  set_latestNodeData (<[Z.to_nat (myNodeId s) := own]> (latestNodeData s)) s.

(** setup(), wake-up branch in STANDBY_MODE for a node other than 1. *)
Definition setup_wake_role (s : State) : State :=
  let s :=
    if FAILOVER_THRESHOLD <=? consecutiveSendFailures s then findNewTargetAndFailover s
    else if negb (lastAnnouncedAR s =? 0) && negb (lastAnnouncedAR s =? myNodeId s)
    then becomeSender (lastAnnouncedAR s) s
    else becomeSender 1 s in
  if role_eqb (myRole s) ROLE_SENDER then
    let m := messageToSend s in
    let m := msg_set_type MSG_TYPE_PROBE m in
    let m := msg_set_senderId (Int.to_u8 (myNodeId s)) m in
    let m := msg_set_wakeCounter 0 m in
    esp_now_send broadcastMac (set_messageToSend m s)
  else s.

(** setup() *)
Definition setup (inp : setup_inputs) (s : State) (u : ulp_vars_t) : setup_outcome :=
  let mac := device_mac inp in
  let s := set_myNodeId (getNodeIdFromMac s mac) s in
  if myNodeId s =? 0 then HaltsUnknownDevice
  else
    let s := set_wifi_mode WIFI_STA s in
    match readModeFromNVS s with
    | None => ReadsUnnamedMode
    | Some mode =>
        let s := set_currentOperatingMode mode s in
        let s := set_targetNodeId (readTargetNodeIdFromNVS s) s in
        let s :=
          if targetNodeId s =? 0
          then writeTargetNodeIdToNVS 1 (set_targetNodeId 1 s)
          else s in
        let s := setup_node_data mac s in
        if deep_sleep_wakeup inp then
          let s := set_ulpJustWoke true s in
          let u := setup_wake_thresholds u in
          match currentOperatingMode s with
          | STANDBY_MODE =>
              if myNodeId s =? 1 then Booted (becomeActiveReceiver s) u
              else Booted (setup_wake_role s) u
          | DATA_COLLECTION_MODE =>
              if myNodeId s =? 1 then Booted (becomeActiveReceiver s) u
              else Booted (becomeSender (targetNodeId s) s) u
          end
        else
          let s := set_ulpJustWoke false s in
          let s := if myNodeId s =? 1 then reset_nodeModeSynced s else s in
          let u :=
            setup_first_boot_ulp_vars (rawRainADC inp) (rawSoilADC inp) (rawReadyADC inp) in
          let s := set_failedLastSend false s in
          let s := set_consecutiveSendFailures 0 s in
          let s := set_lastFailedTargetId 0 s in
          let s := set_probingForFailover false s in
          let s :=
            if myNodeId s =? 1 then becomeActiveReceiver s
            else becomeSender (targetNodeId s) s in
          let s :=
            match currentOperatingMode s with
            | STANDBY_MODE => ulp_init s
            | DATA_COLLECTION_MODE => s
            end in
          Booted s u
    end.

(** What one pass of loop() reads from the outside. *)
Record loop_inputs := mk_loop_inputs {
  button_event : bool;     (* button reads LOW and the debounce delay has passed *)
  data_ready_high : bool;  (* digitalRead(PIN_ADC_READY) == HIGH *)
  retry_due : bool;        (* RETRY_DELAY_MS since the last send attempt *)
  probe_due : bool;        (* PROBE_INTERVAL since the last probe *)
  local_check_due : bool;  (* LOCAL_SENSOR_CHECK_INTERVAL since the last local read *)
  tilt_pin : Arduino.pin_activity;
  vibration_pin : Arduino.pin_activity;
  currentRainADC : Z;
  currentSoilADC : Z;
  currentReadyADC : Z;
  loop_now : Z             (* millis() *)
}.

(** loop(), the push-button block of a receiver. *)
Definition loop_button (s : State) : State :=
  let newMode :=
    match currentOperatingMode s with
    | STANDBY_MODE => DATA_COLLECTION_MODE
    | DATA_COLLECTION_MODE => STANDBY_MODE
    end in
  let s := set_currentOperatingMode newMode s in
  let s := writeModeToNVS (currentOperatingMode s) s in
  let s := broadcast_mode_change s in
  let s := reconfigure_ulp s in
  let s := reset_nodeModeSynced s in
  broadcast_announce_ar s.

(** Fill in [messageToSend] for a DATA message and send it to the
    current target. *)
Definition send_data (wake_count tilt vibration rain soil : Z) (s : State) : State :=
  let m := messageToSend s in
  let m := msg_set_type MSG_TYPE_DATA m in
  let m := msg_set_senderId (Int.to_u8 (myNodeId s)) m in
  let m := msg_set_wakeCounter wake_count m in
  let m := msg_set_dummy_payload [170; 170; 170; 170] m in
  let m := msg_set_tilt_centi_deg tilt m in
  let m := msg_set_vibration_milli_g vibration m in
  let m := msg_set_rain_adc_value rain m in
  let m := msg_set_soil_adc_value soil m in
  esp_now_send (mac_of_index s (Int.sub (targetNodeId s) 1)) (set_messageToSend m s).

(** "If the last send failed and we are not already probing for a new
    AR, start probing." *)
Definition probe_after_failure (s : State) : State :=
  if failedLastSend s && negb (probingForFailover s)
  then set_probingForFailover true (probe_lower_ids s)
  else s.

(** loop().  The third component tells whether the pass ends in
    [esp_deep_sleep_start]. *)
Definition loop (inp : loop_inputs) (s : State) (u : ulp_vars_t)
    : State * ulp_vars_t * bool :=
  let s :=
    if role_eqb (myRole s) ROLE_RECEIVER && button_event inp then loop_button s else s in
  match currentOperatingMode s with
  | STANDBY_MODE =>
      match myRole s with
      | ROLE_SENDER =>
          let shouldSend :=
            if ulpJustWoke s then true
            else if data_ready_high inp then true
            else failedLastSend s && retry_due inp in
          let s :=
            if shouldSend then
              let '(tilt, vibration) := decodePwmSignals (tilt_pin inp) (vibration_pin inp) in
              send_data (triggered_count u) tilt vibration
                (last_rain_val u) (last_soil_val u) s
            else s in
          let s := probe_after_failure s in
          if negb (failedLastSend s) && role_eqb (myRole s) ROLE_SENDER
          then (s, u, true)
          else (s, u, false)
      | ROLE_RECEIVER =>
          let s := if probe_due inp then probe_lower_ids s else s in
          if local_check_due inp then
            let '(tilt, vibration) := decodePwmSignals (tilt_pin inp) (vibration_pin inp) in
            let u :=
              loop_receiver_local_sensors
                (currentRainADC inp) (currentSoilADC inp) (currentReadyADC inp) u in
            let s :=
              store_own_data (loop_now inp) (currentRainADC inp) (currentSoilADC inp)
                vibration tilt s in
            (s, u, false)
          else (s, u, false)
      end
  | DATA_COLLECTION_MODE =>
      let '(tilt, vibration) := decodePwmSignals (tilt_pin inp) (vibration_pin inp) in
      let u :=
        loop_data_collection_samples
          (currentRainADC inp) (currentSoilADC inp) (currentReadyADC inp) u in
      let s :=
        store_own_data (loop_now inp) (currentRainADC inp) (currentSoilADC inp)
          vibration tilt s in
      match myRole s with
      | ROLE_SENDER =>
          let s := send_data 0 tilt vibration (currentRainADC inp) (currentSoilADC inp) s in
          let s := probe_after_failure s in
          (s, u, false)
      | ROLE_RECEIVER =>
          let s := if probe_due inp then probe_lower_ids s else s in
          (s, u, false)
      end
  end.

(** A deep-sleep wake-up restarts the program: globals go back to their
    initialisers, the RTC_DATA_ATTR ones (and flash, and the ULP) keep
    what they had.  The radio and reply logs are history and stay. *)
Definition wake_from_deep_sleep (s : State) : State :=
  {| nodeMacs := nodeMacs s;
     failedLastSend := failedLastSend s;
     lastAnnouncedAR := lastAnnouncedAR s;
     consecutiveSendFailures := consecutiveSendFailures s;
     lastFailedTargetId := lastFailedTargetId s;
     probingForFailover := probingForFailover s;
     ulpJustWoke := ulpJustWoke s;
     latestNodeData := latestNodeData s;
     myNodeId := 0;
     myRole := ROLE_SENDER;
     targetNodeId := 0;
     currentOperatingMode := STANDBY_MODE;
     messageToSend := blank_message;
     nodeModeSynced := replicate (S (List.length (nodeMacs s))) false;
     nvs_mode_flag := nvs_mode_flag s;
     nvs_target_node_id := nvs_target_node_id s;
     ulp_running := ulp_running s;
     wifi_mode := WIFI_STA;
     softAP_up := false;
     server_routes := [];
     server_running := false;
     radio_log := radio_log s;
     reply_log := reply_log s |}.

(** ** Vocabulary of the properties *)

(** The mesh table is not empty and every id fits the one byte it is
    sent and persisted in. *)
Definition mesh_ok (s : State) : Prop := 1 <= MAX_NODES s <= 127.

(** [z] is a value of type [int]. *)
Definition is_int (z : Z) : Prop := - 2 ^ 31 <= z < 2 ^ 31.

(** [step] is a duty step nearest to [d * 4800 / period]: no other step
    is strictly closer. *)
Definition nearest_step (step d period : Z) : Prop :=
  forall other : Z,
    Z.abs (step * period - d * (CH32_PWM_MAX_DUTY_VALUE + 1))
    <= Z.abs (other * period - d * (CH32_PWM_MAX_DUTY_VALUE + 1)).

(** Longest pulse for which [pulse * 4800] still fits a [long]. *)
Definition MAX_EXACT_PULSE_US : Z := 447392.

(** Longest vibration pulse that decodes without overflow. *)
Definition MAX_EXACT_VIBRATION_PULSE_US : Z := 114791.

(** A JSON object as the handlers write one: members [key], [colon],
    value, separated by [comma]. *)
Definition json_members (colon comma : string) : list (string * string) -> string :=
  fix go (members : list (string * string)) : string :=
    match members with
    | [] => EmptyString
    | [(k, v)] => quoted k ++ colon ++ v
    | (k, v) :: rest => quoted k ++ colon ++ v ++ comma ++ go rest
    end.

Definition json_object (colon comma : string) (members : list (string * string)) : string :=
  "{" ++ json_members colon comma members ++ "}".

(** The last answer the server gave. *)
Definition last_reply (s : State) : option http_reply := last (reply_log s).

(** A node that has just become Active Receiver, with a given id. *)
Definition fresh_receiver (id : Z) : State := becomeActiveReceiver (boot_state id).

Definition mac_of_node3 : mac_t := [240; 36; 249; 89; 211; 188].
Definition mac_of_node1 : mac_t := [16; 6; 28; 130; 112; 84].
Definition mac_of_node2 : mac_t := [92; 1; 59; 78; 8; 252].

(** The target becomeSender settles on when asked for [k]. *)
Definition clamp_target (k : Z) (s : State) : Z :=
  if (k <? 1) || Int.gt_size k (MAX_NODES s) then 1 else k.

(** Everything becomeSender assigns, as it stands after a
    [becomeSender] that settled on target [c]. *)
Definition sender_fields (c : Z) (s : State) : Prop :=
  myRole s = ROLE_SENDER /\ targetNodeId s = c /\ lastAnnouncedAR s = c /\
  consecutiveSendFailures s = 0 /\ nvs_target_node_id s = Some (Int.to_i8 c) /\
  wifi_mode s = WIFI_STA /\ softAP_up s = false /\ server_running s = false.

(** Messages used in the examples; [len] is always the full size. *)
Definition probe_from (id : Z) : struct_message :=
  mk_message MSG_TYPE_PROBE id 0 0 0 0 0 STANDBY_MODE [0; 0; 0; 0].
Definition mode_change_from (id : Z) (m : operating_mode_t) : struct_message :=
  mk_message MSG_TYPE_MODE_CHANGE id 0 0 0 0 0 m [0; 0; 0; 0].
Definition announce_from (id : Z) (m : operating_mode_t) : struct_message :=
  mk_message MSG_TYPE_ANNOUNCE_AR id 0 0 0 0 0 m [0; 0; 0; 0].

(** Node 3 sending to node 1, with two failed sends behind it. *)
Definition sender3_two_failures : State :=
  set_consecutiveSendFailures 2 (becomeSender 1 (boot_state 3)).

(** Node 2 as Active Receiver (after a failover), once it has answered
    a probe from node 1 and one from node 3. *)
Definition receiver2_synced : State :=
  onDataRecv 20 mac_of_node3 (probe_from 3) sizeof_struct_message
    (onDataRecv 10 mac_of_node1 (probe_from 1) sizeof_struct_message
       (fresh_receiver 2)).

(** The mesh table has pairwise different rows (compared as memcmp
    compares them). *)
Definition rows_distinct (s : State) : Prop :=
  NoDup (take ESP_NOW_ETH_ALEN <$> nodeMacs s).

(** The role, the target and the persisted target fit together: a
    sender aims inside the table, a receiver has target 0, and flash
    holds the target. *)
Definition target_settled (s : State) : Prop :=
  match myRole s with
  | ROLE_SENDER => 1 <= targetNodeId s <= MAX_NODES s
  | ROLE_RECEIVER => targetNodeId s = 0
  end /\
  nvs_target_node_id s = Some (targetNodeId s).



(** A run of send reports, oldest first, as the radio driver delivers
    them to [onDataSent]. *)
Definition send_report : Type := mac_t * esp_now_send_status_t.
Definition report_sends (reports : list send_report) (s : State) : State :=
  foldl (fun s r => onDataSent (fst r) (snd r) s) s reports.
Definition fails_at (reports : list send_report) (i : nat) : bool :=
  match reports !! i with
  | Some (_, ESP_NOW_SEND_FAIL) => true
  | _ => false
  end.
Definition never_three_failures_in_a_row (reports : list send_report) : Prop :=
  forall i : nat,
    fails_at reports i && fails_at reports (S i) && fails_at reports (S (S i)) = false.

(** [z] is a 16-bit [val], resp. a sample of the 12-bit converter. *)
Definition is_u16 (z : Z) : Prop := 0 <= z < 2 ^ 16.
Definition is_adc (z : Z) : Prop := 0 <= z <= ADC_MAX.
(** [v] lies in the window from [lo] to [hi], both ends included. *)
Definition within (lo hi v : Z) : bool := (lo <=? v) && (v <=? hi).

(** What setup() promises about the state it boots into. *)
Definition booted_well (inp : setup_inputs) (s s' : State) : Prop :=
  myNodeId s' = getNodeIdFromMac s (device_mac inp) /\
  1 <= myNodeId s' <= MAX_NODES s /\
  nodeMacs s' = nodeMacs s /\
  readModeFromNVS s = Some (currentOperatingMode s') /\
  target_settled s' /\
  (myNodeId s' = 1 -> myRole s' = ROLE_RECEIVER) /\
  (myNodeId s' <> 1 -> deep_sleep_wakeup inp = false -> myRole s' = ROLE_SENDER) /\
  (forall k, k <> myNodeId s' -> initialized (node_data s' k) = false).


(** The PROBE a node sends: [messageToSend] with type, sender id and
    wake counter filled in. *)
Definition probe_of (s : State) : struct_message :=
  msg_set_wakeCounter 0
    (msg_set_senderId (Int.to_u8 (myNodeId s))
       (msg_set_type MSG_TYPE_PROBE (messageToSend s))).

(** [s'] differs from [s] in [messageToSend] and [radio_log] at most. *)
Definition radio_only (s s' : State) : Prop :=
  s' = set_radio_log (radio_log s') (set_messageToSend (messageToSend s') s).

(** The mode the push button switches to. *)
Definition other_mode (m : operating_mode_t) : operating_mode_t :=
  match m with
  | STANDBY_MODE => DATA_COLLECTION_MODE
  | DATA_COLLECTION_MODE => STANDBY_MODE
  end.

(** The frames [s'] has sent beyond those of [s]. *)
Definition sent_since (s s' : State) : list (mac_t * struct_message) :=
  drop (List.length (radio_log s)) (radio_log s').


(** A DATA frame, if [frame] is one, comes from a sender, goes to the
    table row of its target and carries its id. *)
Definition data_to_target (s : State) (frame : mac_t * struct_message) : Prop :=
  type (snd frame) = MSG_TYPE_DATA ->
  myRole s = ROLE_SENDER /\
  nodeMacs s !! Z.to_nat (targetNodeId s - 1) = Some (fst frame) /\
  senderId (snd frame) = Int.to_u8 (myNodeId s).

(** From [a] to [b] the radio log has only grown, by frames that all
    satisfy [P]. *)
Definition sends (P : mac_t * struct_message -> Prop) (a b : State) : Prop :=
  exists sent, radio_log b = (radio_log a ++ sent)%list /\ Forall P sent.

(** * Properties *)

(** ** Machine integers *)

Lemma wrap32_id (z : Z) : - 2 ^ 31 <= z < 2 ^ 31 -> Int.wrap32 z = z.
Proof.
  intros Hz. unfold Int.wrap32.
  change (2 ^ 31) with 2147483648 in *. change (2 ^ 32) with 4294967296.
  rewrite Z.mod_small; lia.
Qed.

Lemma to_u32_id (z : Z) : 0 <= z < 2 ^ 32 -> Int.to_u32 z = z.
Proof. intros Hz. unfold Int.to_u32. apply Z.mod_small. exact Hz. Qed.

Lemma to_u16_id (z : Z) : 0 <= z < 2 ^ 16 -> Int.to_u16 z = z.
Proof. intros Hz. unfold Int.to_u16. apply Z.mod_small. exact Hz. Qed.

Lemma to_i8_id (z : Z) : - 2 ^ 7 <= z < 2 ^ 7 -> Int.to_i8 z = z.
Proof.
  intros Hz. unfold Int.to_i8.
  change (2 ^ 7) with 128 in *. change (2 ^ 8) with 256.
  rewrite Z.mod_small; lia.
Qed.

Lemma gt_size_small (a n : Z) :
  0 <= a < 2 ^ 32 -> 0 <= n < 2 ^ 32 -> Int.gt_size a n = (n <? a).
Proof. intros Ha Hn. unfold Int.gt_size. rewrite !to_u32_id; auto. Qed.

Lemma le_size_small (a n : Z) :
  0 <= a < 2 ^ 32 -> 0 <= n < 2 ^ 32 -> Int.le_size a n = (a <=? n).
Proof. intros Ha Hn. unfold Int.le_size. rewrite !to_u32_id; auto. Qed.

Lemma add_small (a b : Z) : - 2 ^ 31 <= a + b < 2 ^ 31 -> Int.add a b = a + b.
Proof. apply wrap32_id. Qed.

Lemma sub_small (a b : Z) : - 2 ^ 31 <= a - b < 2 ^ 31 -> Int.sub a b = a - b.
Proof. apply wrap32_id. Qed.

Lemma mul_small (a b : Z) : - 2 ^ 31 <= a * b < 2 ^ 31 -> Int.mul a b = a * b.
Proof. apply wrap32_id. Qed.

(** On non-negative operands the truncating division is the flooring
    one. *)
Lemma div_nonneg (a b : Z) : 0 <= a < 2 ^ 31 -> 0 < b -> Int.div a b = a / b.
Proof.
  intros Ha Hb. unfold Int.div.
  rewrite Z.quot_div_nonneg by lia.
  apply wrap32_id.
  assert (0 <= a / b) by (apply Z.div_pos; lia).
  assert (a / b <= a) by (apply Z.div_le_upper_bound; nia).
  lia.
Qed.

(** ** PWM decoder *)

Section Decoder.

Lemma duty_steps : Int.add CH32_PWM_MAX_DUTY_VALUE 1 = 4800.
Proof. reflexivity. Qed.

Lemma tilt_period : TILT_PWM_PERIOD_US = 100000.
Proof. reflexivity. Qed.

Lemma vibration_period : VIBRATION_PWM_PERIOD_US = 1000000.
Proof. reflexivity. Qed.

(** While [d * 4800] fits a [long], the duty step is the floor of
    [d * 4800 / period]. *)
Lemma decoded_pwm_val_floor (d period : Z) :
  0 <= d <= MAX_EXACT_PULSE_US -> 0 < period ->
  decoded_pwm_val d period = d * 4800 / period.
Proof.
  unfold MAX_EXACT_PULSE_US. intros Hd Hp.
  unfold decoded_pwm_val. rewrite duty_steps.
  change (2 ^ 31) with 2147483648 in *.
  rewrite mul_small by (change (2 ^ 31) with 2147483648; lia).
  apply div_nonneg; [change (2 ^ 31) with 2147483648; lia | exact Hp].
Qed.

(** [map] from [0 .. in_max] while nothing overflows. *)
Lemma map_from_zero (x in_max out_min out_max : Z) :
  0 <= x < 2 ^ 31 -> 0 < in_max < 2 ^ 31 -> 0 <= out_min <= out_max -> out_max < 2 ^ 31 ->
  x * (out_max - out_min) < 2 ^ 31 ->
  x * (out_max - out_min) / in_max + out_min < 2 ^ 31 ->
  Arduino.map x 0 in_max out_min out_max = x * (out_max - out_min) / in_max + out_min.
Proof.
  change (2 ^ 31) with 2147483648. intros Hx Hin Hout Hmax Hprod Hres.
  assert (0 <= x * (out_max - out_min)) by nia.
  assert (0 <= x * (out_max - out_min) / in_max) by (apply Z.div_pos; lia).
  unfold Arduino.map.
  rewrite (sub_small in_max 0) by (change (2 ^ 31) with 2147483648; lia).
  rewrite (sub_small out_max out_min) by (change (2 ^ 31) with 2147483648; lia).
  rewrite (sub_small x 0) by (change (2 ^ 31) with 2147483648; lia).
  rewrite !Z.sub_0_r.
  rewrite mul_small by (change (2 ^ 31) with 2147483648; lia).
  rewrite div_nonneg by (change (2 ^ 31) with 2147483648; lia).
  apply add_small. change (2 ^ 31) with 2147483648. lia.
Qed.

Lemma decode_tilt_exact (d : Z) :
  0 < d <= MAX_EXACT_PULSE_US ->
  decode_tilt d = d * 4800 / 100000 * 9000 / 4799.
Proof.
  intros Hd. unfold decode_tilt.
  replace (0 <? d) with true by (symmetry; apply Z.ltb_lt; lia).
  rewrite tilt_period, decoded_pwm_val_floor by lia.
  unfold MAX_EXACT_PULSE_US in Hd.
  assert (0 <= d * 4800 / 100000 <= 21475).
  { split; [apply Z.div_pos; lia | apply Z.div_le_upper_bound; lia]. }
  change CH32_PWM_MAX_DUTY_VALUE with 4799. change MAX_TILT_CENTI_DEG with 9000.
  rewrite map_from_zero; change (2 ^ 31) with 2147483648; try lia.
  - rewrite Z.sub_0_r, Z.add_0_r. reflexivity.
  - assert (d * 4800 / 100000 * (9000 - 0) / 4799 <= 21475 * 9000)
      by (apply Z.div_le_upper_bound; lia).
    lia.
Qed.

(** Tilt is monotone over every pulse [pulseIn] can report within its
    200 ms timeout, and beyond, up to [MAX_EXACT_PULSE_US]. *)
Lemma decode_tilt_monotone (d1 d2 : Z) :
  0 <= d1 <= d2 -> d2 <= MAX_EXACT_PULSE_US -> decode_tilt d1 <= decode_tilt d2.
Proof.
  intros H12 H2.
  destruct (Z.eq_dec d1 0) as [-> | Hpos].
  - destruct (Z.eq_dec d2 0) as [-> | Hpos2]; [reflexivity |].
    rewrite (decode_tilt_exact d2) by lia.
    change (decode_tilt 0) with 0.
    apply Z.div_pos; [| lia].
    apply Z.mul_nonneg_nonneg; [| lia].
    apply Z.div_pos; lia.
  - rewrite !decode_tilt_exact by lia.
    apply Z.div_le_mono; [lia |].
    apply Z.mul_le_mono_nonneg_r; [lia |].
    apply Z.div_le_mono; lia.
Qed.

Lemma decode_vibration_exact (d : Z) :
  0 < d <= MAX_EXACT_VIBRATION_PULSE_US ->
  decode_vibration d = d * 4800 / 1000000 * 750000 / 4799 * 24950 / 750000 + 50.
Proof.
  unfold MAX_EXACT_VIBRATION_PULSE_US. intros Hd. unfold decode_vibration.
  replace (0 <? d) with true by (symmetry; apply Z.ltb_lt; lia).
  rewrite vibration_period, decoded_pwm_val_floor by (unfold MAX_EXACT_PULSE_US; lia).
  assert (Hstep : 0 <= d * 4800 / 1000000 < 551).
  { split; [apply Z.div_pos; lia | apply Z.div_lt_upper_bound; lia]. }
  assert (Hmdps : 0 <= d * 4800 / 1000000 * 750000 / 4799 < 85956).
  { split; [apply Z.div_pos; lia | apply Z.div_lt_upper_bound; lia]. }
  assert (Hout : 0 <= d * 4800 / 1000000 * 750000 / 4799 * 24950 / 750000 < 2860).
  { split; [apply Z.div_pos; lia | apply Z.div_lt_upper_bound; lia]. }
  change CH32_PWM_MAX_DUTY_VALUE with 4799. change MAX_VIBRATION_MDPS with 750000.
  change MIN_DISPLAY_VIBRATION_MILLI_G with 50.
  change MAX_DISPLAY_VIBRATION_MILLI_G with 25000.
  rewrite (map_from_zero _ 4799 0 750000);
    change (2 ^ 31) with 2147483648; rewrite ?Z.sub_0_r, ?Z.add_0_r; try lia.
  rewrite (map_from_zero _ 750000 50 25000);
    change (2 ^ 31) with 2147483648; change (25000 - 50) with 24950; try lia.
Qed.

Lemma decode_vibration_monotone_low (d1 d2 : Z) :
  0 <= d1 <= d2 -> d2 <= MAX_EXACT_VIBRATION_PULSE_US ->
  decode_vibration d1 <= decode_vibration d2.
Proof.
  intros H12 H2.
  destruct (Z.eq_dec d1 0) as [-> | Hpos].
  - destruct (Z.eq_dec d2 0) as [-> | Hpos2]; [reflexivity |].
    rewrite (decode_vibration_exact d2) by lia.
    change (decode_vibration 0) with 0.
    assert (0 <= d2 * 4800 / 1000000 * 750000 / 4799 * 24950 / 750000); [| lia].
    apply Z.div_pos; [| lia]. apply Z.mul_nonneg_nonneg; [| lia].
    apply Z.div_pos; [| lia]. apply Z.mul_nonneg_nonneg; [| lia].
    apply Z.div_pos; lia.
  - rewrite !decode_vibration_exact by lia.
    apply Z.add_le_mono_r.
    apply Z.div_le_mono; [lia |]. apply Z.mul_le_mono_nonneg_r; [lia |].
    apply Z.div_le_mono; [lia |]. apply Z.mul_le_mono_nonneg_r; [lia |].
    apply Z.div_le_mono; lia.
Qed.

(** A zero reading decodes to zero on both channels. *)
Lemma decode_zero : decode_tilt 0 = 0 /\ decode_vibration 0 = 0.
Proof. split; reflexivity. Qed.

(** [pulseIn] gives up after twice the period, and a pin that shows no
    complete pulse by then decodes to zero. *)
Lemma decode_timeout (tilt_pin vibration_pin : Arduino.pin_activity) :
  (tilt_pin = Arduino.NoPulse \/
   exists t w, tilt_pin = Arduino.PulseSeen t w /\ 2 * TILT_PWM_PERIOD_US < t) ->
  (vibration_pin = Arduino.NoPulse \/
   exists t w, vibration_pin = Arduino.PulseSeen t w /\ 2 * VIBRATION_PWM_PERIOD_US < t) ->
  decodePwmSignals tilt_pin vibration_pin = (0, 0).
Proof.
  intros Ht Hv. unfold decodePwmSignals.
  assert (Arduino.pulseIn tilt_pin (Int.mul TILT_PWM_PERIOD_US 2) = 0) as ->.
  { destruct Ht as [-> | (t & w & -> & Hlate)]; [reflexivity |].
    rewrite tilt_period in Hlate. simpl.
    change (Int.to_u32 (Int.mul TILT_PWM_PERIOD_US 2)) with 200000.
    destruct (Z.leb_spec t 200000); [lia | reflexivity]. }
  assert (Arduino.pulseIn vibration_pin (Int.mul VIBRATION_PWM_PERIOD_US 2) = 0) as ->.
  { destruct Hv as [-> | (t & w & -> & Hlate)]; [reflexivity |].
    rewrite vibration_period in Hlate. simpl.
    change (Int.to_u32 (Int.mul VIBRATION_PWM_PERIOD_US 2)) with 2000000.
    destruct (Z.leb_spec t 2000000); [lia | reflexivity]. }
  reflexivity.
Qed.

End Decoder.

(** C5, as stated, fails: a tilt pulse of 40 us is 1.92 steps long;
    the decoder reports step 1 although step 2 is nearer. *)
Lemma duty_step_not_nearest :
  decoded_pwm_val 40 TILT_PWM_PERIOD_US = 1 /\
  ~ nearest_step (decoded_pwm_val 40 TILT_PWM_PERIOD_US) 40 TILT_PWM_PERIOD_US.
Proof.
  split; [reflexivity |].
  intros Hnear. specialize (Hnear 2).
  vm_compute in Hnear. apply Hnear. reflexivity.
Qed.

(** C5, amended: for both channel periods and every pulse duration [d]
    whose product with 4800 fits a [long], the duty step is the floor of
    [d * 4800 / period]: the largest step whose start is not after the
    end of the pulse. *)
Theorem duty_step_is_floor (d period : Z) :
  period = TILT_PWM_PERIOD_US \/ period = VIBRATION_PWM_PERIOD_US ->
  0 <= d <= MAX_EXACT_PULSE_US ->
  decoded_pwm_val d period = d * (CH32_PWM_MAX_DUTY_VALUE + 1) / period /\
  decoded_pwm_val d period * period
    <= d * (CH32_PWM_MAX_DUTY_VALUE + 1)
    < (decoded_pwm_val d period + 1) * period.
Proof.
  intros Hperiod Hd.
  assert (Hpos : 0 < period)
    by (destruct Hperiod as [-> | ->]; [rewrite tilt_period | rewrite vibration_period]; lia).
  rewrite decoded_pwm_val_floor by assumption.
  change (CH32_PWM_MAX_DUTY_VALUE + 1) with 4800.
  split; [reflexivity |].
  pose proof (Z.div_mod (d * 4800) period) as Hdm.
  pose proof (Z.mod_pos_bound (d * 4800) period Hpos) as Hrem.
  specialize (Hdm ltac:(lia)). nia.
Qed.

Lemma duty_step_is_floor_witness :
  decoded_pwm_val 40 TILT_PWM_PERIOD_US
    = 40 * (CH32_PWM_MAX_DUTY_VALUE + 1) / TILT_PWM_PERIOD_US /\
  decoded_pwm_val 40 TILT_PWM_PERIOD_US * TILT_PWM_PERIOD_US
    <= 40 * (CH32_PWM_MAX_DUTY_VALUE + 1)
    < (decoded_pwm_val 40 TILT_PWM_PERIOD_US + 1) * TILT_PWM_PERIOD_US.
Proof.
  apply (duty_step_is_floor 40 TILT_PWM_PERIOD_US).
  - left. reflexivity.
  - unfold MAX_EXACT_PULSE_US. lia.
Defined.

(** C7: the decoder is not monotone on the vibration channel.  A pulse
    of 100 ms decodes to 2545 milli-g, a longer one of 120 ms to -2682:
    the second [map] multiplies by 24950 in a 32-bit [long] and wraps.
    A full-period pulse decodes to 2675 instead of 25000. *)
Theorem vibration_decoding_wraps :
  decodePwmSignals Arduino.NoPulse (Arduino.PulseSeen 1000000 100000) = (0, 2545) /\
  decodePwmSignals Arduino.NoPulse (Arduino.PulseSeen 1000000 120000) = (0, -2682) /\
  decodePwmSignals Arduino.NoPulse (Arduino.PulseSeen 1000000 1000000) = (0, 2675) /\
  ~ (forall d1 d2 : Z,
       0 <= d1 <= d2 -> d2 <= VIBRATION_PWM_PERIOD_US ->
       decode_vibration d1 <= decode_vibration d2).
Proof.
  repeat split; try reflexivity.
  intros Hmono.
  specialize (Hmono 100000 120000 ltac:(lia) ltac:(rewrite vibration_period; lia)).
  vm_compute in Hmono. apply Hmono. reflexivity.
Qed.

(** ** Wake windows *)

Lemma window_centred (v : Z) :
  0 <= v <= ADC_MAX ->
  centred_on v (mk_window (window_lower v) (window_upper v) v).
Proof.
  unfold ADC_MAX, centred_on, window_lower, window_upper, SENSOR_WINDOW_MARGIN.
  intros Hv. cbn [lower upper].
  rewrite (add_small v 100) by (change (2 ^ 31) with 2147483648; lia).
  rewrite (to_u16_id (v + 100)) by (change (2 ^ 16) with 65536; lia).
  destruct (Z.ltb_spec 100 v).
  - rewrite sub_small by (change (2 ^ 31) with 2147483648; lia).
    rewrite to_u16_id by (change (2 ^ 16) with 65536; lia). lia.
  - rewrite to_u16_id by (change (2 ^ 16) with 65536; lia). lia.
Qed.

(** C3: every recentring of the rain and soil windows on samples [rain]
    and [soil] of the 12-bit ADC leaves [lower = max 0 (v - 100)],
    [upper = v + 100] and [lower <= v <= upper]: on wake-up from deep
    sleep (setup), on the receiver's local-sensor path when it sees a
    change, and on the data-collection path (loop). *)
Theorem window_recentre (u : ulp_vars_t) (rain soil ready : Z) :
  0 <= rain <= ADC_MAX -> 0 <= soil <= ADC_MAX ->
  (last_rain_val u = rain -> last_soil_val u = soil ->
   centred_on rain (rain_window (setup_wake_thresholds u)) /\
   centred_on soil (soil_window (setup_wake_thresholds u))) /\
  (local_sensor_changed rain soil ready u = true ->
   centred_on rain (rain_window (loop_receiver_local_sensors rain soil ready u)) /\
   centred_on soil (soil_window (loop_receiver_local_sensors rain soil ready u))) /\
  (centred_on rain (rain_window (loop_data_collection_samples rain soil ready u)) /\
   centred_on soil (soil_window (loop_data_collection_samples rain soil ready u))).
Proof.
  intros Hrain Hsoil.
  pose proof (window_centred rain Hrain) as Hr.
  pose proof (window_centred soil Hsoil) as Hs.
  assert (Hr16 : Int.to_u16 rain = rain)
    by (apply to_u16_id; unfold ADC_MAX in Hrain; change (2 ^ 16) with 65536; lia).
  assert (Hs16 : Int.to_u16 soil = soil)
    by (apply to_u16_id; unfold ADC_MAX in Hsoil; change (2 ^ 16) with 65536; lia).
  split; [| split].
  - intros Hlr Hls.
    unfold setup_wake_thresholds, rain_window, soil_window.
    cbn [rain_lower rain_upper soil_lower soil_upper last_rain_val last_soil_val].
    rewrite Hlr, Hls, Hr16, Hs16. split; assumption.
  - intros Hchanged. unfold loop_receiver_local_sensors. rewrite Hchanged.
    unfold store_samples, rain_window, soil_window.
    cbn [rain_lower rain_upper soil_lower soil_upper last_rain_val last_soil_val].
    rewrite Hr16, Hs16. split; assumption.
  - unfold loop_data_collection_samples, store_samples, rain_window, soil_window.
    cbn [rain_lower rain_upper soil_lower soil_upper last_rain_val last_soil_val].
    rewrite Hr16, Hs16. split; assumption.
Qed.

Lemma window_recentre_witness :
  let u := mk_ulp_vars 0 0 500 0 0 50 0 0 in
  (centred_on 500 (rain_window (setup_wake_thresholds u)) /\
   centred_on 50 (soil_window (setup_wake_thresholds u))) /\
  (centred_on 500 (rain_window (loop_receiver_local_sensors 500 50 2500 u)) /\
   centred_on 50 (soil_window (loop_receiver_local_sensors 500 50 2500 u))) /\
  (centred_on 500 (rain_window (loop_data_collection_samples 500 50 2500 u)) /\
   centred_on 50 (soil_window (loop_data_collection_samples 500 50 2500 u))).
Proof.
  intros u.
  destruct (window_recentre u 500 50 2500) as (Hwake & Hlocal & Hcollect).
  - unfold ADC_MAX. lia.
  - unfold ADC_MAX. lia.
  - split; [apply Hwake; reflexivity | split; [apply Hlocal; reflexivity | exact Hcollect]].
Defined.

(** ** Role and failover state machine *)

(** Read fields back through the single-global assignments. *)
Ltac state_simpl :=
  unfold MAX_NODES in *;
  cbn [set_failedLastSend set_lastAnnouncedAR set_consecutiveSendFailures
       set_lastFailedTargetId set_probingForFailover set_ulpJustWoke
       set_latestNodeData set_myRole set_targetNodeId set_currentOperatingMode
       set_messageToSend set_nodeModeSynced set_nvs_mode_flag
       set_nvs_target_node_id set_ulp_running set_wifi_mode set_softAP_up
       set_server_routes set_server_running set_radio_log set_reply_log
       writeTargetNodeIdToNVS writeModeToNVS esp_now_send server_send
       ulp_init hulp_ulp_end
       nodeMacs failedLastSend lastAnnouncedAR consecutiveSendFailures
       lastFailedTargetId probingForFailover ulpJustWoke latestNodeData
       myNodeId myRole targetNodeId currentOperatingMode messageToSend
       nodeModeSynced nvs_mode_flag nvs_target_node_id ulp_running wifi_mode
       softAP_up server_routes server_running radio_log reply_log] in *;
  repeat match goal with
    | |- context [Z.of_nat (List.length (nodeMacs ?s))] =>
        change (Z.of_nat (List.length (nodeMacs s))) with (MAX_NODES s)
    | H : context [Z.of_nat (List.length (nodeMacs ?s))] |- _ =>
        change (Z.of_nat (List.length (nodeMacs s))) with (MAX_NODES s) in H
    end.

Section Mesh.

Lemma getNodeIdFromMac_from_range (mac : mac_t) (table : list mac_t) :
  forall i : Z,
    0 <= i -> i + Z.of_nat (List.length table) < 2 ^ 31 ->
    getNodeIdFromMac_from mac table i = 0 \/
    i < getNodeIdFromMac_from mac table i <= i + Z.of_nat (List.length table).
Proof.
  change (2 ^ 31) with 2147483648.
  induction table as [| entry rest IH]; intros i Hi Hfit.
  - left. reflexivity.
  - cbn [getNodeIdFromMac_from List.length] in *.
    rewrite add_small by (change (2 ^ 31) with 2147483648; lia).
    destruct (mac_equal mac entry).
    + right. lia.
    + destruct (IH (i + 1)) as [Hnone | Hsome]; [lia | lia | left; exact Hnone | right; lia].
Qed.

(** An id resolved from an address is 0 or a row of the table. *)
Lemma getNodeIdFromMac_range (s : State) (mac : mac_t) :
  MAX_NODES s < 2 ^ 31 ->
  getNodeIdFromMac s mac = 0 \/ 1 <= getNodeIdFromMac s mac <= MAX_NODES s.
Proof.
  intros Hfit. unfold getNodeIdFromMac, MAX_NODES in *.
  destruct (getNodeIdFromMac_from_range mac (nodeMacs s) 0) as [H0 | Hin];
    [lia | lia | left; exact H0 | right; lia].
Qed.

Lemma MAX_NODES_nonneg (s : State) : 0 <= MAX_NODES s.
Proof. unfold MAX_NODES. lia. Qed.

(** The target becomeSender settles on. *)
Lemma becomeSender_target (s : State) (newTargetId : Z) :
  MAX_NODES s < 2 ^ 31 -> is_int newTargetId ->
  targetNodeId (becomeSender newTargetId s)
  = if (newTargetId <? 1) || (MAX_NODES s <? newTargetId) then 1 else newTargetId.
Proof.
  unfold is_int. change (2 ^ 31) with 2147483648. intros HN Hint.
  pose proof (MAX_NODES_nonneg s) as HN0.
  unfold becomeSender. state_simpl.
  destruct (Z.ltb_spec newTargetId 1) as [Hlow | Hhigh]; [reflexivity |].
  cbn [orb].
  rewrite gt_size_small by (change (2 ^ 32) with 4294967296; lia).
  reflexivity.
Qed.

End Mesh.

(** C10: whatever [int] becomeSender is given, the node ends up a
    sender whose target lies in [1 .. MAX_NODES]: an argument below 1 or
    above MAX_NODES is replaced by 1 first, and the role,
    lastAnnouncedAR and the persisted target all get the clamped value. *)
Theorem becomeSender_clamps_target (s : State) (newTargetId : Z) :
  mesh_ok s -> is_int newTargetId ->
  let clamped :=
    if (newTargetId <? 1) || (MAX_NODES s <? newTargetId) then 1 else newTargetId in
  let s' := becomeSender newTargetId s in
  1 <= targetNodeId s' <= MAX_NODES s' /\
  role_of s' = Sender clamped /\
  lastAnnouncedAR s' = clamped /\
  nvs_target_node_id s' = Some clamped.
Proof.
  intros Hmesh Hint clamped s'. unfold mesh_ok in Hmesh.
  assert (HN : MAX_NODES s < 2 ^ 31) by (change (2 ^ 31) with 2147483648; lia).
  pose proof (becomeSender_target s newTargetId HN Hint) as Htarget.
  fold clamped in Htarget. fold s' in Htarget.
  assert (Hrange : 1 <= clamped <= MAX_NODES s).
  { subst clamped.
    destruct (Z.ltb_spec newTargetId 1); cbn [orb]; [lia |].
    destruct (Z.ltb_spec (MAX_NODES s) newTargetId); lia. }
  assert (Hsame : MAX_NODES s' = MAX_NODES s) by reflexivity.
  assert (Hrole : myRole s' = ROLE_SENDER) by reflexivity.
  assert (Hlast : lastAnnouncedAR s' = targetNodeId s') by reflexivity.
  assert (Hnvs : nvs_target_node_id s' = Some (Int.to_i8 (targetNodeId s'))) by reflexivity.
  repeat split.
  - rewrite Htarget. lia.
  - rewrite Hsame, Htarget. lia.
  - unfold role_of. rewrite Hrole, Htarget. reflexivity.
  - rewrite Hlast. exact Htarget.
  - rewrite Hnvs, Htarget. f_equal. apply to_i8_id. change (2 ^ 7) with 128. lia.
Qed.

Lemma becomeSender_clamps_target_witness :
  let s' := becomeSender 5 (boot_state 2) in
  1 <= targetNodeId s' <= MAX_NODES s' /\
  role_of s' = Sender 1 /\
  lastAnnouncedAR s' = 1 /\
  nvs_target_node_id s' = Some 1.
Proof.
  apply (becomeSender_clamps_target (boot_state 2) 5).
  - unfold mesh_ok, MAX_NODES. simpl. lia.
  - unfold is_int. lia.
Defined.

(** C1: when a failed send to the current target [t] (a known node, so
    [t <> 0]) brings the failure count to the threshold, the node
    becomes Active Receiver exactly when [t + 1] is beyond the mesh or
    is the node itself, and otherwise a sender to [t + 1]. *)
Theorem failover_determinism (s : State) (mac : mac_t) (t : Z) :
  mesh_ok s ->
  getNodeIdFromMac s mac = t -> targetNodeId s = t -> t <> 0 ->
  FAILOVER_THRESHOLD - 1 <= consecutiveSendFailures s < 2 ^ 31 - 1 ->
  let s' := onDataSent mac ESP_NOW_SEND_FAIL s in
  lastFailedTargetId s' = t /\
  (role_of s' = ActiveReceiver <-> (t + 1 > MAX_NODES s \/ t + 1 = myNodeId s)) /\
  (~ (t + 1 > MAX_NODES s \/ t + 1 = myNodeId s) -> role_of s' = Sender (t + 1)).
Proof.
  intros Hmesh Hmac Htarget Hknown Hcount s'.
  unfold mesh_ok, FAILOVER_THRESHOLD in *. change (2 ^ 31) with 2147483648 in *.
  destruct (getNodeIdFromMac_range s mac) as [Hzero | Hrow];
    [change (2 ^ 31) with 2147483648; lia | congruence |].
  rewrite Hmac in Hrow.
  assert (Hs' : s' = set_failedLastSend false
                  (findNewTargetAndFailover
                     (set_lastFailedTargetId t
                        (set_consecutiveSendFailures (consecutiveSendFailures s + 1)
                           (set_failedLastSend true s))))).
  { subst s'. unfold onDataSent. state_simpl.
    rewrite Hmac, Htarget, Z.eqb_refl.
    rewrite add_small by (change (2 ^ 31) with 2147483648; lia).
    replace (FAILOVER_THRESHOLD <=? consecutiveSendFailures s + 1) with true
      by (symmetry; apply Z.leb_le; unfold FAILOVER_THRESHOLD; lia).
    reflexivity. }
  rewrite Hs'. unfold findNewTargetAndFailover. state_simpl.
  replace (t =? 0) with false by (symmetry; apply Z.eqb_neq; exact Hknown).
  rewrite add_small by (change (2 ^ 31) with 2147483648; lia).
  rewrite gt_size_small by (change (2 ^ 32) with 4294967296; lia).
  destruct (Z.ltb_spec (MAX_NODES s) (t + 1)) as [Hbeyond | Hinside]; cbn [orb].
  - unfold role_of, becomeActiveReceiver, broadcast_announce_ar, reset_nodeModeSynced.
    state_simpl. repeat split; try reflexivity; intros; try lia.
  - destruct (Z.eqb_spec (t + 1) (myNodeId s)) as [Hself | Hother].
    + unfold role_of, becomeActiveReceiver, broadcast_announce_ar, reset_nodeModeSynced.
      state_simpl. repeat split; try reflexivity; intros; try lia.
    + unfold role_of, becomeSender. state_simpl.
      replace (t + 1 <? 1) with false by (symmetry; apply Z.ltb_ge; lia).
      rewrite gt_size_small by (change (2 ^ 32) with 4294967296; lia).
      replace (MAX_NODES s <? t + 1) with false by (symmetry; apply Z.ltb_ge; lia).
      cbn [orb]. repeat split; try reflexivity; intros; try discriminate; try lia.
Qed.

Lemma failover_determinism_witness :
  let s' := onDataSent mac_of_node1 ESP_NOW_SEND_FAIL sender3_two_failures in
  lastFailedTargetId s' = 1 /\
  (role_of s' = ActiveReceiver <->
   (1 + 1 > MAX_NODES sender3_two_failures \/ 1 + 1 = myNodeId sender3_two_failures)) /\
  (~ (1 + 1 > MAX_NODES sender3_two_failures \/ 1 + 1 = myNodeId sender3_two_failures) ->
   role_of s' = Sender (1 + 1)).
Proof.
  apply (failover_determinism sender3_two_failures mac_of_node1 1).
  - unfold mesh_ok, MAX_NODES. simpl. lia.
  - reflexivity.
  - reflexivity.
  - lia.
  - change (consecutiveSendFailures sender3_two_failures) with 2.
    unfold FAILOVER_THRESHOLD. change (2 ^ 31) with 2147483648. lia.
Defined.

(** ** Query server *)

Lemma string_app_assoc (a b c : string) : ((a ++ b) ++ c = a ++ (b ++ c))%string.
Proof. induction a as [| ch a IH]; cbn; [reflexivity | f_equal; exact IH]. Qed.

Lemma toInt_is_int (text : string) : is_int (toInt text).
Proof.
  unfold is_int, toInt.
  assert (Hclamp : forall z, - 2 ^ 31 <= clamp_long z < 2 ^ 31)
    by (intros z; unfold clamp_long; change (2 ^ 31) with 2147483648; lia).
  destruct (skip_spaces text) as [| c rest]; [apply Hclamp |].
  destruct c as [[] [] [] [] [] [] [] []]; apply Hclamp.
Qed.

(** The body handleSensorData builds is the JSON object with exactly
    the seven members nodeId, mac, rain, soil, vibration, tilt and
    lastUpdated. *)
Lemma sensor_data_json_members (k : Z) (d : CurrentSensorReadings) :
  sensor_data_json k d
  = json_object ": " ","
      [ ("nodeId", String_of_int k);
        ("mac", quoted (macString_of (mac_addr d)));
        ("rain", String_of_int (r_rain_adc_value d));
        ("soil", String_of_int (r_soil_adc_value d));
        ("vibration", String_of_int (r_vibration_milli_g d));
        ("tilt", String_of_int (r_tilt_centi_deg d));
        ("lastUpdated", String_of_int (lastUpdated d)) ].
Proof.
  unfold sensor_data_json, json_object, json_members.
  repeat rewrite string_app_assoc. reflexivity.
Qed.

Lemma sensor_data_not_found_members :
  sensor_data_not_found
  = json_object ":" ","
      [ ("error", quoted "Sensor data for requested nodeId not found or invalid.") ].
Proof. reflexivity. Qed.

(** C8: a request for [nodeId=k] is answered 200 with the JSON object
    of members nodeId, mac, rain, soil, vibration, tilt, lastUpdated
    exactly when [1 <= k <= MAX_NODES] and [latestNodeData[k]] is
    initialized; otherwise it is answered 404 with a JSON error object. *)
Theorem sensor_data_reply (s : State) (args : request_args) :
  mesh_ok s -> hasArg args "nodeId" = true ->
  let k := toInt (arg args "nodeId") in
  let d := node_data s k in
  let s' := handleSensorData args s in
  let found := 1 <= k <= MAX_NODES s /\ initialized d = true in
  (found ->
   reply_log s'
   = (reply_log s
      ++ [mk_reply 200 "application/json"
            (json_object ": " ","
               [ ("nodeId", String_of_int k);
                 ("mac", quoted (macString_of (mac_addr d)));
                 ("rain", String_of_int (r_rain_adc_value d));
                 ("soil", String_of_int (r_soil_adc_value d));
                 ("vibration", String_of_int (r_vibration_milli_g d));
                 ("tilt", String_of_int (r_tilt_centi_deg d));
                 ("lastUpdated", String_of_int (lastUpdated d)) ])])%list) /\
  (~ found ->
   reply_log s'
   = (reply_log s
      ++ [mk_reply 404 "application/json"
            (json_object ":" ","
               [ ("error",
                  quoted "Sensor data for requested nodeId not found or invalid.") ])])%list).
Proof.
  intros Hmesh Hhas k d s' found. unfold mesh_ok in Hmesh.
  pose proof (toInt_is_int (arg args "nodeId")) as Hint. fold k in Hint.
  unfold is_int in Hint. change (2 ^ 31) with 2147483648 in Hint.
  rewrite <- sensor_data_json_members, <- sensor_data_not_found_members.
  subst s'. unfold handleSensorData. rewrite Hhas.
  rewrite wrap32_id by (change (2 ^ 31) with 2147483648; exact Hint).
  fold k. fold d. subst found.
  destruct (Z.leb_spec 1 k) as [Hlow | Hlow]; cbn [andb].
  - rewrite le_size_small by (change (2 ^ 32) with 4294967296; lia).
    destruct (Z.leb_spec k (MAX_NODES s)) as [Hhigh | Hhigh]; cbn [andb].
    + destruct (initialized d) eqn:Hinit.
      * split; [intros _; reflexivity | intros Hnot; exfalso; apply Hnot; split; [lia | reflexivity]].
      * split; [intros [_ Hyes]; discriminate | intros _; reflexivity].
    + split; [intros [Hin _]; lia | intros _; reflexivity].
  - split; [intros [Hin _]; lia | intros _; reflexivity].
Qed.

Lemma sensor_data_reply_witness :
  reply_log (handleSensorData [("nodeId", "5")] (fresh_receiver 1))
  = (reply_log (fresh_receiver 1)
     ++ [mk_reply 404 "application/json"
           (json_object ":" ","
              [ ("error",
                 quoted "Sensor data for requested nodeId not found or invalid.") ])])%list.
Proof.
  destruct (sensor_data_reply (fresh_receiver 1) [("nodeId", "5")]) as [_ Hmissing].
  - unfold mesh_ok, MAX_NODES. simpl. lia.
  - reflexivity.
  - apply Hmissing. intros [[_ Hhigh] _].
    vm_compute in Hhigh. apply Hhigh. reflexivity.
Defined.

(** What handleSetMode answers, case by case. *)
Lemma handleSetMode_replies (s : State) (args : request_args) :
  let modeStr := arg args "mode" in
  let s' := handleSetMode args s in
  (hasArg args "mode" = false ->
   s' = server_send 400 "application/json" set_mode_missing s) /\
  (hasArg args "mode" = true -> parse_mode modeStr = None ->
   s' = server_send 400 "application/json" set_mode_invalid s) /\
  (forall m, hasArg args "mode" = true -> parse_mode modeStr = Some m ->
     currentOperatingMode s = m ->
     s' = server_send 200 "application/json" (set_mode_unchanged modeStr) s) /\
  (forall m, hasArg args "mode" = true -> parse_mode modeStr = Some m ->
     currentOperatingMode s <> m ->
     last_reply s' = Some (mk_reply 200 "application/json" (set_mode_success modeStr)) /\
     currentOperatingMode s' = m /\
     nvs_mode_flag s' = Some (mode_value m)).
Proof.
  intros modeStr s'. subst s'. unfold handleSetMode. fold modeStr.
  split; [| split; [| split]].
  - intros ->. reflexivity.
  - intros -> ->. reflexivity.
  - intros m -> -> <-. destruct (currentOperatingMode s); reflexivity.
  - intros m Hhas Hparse Hdiff. rewrite Hhas, Hparse.
    replace (mode_eqb (currentOperatingMode s) m) with false
      by (destruct (currentOperatingMode s), m; try reflexivity; congruence).
    cbn [negb]. split; [| split].
    + unfold last_reply. state_simpl. apply last_snoc.
    + unfold broadcast_mode_change, reconfigure_ulp, Nat.iter.
      cbn [nat_rect]. state_simpl.
      destruct m; state_simpl; destruct (myNodeId s =? 1); reflexivity.
    + unfold broadcast_mode_change, reconfigure_ulp, Nat.iter.
      cbn [nat_rect]. state_simpl.
      destruct m; state_simpl; destruct (myNodeId s =? 1); reflexivity.
Qed.

(** Asking for the mode that is already set changes nothing but the
    reply log, so asking again gets the same answer. *)
Lemma handleSetMode_unchanged_twice (s : State) (args : request_args) (m : operating_mode_t) :
  hasArg args "mode" = true -> parse_mode (arg args "mode") = Some m ->
  currentOperatingMode s = m ->
  let body := set_mode_unchanged (arg args "mode") in
  handleSetMode args (handleSetMode args s)
  = server_send 200 "application/json" body (server_send 200 "application/json" body s).
Proof.
  intros Hhas Hparse Hmode body.
  destruct (handleSetMode_replies s args) as (_ & _ & Hsame & _).
  rewrite (Hsame m Hhas Hparse Hmode).
  destruct (handleSetMode_replies
              (server_send 200 "application/json" (set_mode_unchanged (arg args "mode")) s)
              args) as (_ & _ & Hsame' & _).
  apply (Hsame' m Hhas Hparse). exact Hmode.
Qed.

(** Every route becomeActiveReceiver registers is a GET route, so a
    POST request never finds a handler. *)
Lemma post_finds_no_handler (s : State) (uri : string) (args : request_args) :
  Forall (fun r => route_method r = HTTP_GET) (server_routes s) ->
  server_running s = true ->
  handleClient HTTP_POST uri args s = server_send 404 "text/plain" ("Not found: " ++ uri) s.
Proof.
  intros Hroutes Hrun. unfold handleClient. rewrite Hrun.
  induction Hroutes as [| r rest Hr _ IH]; [reflexivity |].
  cbn [List.find]. rewrite Hr. cbn [method_eqb]. rewrite andb_false_r. exact IH.
Qed.

Lemma becomeActiveReceiver_routes_are_get (s : State) :
  Forall (fun r => route_method r = HTTP_GET) (server_routes s) ->
  Forall (fun r => route_method r = HTTP_GET) (server_routes (becomeActiveReceiver s)).
Proof.
  intros Hroutes. unfold becomeActiveReceiver, broadcast_announce_ar, reset_nodeModeSynced.
  state_simpl. apply Forall_app. split; [exact Hroutes |].
  repeat constructor.
Qed.

(** On a node that becomes Active Receiver with no route registered
    before, GET requests for the two paths reach the two handlers. *)
Lemma get_reaches_handlers (s : State) (args : request_args) :
  server_routes s = [] ->
  let r := becomeActiveReceiver s in
  handleClient HTTP_GET "/sensor_data" args r = handleSensorData args r /\
  handleClient HTTP_GET "/set_mode" args r = handleSetMode args r.
Proof.
  intros Hroutes r.
  assert (Hrun : server_running r = true) by reflexivity.
  assert (Htable : server_routes r
                   = [mk_route "/sensor_data" HTTP_GET HandleSensorData;
                      mk_route "/set_mode" HTTP_GET HandleSetMode]).
  { subst r. unfold becomeActiveReceiver, broadcast_announce_ar, reset_nodeModeSynced.
    state_simpl. rewrite Hroutes. reflexivity. }
  unfold handleClient. rewrite Hrun, Htable. split; reflexivity.
Qed.

(** C6: on a node that has just become Active Receiver, a POST to
    /set_mode asking for data collection is not routed to
    handleSetMode: the server answers 404 and the mode stays as it was,
    where the same request sent with GET is answered 200 "success".
    becomeActiveReceiver registers the route for HTTP_GET only. *)
Theorem set_mode_post_not_routed :
  let s := fresh_receiver 1 in
  let args := [("mode", "data_collection")] in
  role_of s = ActiveReceiver /\
  currentOperatingMode s = STANDBY_MODE /\
  last_reply (handleClient HTTP_POST "/set_mode" args s)
    = Some (mk_reply 404 "text/plain" "Not found: /set_mode") /\
  currentOperatingMode (handleClient HTTP_POST "/set_mode" args s) = STANDBY_MODE /\
  last_reply (handleClient HTTP_GET "/set_mode" args s)
    = Some (mk_reply 200 "application/json" (set_mode_success "data_collection")) /\
  currentOperatingMode (handleClient HTTP_GET "/set_mode" args s) = DATA_COLLECTION_MODE.
Proof. repeat split; reflexivity. Qed.

(** ** Mode synchronisation *)

(** On node 1 a MODE_CHANGE that brings a new mode is persisted, the
    ULP is reconfigured, every sync flag is cleared and an ANNOUNCE_AR
    carrying the new mode is broadcast. *)
Lemma mode_change_on_node_1 (s : State) (now : Z) (mac : mac_t) (msg : struct_message) :
  myNodeId s = 1 -> getNodeIdFromMac s mac <> 0 ->
  type msg = MSG_TYPE_MODE_CHANGE -> newMode msg <> currentOperatingMode s ->
  let s' := onDataRecv now mac msg sizeof_struct_message s in
  currentOperatingMode s' = newMode msg /\
  nvs_mode_flag s' = Some (mode_value (newMode msg)) /\
  ulp_running s'
    = match newMode msg with STANDBY_MODE => true | DATA_COLLECTION_MODE => false end /\
  nodeModeSynced s' = replicate (S (List.length (nodeMacs s))) false /\
  exists m,
    radio_log s' = (radio_log s ++ [(broadcastMac, m)])%list /\
    type m = MSG_TYPE_ANNOUNCE_AR /\ newMode m = newMode msg.
Proof.
  intros Hid Hsender Htype Hnew s'. subst s'. unfold onDataRecv.
  replace (getNodeIdFromMac s mac =? 0) with false
    by (symmetry; apply Z.eqb_neq; exact Hsender).
  rewrite Z.eqb_refl, Htype. cbn [orb negb].
  replace (mode_eqb (currentOperatingMode s) (newMode msg)) with false
    by (destruct (currentOperatingMode s), (newMode msg); try reflexivity; congruence).
  cbn [negb]. unfold reconfigure_ulp. state_simpl.
  destruct (newMode msg); state_simpl; rewrite Hid; cbn [Z.eqb Pos.eqb];
    unfold broadcast_announce_ar, reset_nodeModeSynced; state_simpl;
    repeat split; eexists; repeat split.
Qed.

(** On any other node the sync flags and the radio stay as they are,
    whatever the role. *)
Lemma mode_change_off_node_1 (s : State) (now : Z) (mac : mac_t) (msg : struct_message)
    (len : Z) :
  myNodeId s <> 1 -> type msg = MSG_TYPE_MODE_CHANGE ->
  let s' := onDataRecv now mac msg len s in
  nodeModeSynced s' = nodeModeSynced s /\ radio_log s' = radio_log s /\
  myRole s' = myRole s.
Proof.
  intros Hid Htype s'. subst s'. unfold onDataRecv. rewrite Htype.
  destruct ((getNodeIdFromMac s mac =? 0) || negb (len =? sizeof_struct_message));
    [repeat split |].
  destruct (negb (mode_eqb (currentOperatingMode s) (newMode msg))); [| repeat split].
  unfold reconfigure_ulp. state_simpl.
  destruct (newMode msg); state_simpl;
    (replace (myNodeId s =? 1) with false by (symmetry; apply Z.eqb_neq; exact Hid));
    repeat split.
Qed.

(** C4: node 2 holds the Active Receiver role and has marked nodes 1
    and 3 as synced.  A MODE_CHANGE to data collection arrives: the new
    mode is persisted and the ULP is stopped, but no sync flag is
    cleared and nothing is broadcast.  The same happens when the new
    mode is requested through /set_mode, apart from the five
    MODE_CHANGE broadcasts that handler always sends.  Both places test
    [myNodeId == 1] where the comments say "if this node is the AR". *)
Theorem mode_change_on_receiver_2_keeps_sync_flags :
  let s := receiver2_synced in
  let by_radio :=
    onDataRecv 30 mac_of_node3 (mode_change_from 3 DATA_COLLECTION_MODE)
      sizeof_struct_message s in
  let by_request := handleClient HTTP_GET "/set_mode" [("mode", "data_collection")] s in
  role_of s = ActiveReceiver /\
  currentOperatingMode s = STANDBY_MODE /\
  nodeModeSynced s = [false; true; false; true] /\
  (currentOperatingMode by_radio = DATA_COLLECTION_MODE /\
   nvs_mode_flag by_radio = Some 1 /\
   ulp_running by_radio = false /\
   role_of by_radio = ActiveReceiver /\
   nodeModeSynced by_radio = [false; true; false; true] /\
   radio_log by_radio = radio_log s) /\
  (currentOperatingMode by_request = DATA_COLLECTION_MODE /\
   nvs_mode_flag by_request = Some 1 /\
   role_of by_request = ActiveReceiver /\
   nodeModeSynced by_request = [false; true; false; true] /\
   Forall (fun sent => type (snd sent) = MSG_TYPE_MODE_CHANGE)
     (drop (List.length (radio_log s)) (radio_log by_request))).
Proof. vm_compute. repeat split; repeat constructor. Qed.

(** ** Priority yield *)

Lemma role_of_reconfigure_ulp (s : State) : role_of (reconfigure_ulp s) = role_of s.
Proof. unfold reconfigure_ulp. destruct (currentOperatingMode s); reflexivity. Qed.

(** Adopting the announced mode leaves the role alone. *)
Lemma role_of_mode_sync (s : State) (m : operating_mode_t) :
  role_of (adopt_announced_mode m s) = role_of s.
Proof.
  unfold adopt_announced_mode.
  destruct (negb (mode_eqb (currentOperatingMode s) m)); [| reflexivity].
  rewrite role_of_reconfigure_ulp. reflexivity.
Qed.

Lemma role_of_becomeSender (s : State) (k : Z) :
  MAX_NODES s < 2 ^ 31 -> 1 <= k <= MAX_NODES s ->
  role_of (becomeSender k s) = Sender k.
Proof.
  intros HN Hk. unfold role_of.
  assert (Hrole : myRole (becomeSender k s) = ROLE_SENDER) by reflexivity.
  rewrite Hrole.
  rewrite becomeSender_target
    by (try assumption; unfold is_int; change (2 ^ 31) with 2147483648 in *; lia).
  replace (k <? 1) with false by (symmetry; apply Z.ltb_ge; lia).
  replace (MAX_NODES s <? k) with false by (symmetry; apply Z.ltb_ge; lia).
  reflexivity.
Qed.

(** Among received messages, an Active Receiver is demoted by an
    ANNOUNCE_AR from a strictly lower id and by nothing else; it then
    targets that id. *)
Lemma receiver_yields_to_lower_announcer (s : State) (now : Z) (mac : mac_t)
    (msg : struct_message) (len : Z) :
  mesh_ok s -> myRole s = ROLE_RECEIVER ->
  let k := getNodeIdFromMac s mac in
  let s' := onDataRecv now mac msg len s in
  let yields :=
    k <> 0 /\ len = sizeof_struct_message /\
    type msg = MSG_TYPE_ANNOUNCE_AR /\ k < myNodeId s in
  (yields -> role_of s' = Sender k) /\ (~ yields -> role_of s' = ActiveReceiver).
Proof.
  intros Hmesh Hrole k s' yields. unfold mesh_ok in Hmesh.
  assert (HN : MAX_NODES s < 2 ^ 31) by (change (2 ^ 31) with 2147483648; lia).
  assert (Hreceiver : role_of s = ActiveReceiver) by (unfold role_of; rewrite Hrole; reflexivity).
  pose proof (getNodeIdFromMac_range s mac HN) as Hk. fold k in Hk.
  subst s' yields. unfold onDataRecv. fold k.
  destruct (Z.eqb_spec k 0) as [Hzero | Hknown]; cbn [orb].
  { split; [intros (Hne & _); contradiction | intros _; exact Hreceiver]. }
  destruct (Z.eqb_spec len sizeof_struct_message) as [Hlen | Hlen]; cbn [negb].
  2: { split; [intros (_ & Heq & _); contradiction | intros _; exact Hreceiver]. }
  destruct (type msg) eqn:Htype.
  - (* DATA *)
    split; [intros (_ & _ & Hty & _); discriminate | intros _].
    rewrite Hrole. cbn [role_eqb].
    destruct ((1 <=? k) && Int.le_size k (MAX_NODES s));
      match goal with |- context [if negb ?c then _ else _] => destruct c end;
      cbn [negb]; unfold role_of, answer_announce_ar, store_node_data; state_simpl;
      rewrite Hrole; reflexivity.
  - (* PROBE *)
    split; [intros (_ & _ & Hty & _); discriminate | intros _].
    rewrite Hrole. cbn [role_eqb].
    unfold role_of, answer_announce_ar. state_simpl. rewrite Hrole. reflexivity.
  - (* ANNOUNCE_AR *)
    unfold follow_announcer. state_simpl. rewrite Hrole. cbn [role_eqb andb].
    destruct (Z.ltb_spec k (myNodeId s)) as [Hlower | Hhigher].
    + split; [intros _ | intros Hnot; exfalso; apply Hnot; repeat split; assumption].
      rewrite role_of_mode_sync, role_of_reconfigure_ulp.
      apply role_of_becomeSender; [exact HN | state_simpl; lia].
    + split; [intros (_ & _ & _ & Hlt); lia | intros _].
      rewrite role_of_mode_sync. unfold role_of. state_simpl. rewrite Hrole. reflexivity.
  - (* MODE_CHANGE *)
    split; [intros (_ & _ & Hty & _); discriminate | intros _].
    destruct (negb (mode_eqb (currentOperatingMode s) (newMode msg))); [| exact Hreceiver].
    unfold reconfigure_ulp. state_simpl.
    destruct (newMode msg); state_simpl; destruct (myNodeId s =? 1);
      unfold role_of, broadcast_announce_ar, reset_nodeModeSynced; state_simpl;
      rewrite Hrole; reflexivity.
Qed.

(** No HTTP request changes the role. *)
Lemma handleClient_keeps_role (s : State) (method : HTTPMethod) (uri : string)
    (args : request_args) :
  role_of (handleClient method uri args s) = role_of s.
Proof.
  unfold handleClient.
  destruct (server_running s); [| reflexivity].
  destruct (List.find _ (server_routes s)) as [r |]; [| reflexivity].
  destruct (route_handler r).
  - unfold handleSensorData.
    match goal with |- context [if ?c then _ else _] => destruct c end; reflexivity.
  - unfold handleSetMode.
    destruct (hasArg args "mode"); [| reflexivity].
    destruct (parse_mode (arg args "mode")) as [m |]; [| reflexivity].
    destruct (negb (mode_eqb (currentOperatingMode s) m)); [| reflexivity].
    unfold broadcast_mode_change, reconfigure_ulp, Nat.iter. cbn [nat_rect]. state_simpl.
    destruct m; state_simpl; destruct (myNodeId s =? 1); reflexivity.
Qed.

(** C2: a send-completion event demotes an Active Receiver.  Node 2 is
    Active Receiver; three broadcasts in a row are reported as failed.
    The broadcast address resolves to id 0, which is also the
    [targetNodeId] of a receiver, so the failures are counted as
    failures of "the current target" and the third one runs
    findNewTargetAndFailover, which turns the node into a sender to
    node 1.  No ANNOUNCE_AR was received. *)
Theorem receiver_demoted_by_failed_broadcasts :
  let s0 := fresh_receiver 2 in
  let failed := DataSent broadcastMac ESP_NOW_SEND_FAIL in
  role_of s0 = ActiveReceiver /\
  getNodeIdFromMac s0 broadcastMac = targetNodeId s0 /\
  role_of (react failed s0) = ActiveReceiver /\
  role_of (react failed (react failed s0)) = ActiveReceiver /\
  role_of (react failed (react failed (react failed s0))) = Sender 1.
Proof. vm_compute. repeat split. Qed.


(** ** Mode idempotence *)

Section Idempotence.

Lemma mode_eqb_eq (a b : operating_mode_t) : mode_eqb a b = true <-> a = b.
Proof. destruct a, b; cbn; split; intros H; congruence. Qed.

Lemma set_lastAnnouncedAR_same (s : State) :
  set_lastAnnouncedAR (lastAnnouncedAR s) s = s.
Proof. destruct s. reflexivity. Qed.

(** *** MODE_CHANGE *)

Lemma mode_change_settled (s : State) (now : Z) (mac : mac_t) (msg : struct_message)
    (len : Z) :
  type msg = MSG_TYPE_MODE_CHANGE -> currentOperatingMode s = newMode msg ->
  onDataRecv now mac msg len s = s.
Proof.
  intros Htype Hmode. unfold onDataRecv. rewrite Htype, Hmode.
  replace (mode_eqb (newMode msg) (newMode msg)) with true
    by (symmetry; apply mode_eqb_eq; reflexivity).
  destruct ((getNodeIdFromMac s mac =? 0) || negb (len =? sizeof_struct_message));
    reflexivity.
Qed.

Lemma mode_change_result (s : State) (now : Z) (mac : mac_t) (msg : struct_message)
    (len : Z) :
  type msg = MSG_TYPE_MODE_CHANGE ->
  onDataRecv now mac msg len s = s \/
  currentOperatingMode (onDataRecv now mac msg len s) = newMode msg.
Proof.
  intros Htype. unfold onDataRecv. rewrite Htype.
  destruct ((getNodeIdFromMac s mac =? 0) || negb (len =? sizeof_struct_message));
    [left; reflexivity |].
  destruct (negb (mode_eqb (currentOperatingMode s) (newMode msg)));
    [right | left; reflexivity].
  unfold reconfigure_ulp. state_simpl.
  destruct (newMode msg); state_simpl; destruct (myNodeId s =? 1); reflexivity.
Qed.

Lemma mode_change_ignores_clock (s : State) (now now' : Z) (mac : mac_t)
    (msg : struct_message) (len : Z) :
  type msg = MSG_TYPE_MODE_CHANGE ->
  onDataRecv now mac msg len s = onDataRecv now' mac msg len s.
Proof. intros Htype. unfold onDataRecv. rewrite Htype. reflexivity. Qed.

(** *** ANNOUNCE_AR *)

Lemma adopt_settled (m : operating_mode_t) (s : State) :
  currentOperatingMode s = m -> adopt_announced_mode m s = s.
Proof.
  intros Hmode. unfold adopt_announced_mode.
  replace (mode_eqb (currentOperatingMode s) m) with true
    by (symmetry; apply mode_eqb_eq; exact Hmode).
  reflexivity.
Qed.

Lemma adopt_mode (m : operating_mode_t) (s : State) :
  currentOperatingMode (adopt_announced_mode m s) = m.
Proof.
  unfold adopt_announced_mode.
  destruct (mode_eqb (currentOperatingMode s) m) eqn:Hsame; cbn [negb].
  - apply mode_eqb_eq. exact Hsame.
  - unfold reconfigure_ulp. state_simpl. destruct m; reflexivity.
Qed.

(** Adopting a mode touches neither the mesh table, nor the node id,
    nor anything becomeSender assigns. *)
Lemma adopt_frame (m : operating_mode_t) (s : State) :
  nodeMacs (adopt_announced_mode m s) = nodeMacs s /\
  myNodeId (adopt_announced_mode m s) = myNodeId s /\
  myRole (adopt_announced_mode m s) = myRole s /\
  targetNodeId (adopt_announced_mode m s) = targetNodeId s /\
  (forall c, sender_fields c s -> sender_fields c (adopt_announced_mode m s)).
Proof.
  unfold adopt_announced_mode, sender_fields.
  destruct (negb (mode_eqb (currentOperatingMode s) m)); [| tauto].
  unfold reconfigure_ulp. state_simpl. destruct m; state_simpl; tauto.
Qed.

Lemma reconfigure_frame (s : State) :
  nodeMacs (reconfigure_ulp s) = nodeMacs s /\
  currentOperatingMode (reconfigure_ulp s) = currentOperatingMode s /\
  (forall c, sender_fields c s -> sender_fields c (reconfigure_ulp s)).
Proof.
  unfold reconfigure_ulp, sender_fields.
  destruct (currentOperatingMode s) eqn:Hmode; state_simpl; intuition congruence.
Qed.

Lemma becomeSender_fields (k : Z) (s : State) :
  sender_fields (clamp_target k s) (becomeSender k s) /\
  nodeMacs (becomeSender k s) = nodeMacs s /\
  currentOperatingMode (becomeSender k s) = currentOperatingMode s.
Proof. unfold sender_fields. repeat split. Qed.

(** A state that already carries what becomeSender would assign is
    left as it is. *)
Lemma becomeSender_absorb (k : Z) (s : State) :
  sender_fields (clamp_target k s) s -> becomeSender k s = s.
Proof.
  unfold sender_fields, clamp_target, becomeSender, MAX_NODES.
  destruct s as [macs fls laa csf lft pff ujw lnd me role tgt mode mts nms nvm nvt
                 ulp wm sap srt srn rl rpl].
  state_simpl.
  intros (-> & Htgt & Hlaa & -> & Hnvt & -> & -> & ->).
  rewrite Hnvt. rewrite <- Hlaa at 2. rewrite <- Htgt at 2.
  rewrite Hlaa, Htgt. reflexivity.
Qed.

(** becomeSender overwrites lastAnnouncedAR. *)
Lemma becomeSender_after_announce (k v : Z) (s : State) :
  becomeSender k (set_lastAnnouncedAR v s) = becomeSender k s.
Proof. reflexivity. Qed.

Lemma announce_unfold (s : State) (now : Z) (mac : mac_t) (msg : struct_message)
    (len : Z) :
  type msg = MSG_TYPE_ANNOUNCE_AR ->
  onDataRecv now mac msg len s
  = if (getNodeIdFromMac s mac =? 0) || negb (len =? sizeof_struct_message) then s
    else adopt_announced_mode (newMode msg)
           (follow_announcer (getNodeIdFromMac s mac)
              (set_lastAnnouncedAR (senderId msg) s)).
Proof. intros Htype. unfold onDataRecv. rewrite Htype. reflexivity. Qed.

Lemma follow_frame (k : Z) (s : State) :
  nodeMacs (follow_announcer k s) = nodeMacs s /\
  currentOperatingMode (follow_announcer k s) = currentOperatingMode s.
Proof.
  unfold follow_announcer.
  destruct (role_eqb (myRole s) ROLE_RECEIVER && (k <? myNodeId s)).
  - destruct (reconfigure_frame (becomeSender k s)) as (-> & -> & _). split; reflexivity.
  - destruct (role_eqb (myRole s) ROLE_SENDER && negb (k =? targetNodeId s));
      split; reflexivity.
Qed.

Lemma clamp_target_same_mesh (k : Z) (s s' : State) :
  nodeMacs s' = nodeMacs s -> clamp_target k s' = clamp_target k s.
Proof. intros Hmacs. unfold clamp_target, MAX_NODES. rewrite Hmacs. reflexivity. Qed.

(** A state that has just been made a sender to [k] and then adopted
    the announced mode follows a second announcement of [k] without
    changing anything but lastAnnouncedAR. *)
Lemma follow_after_becomeSender (k sid : Z) (s1 : State) :
  sender_fields (clamp_target k s1) s1 ->
  let w := follow_announcer k (set_lastAnnouncedAR sid s1) in
  w = set_lastAnnouncedAR (lastAnnouncedAR w) s1.
Proof.
  intros Hfields w. pose proof Hfields as (Hrole & Htgt & _).
  subst w. unfold follow_announcer. state_simpl. rewrite Hrole, Htgt. cbn [role_eqb andb].
  destruct (k =? clamp_target k s1); cbn [negb].
  - reflexivity.
  - rewrite becomeSender_after_announce, becomeSender_absorb by exact Hfields.
    symmetry. apply set_lastAnnouncedAR_same.
Qed.

Lemma follow_twice (k sid : Z) (m : operating_mode_t) (s : State) :
  let s1 := adopt_announced_mode m (follow_announcer k s) in
  let w := follow_announcer k (set_lastAnnouncedAR sid s1) in
  w = set_lastAnnouncedAR (lastAnnouncedAR w) s1.
Proof.
  intros s1.
  destruct (adopt_frame m (follow_announcer k s)) as (Hmacs & Hid & Hrole & Htgt & Hkeep).
  fold s1 in Hmacs, Hid, Hrole, Htgt, Hkeep.
  destruct (follow_frame k s) as (Hmacs' & _).
  assert (Hclamp : clamp_target k s1 = clamp_target k s)
    by (apply clamp_target_same_mesh; congruence).
  destruct (role_eqb (myRole s) ROLE_RECEIVER && (k <? myNodeId s)) eqn:Hyield.
  { apply follow_after_becomeSender. rewrite Hclamp. apply Hkeep.
    unfold follow_announcer. rewrite Hyield.
    apply reconfigure_frame. apply becomeSender_fields. }
  destruct (role_eqb (myRole s) ROLE_SENDER && negb (k =? targetNodeId s)) eqn:Hswitch.
  { apply follow_after_becomeSender. rewrite Hclamp. apply Hkeep.
    unfold follow_announcer. rewrite Hyield, Hswitch.
    apply becomeSender_fields. }
  assert (Hsame : follow_announcer k s = s)
    by (unfold follow_announcer; rewrite Hyield, Hswitch; reflexivity).
  rewrite Hsame in Hid, Hrole, Htgt.
  intros w. subst w. unfold follow_announcer. state_simpl.
  rewrite Hid, Hrole, Htgt, Hyield, Hswitch. reflexivity.
Qed.

End Idempotence.

(** C9: receiving the same MODE_CHANGE twice in succession leaves the
    second receipt without any effect on the state; receiving the same
    ANNOUNCE_AR twice leaves the second receipt without effect on
    anything but lastAnnouncedAR: mode, NVS, ULP, role, target, sync
    flags and radio log are those the first receipt left. *)
Theorem mode_idempotence (s : State) (now1 now2 : Z) (mac : mac_t)
    (msg : struct_message) (len : Z) :
  let s1 := onDataRecv now1 mac msg len s in
  let s2 := onDataRecv now2 mac msg len s1 in
  (type msg = MSG_TYPE_MODE_CHANGE -> s2 = s1) /\
  (type msg = MSG_TYPE_ANNOUNCE_AR -> s2 = set_lastAnnouncedAR (lastAnnouncedAR s2) s1).
Proof.
  intros s1 s2. split; intros Htype.
  - subst s2.
    destruct (mode_change_result s now1 mac msg len Htype) as [Hdropped | Hmode];
      fold s1 in Hdropped || fold s1 in Hmode.
    + rewrite Hdropped.
      rewrite (mode_change_ignores_clock s now2 now1) by exact Htype. exact Hdropped.
    + apply mode_change_settled; assumption.
  - subst s2 s1. rewrite (announce_unfold s now1) by exact Htype.
    destruct ((getNodeIdFromMac s mac =? 0) || negb (len =? sizeof_struct_message))
      eqn:Hvalid.
    + rewrite announce_unfold, Hvalid by exact Htype.
      symmetry. apply set_lastAnnouncedAR_same.
    + set (k := getNodeIdFromMac s mac) in *.
      set (x := set_lastAnnouncedAR (senderId msg) s).
      set (s1 := adopt_announced_mode (newMode msg) (follow_announcer k x)).
      assert (Hmacs : nodeMacs s1 = nodeMacs s).
      { subst s1.
        destruct (adopt_frame (newMode msg) (follow_announcer k x)) as (-> & _).
        destruct (follow_frame k x) as (-> & _). reflexivity. }
      assert (Hk : getNodeIdFromMac s1 mac = k)
        by (unfold getNodeIdFromMac; rewrite Hmacs; reflexivity).
      rewrite announce_unfold, Hk, Hvalid by exact Htype.
      pose proof (follow_twice k (senderId msg) (newMode msg) x) as Htwice.
      cbv zeta in Htwice. fold s1 in Htwice.
      set (w := follow_announcer k (set_lastAnnouncedAR (senderId msg) s1)) in *.
      rewrite adopt_settled.
      * exact Htwice.
      * rewrite Htwice. state_simpl. apply adopt_mode.
Qed.

Lemma mode_idempotence_witness :
  let s := receiver2_synced in
  let change := mode_change_from 3 DATA_COLLECTION_MODE in
  let announce := announce_from 1 DATA_COLLECTION_MODE in
  onDataRecv 41 mac_of_node3 change sizeof_struct_message
    (onDataRecv 40 mac_of_node3 change sizeof_struct_message s)
  = onDataRecv 40 mac_of_node3 change sizeof_struct_message s /\
  onDataRecv 51 mac_of_node1 announce sizeof_struct_message
    (onDataRecv 50 mac_of_node1 announce sizeof_struct_message s)
  = set_lastAnnouncedAR
      (lastAnnouncedAR
         (onDataRecv 51 mac_of_node1 announce sizeof_struct_message
            (onDataRecv 50 mac_of_node1 announce sizeof_struct_message s)))
      (onDataRecv 50 mac_of_node1 announce sizeof_struct_message s).
Proof.
  intros s change announce. split.
  - apply (proj1 (mode_idempotence s 40 41 mac_of_node3 change sizeof_struct_message)).
    reflexivity.
  - apply (proj2 (mode_idempotence s 50 51 mac_of_node1 announce sizeof_struct_message)).
    reflexivity.
Defined.


(** * Further properties *)

(** ** Node identity *)

Lemma mac_equal_take (a b : mac_t) :
  mac_equal a b = true <-> take ESP_NOW_ETH_ALEN a = take ESP_NOW_ETH_ALEN b.
Proof. unfold mac_equal. apply bool_decide_eq_true. Qed.

(** The scan returns the first row that matches, counted from [i + 1]. *)
Lemma getNodeIdFromMac_from_first (mac : mac_t) (table : list mac_t) :
  forall i : Z,
    0 <= i -> i + Z.of_nat (List.length table) < 2 ^ 31 ->
    let r := getNodeIdFromMac_from mac table i in
    (r = 0 /\ forall row, In row table -> mac_equal mac row = false) \/
    (exists n row,
        r = i + Z.of_nat n + 1 /\ table !! n = Some row /\ mac_equal mac row = true /\
        forall j earlier, (j < n)%nat -> table !! j = Some earlier ->
                          mac_equal mac earlier = false).
Proof.
  change (2 ^ 31) with 2147483648.
  induction table as [| entry rest IH]; intros i Hi Hfit r; subst r.
  - left. split; [reflexivity | intros row []].
  - cbn [getNodeIdFromMac_from List.length] in *.
    rewrite add_small by (change (2 ^ 31) with 2147483648; lia).
    destruct (mac_equal mac entry) eqn:Hentry.
    + right. exists O, entry. repeat split; try reflexivity; [lia | assumption | lia].
    + destruct (IH (i + 1)) as [(Hnone & Hall) | (n & row & Hr & Hrow & Hmatch & Hearlier)];
        [lia | lia | |].
      * left. split; [exact Hnone |]. intros row [<- | Hin]; [exact Hentry | auto].
      * right. exists (S n), row. repeat split; try assumption; [lia |].
        intros [| j] earlier Hj Hlook; cbn in Hlook.
        -- injection Hlook as <-. exact Hentry.
        -- apply (Hearlier j); [lia | exact Hlook].
Qed.

Lemma first_matching_row (s : State) (mac : mac_t) :
  MAX_NODES s < 2 ^ 31 ->
  let r := getNodeIdFromMac s mac in
  (r = 0 /\ forall row, In row (nodeMacs s) -> mac_equal mac row = false) \/
  (1 <= r <= MAX_NODES s /\
   exists row,
     nodeMacs s !! Z.to_nat (r - 1) = Some row /\ mac_equal mac row = true /\
     forall j earlier, (j < Z.to_nat (r - 1))%nat -> nodeMacs s !! j = Some earlier ->
                       mac_equal mac earlier = false).
Proof.
  intros Hfit r. subst r. unfold getNodeIdFromMac, MAX_NODES in *.
  destruct (getNodeIdFromMac_from_first mac (nodeMacs s) 0)
    as [Hnone | (n & row & Hr & Hrow & Hmatch & Hearlier)]; [lia | lia | left; exact Hnone |].
  right. cbv zeta in Hr. rewrite Hr.
  pose proof (lookup_lt_Some _ _ _ Hrow) as Hn.
  replace (Z.to_nat (0 + Z.of_nat n + 1 - 1)) with n by lia.
  split; [lia |]. exists row. repeat split; assumption.
Qed.

(** X1: getNodeIdFromMac answers 0 exactly when no row of the table
    equals the address in its six bytes; otherwise it answers the
    1-based position of the first row that does. *)
Theorem node_id_is_first_matching_row (s : State) (mac : mac_t) :
  MAX_NODES s < 2 ^ 31 ->
  let r := getNodeIdFromMac s mac in
  (r = 0 /\ forall row, In row (nodeMacs s) -> mac_equal mac row = false) \/
  (1 <= r <= MAX_NODES s /\
   exists row,
     nodeMacs s !! Z.to_nat (r - 1) = Some row /\ mac_equal mac row = true /\
     forall j earlier, (j < Z.to_nat (r - 1))%nat -> nodeMacs s !! j = Some earlier ->
                       mac_equal mac earlier = false).
Proof. apply first_matching_row. Qed.

Lemma node_id_is_first_matching_row_witness :
  let r := getNodeIdFromMac (boot_state 0) mac_of_node2 in
  (r = 0 /\ forall row, In row (nodeMacs (boot_state 0)) -> mac_equal mac_of_node2 row = false) \/
  (1 <= r <= MAX_NODES (boot_state 0) /\
   exists row,
     nodeMacs (boot_state 0) !! Z.to_nat (r - 1) = Some row /\
     mac_equal mac_of_node2 row = true /\
     forall j earlier, (j < Z.to_nat (r - 1))%nat ->
                       nodeMacs (boot_state 0) !! j = Some earlier ->
                       mac_equal mac_of_node2 earlier = false).
Proof.
  apply (node_id_is_first_matching_row (boot_state 0) mac_of_node2).
  unfold MAX_NODES. simpl. lia.
Defined.

(** X2: in a table whose rows differ, the address in row [i] resolves
    to id [i + 1]: ids and addresses determine each other. *)
Theorem node_id_of_table_row (s : State) (i : nat) (row : mac_t) :
  MAX_NODES s < 2 ^ 31 -> rows_distinct s ->
  nodeMacs s !! i = Some row ->
  getNodeIdFromMac s row = Z.of_nat i + 1.
Proof.
  intros Hfit Hdistinct Hrow.
  assert (Hself : mac_equal row row = true) by (apply mac_equal_take; reflexivity).
  destruct (first_matching_row s row Hfit)
    as [(_ & Hnone) | (Hrange & found & Hfound & Hmatch & Hearlier)].
  - exfalso. assert (Hin : In row (nodeMacs s)).
    { apply list_elem_of_In. apply list_elem_of_lookup. exists i. exact Hrow. }
    specialize (Hnone row Hin). congruence.
  - set (r := getNodeIdFromMac s row) in *.
    assert (Heq : Z.to_nat (r - 1) = i).
    { unfold rows_distinct in Hdistinct. unfold mac_t in *.
      apply (NoDup_lookup _ _ _ (take ESP_NOW_ETH_ALEN row) Hdistinct).
      - rewrite list_lookup_fmap, Hfound. cbn. f_equal. symmetry.
        apply mac_equal_take. exact Hmatch.
      - rewrite list_lookup_fmap, Hrow. reflexivity. }
    lia.
Qed.

Lemma node_id_of_table_row_witness :
  getNodeIdFromMac (boot_state 0) mac_of_node3 = Z.of_nat 2 + 1.
Proof.
  apply (node_id_of_table_row (boot_state 0) 2 mac_of_node3).
  - unfold MAX_NODES. simpl. lia.
  - unfold rows_distinct. simpl. apply NoDup_ListNoDup. repeat constructor; simpl; intuition discriminate.
  - reflexivity.
Defined.

(** ** Persistent storage *)

(** X3: a target id written to flash reads back as its value modulo
    256; every id from 0 to 255 reads back unchanged. *)
Theorem persisted_target_reads_back (s : State) (id : Z) :
  readTargetNodeIdFromNVS (writeTargetNodeIdToNVS id s) = id mod 256 /\
  (0 <= id <= 255 -> readTargetNodeIdFromNVS (writeTargetNodeIdToNVS id s) = id).
Proof.
  assert (Hmod : readTargetNodeIdFromNVS (writeTargetNodeIdToNVS id s) = id mod 256).
  { unfold readTargetNodeIdFromNVS, writeTargetNodeIdToNVS. state_simpl.
    unfold Int.to_u8, Int.to_i8. change (2 ^ 8) with 256. change (2 ^ 7) with 128.
    rewrite Zminus_mod_idemp_l. f_equal. lia. }
  split; [exact Hmod |].
  intros Hid. rewrite Hmod. apply Z.mod_small. lia.
Qed.

Lemma persisted_target_reads_back_witness :
  readTargetNodeIdFromNVS (writeTargetNodeIdToNVS 3 (boot_state 2)) = 3 mod 256 /\
  readTargetNodeIdFromNVS (writeTargetNodeIdToNVS 3 (boot_state 2)) = 3.
Proof.
  destruct (persisted_target_reads_back (boot_state 2) 3) as [Hmod Hsame].
  split; [exact Hmod | apply Hsame; lia].
Defined.

(** ** Invariants of a running node *)

Lemma wrap32_is_int (z : Z) : is_int (Int.wrap32 z).
Proof.
  unfold is_int, Int.wrap32. change (2 ^ 31) with 2147483648.
  change (2 ^ 32) with 4294967296.
  pose proof (Z.mod_pos_bound (z + 2147483648) 4294967296). lia.
Qed.

Lemma becomeSender_settles (k : Z) (s : State) :
  mesh_ok s -> is_int k -> target_settled (becomeSender k s).
Proof.
  intros Hmesh Hint. unfold mesh_ok in Hmesh.
  assert (HN : MAX_NODES s < 2 ^ 31) by (change (2 ^ 31) with 2147483648; lia).
  pose proof (becomeSender_target s k HN Hint) as Htarget.
  assert (Hrole : myRole (becomeSender k s) = ROLE_SENDER) by reflexivity.
  assert (Hmesh' : MAX_NODES (becomeSender k s) = MAX_NODES s) by reflexivity.
  assert (Hnvs : nvs_target_node_id (becomeSender k s)
                 = Some (Int.to_i8 (targetNodeId (becomeSender k s)))) by reflexivity.
  assert (Hrange : 1 <= targetNodeId (becomeSender k s) <= MAX_NODES s).
  { rewrite Htarget. destruct (Z.ltb_spec k 1); cbn [orb]; [lia |].
    destruct (Z.ltb_spec (MAX_NODES s) k); lia. }
  unfold target_settled. rewrite Hrole, Hmesh', Hnvs. split; [exact Hrange |].
  f_equal. apply to_i8_id. change (2 ^ 7) with 128. lia.
Qed.

Lemma becomeActiveReceiver_settles (s : State) : target_settled (becomeActiveReceiver s).
Proof. split; reflexivity. Qed.

(** A step that leaves role, target, persisted target and table alone
    leaves [target_settled] alone. *)
Lemma target_settled_frame (s s' : State) :
  myRole s' = myRole s -> targetNodeId s' = targetNodeId s ->
  nvs_target_node_id s' = nvs_target_node_id s -> nodeMacs s' = nodeMacs s ->
  target_settled s -> target_settled s'.
Proof.
  unfold target_settled, MAX_NODES. intros -> -> -> ->. auto.
Qed.

Lemma findNewTargetAndFailover_settles (s : State) :
  mesh_ok s -> target_settled (findNewTargetAndFailover s).
Proof.
  intros Hmesh. unfold findNewTargetAndFailover.
  destruct (lastFailedTargetId s =? 0).
  - apply becomeSender_settles; [exact Hmesh | unfold is_int; change (2 ^ 31) with 2147483648; lia].
  - destruct (Int.gt_size _ _ || _).
    + apply becomeActiveReceiver_settles.
    + apply becomeSender_settles; [exact Hmesh | apply wrap32_is_int].
Qed.

Lemma reconfigure_keeps_settled (s : State) :
  target_settled s -> target_settled (reconfigure_ulp s).
Proof.
  intros Hsettled. unfold reconfigure_ulp.
  destruct (currentOperatingMode s);
    (apply (target_settled_frame s); [reflexivity .. | exact Hsettled]).
Qed.

Lemma follow_announcer_settles (k : Z) (s : State) :
  mesh_ok s -> is_int k -> target_settled s -> target_settled (follow_announcer k s).
Proof.
  intros Hmesh Hint Hsettled. unfold follow_announcer.
  destruct (role_eqb (myRole s) ROLE_RECEIVER && (k <? myNodeId s)).
  - apply reconfigure_keeps_settled. apply becomeSender_settles; assumption.
  - destruct (role_eqb (myRole s) ROLE_SENDER && negb (k =? targetNodeId s));
      [apply becomeSender_settles; assumption | exact Hsettled].
Qed.

Lemma adopt_keeps_settled (m : operating_mode_t) (s : State) :
  target_settled s -> target_settled (adopt_announced_mode m s).
Proof.
  destruct (adopt_frame m s) as (Hmacs & _ & Hrole & Htgt & _).
  apply target_settled_frame; try assumption.
  unfold adopt_announced_mode.
  destruct (negb (mode_eqb (currentOperatingMode s) m)); [| reflexivity].
  unfold reconfigure_ulp. state_simpl. destruct m; reflexivity.
Qed.

Lemma getNodeIdFromMac_is_int (s : State) (mac : mac_t) :
  mesh_ok s -> is_int (getNodeIdFromMac s mac).
Proof.
  unfold mesh_ok, is_int. intros Hmesh.
  destruct (getNodeIdFromMac_range s mac) as [-> | Hin];
    change (2 ^ 31) with 2147483648 in *; lia.
Qed.

Lemma onDataRecv_keeps_settled (s : State) (now : Z) (mac : mac_t) (msg : struct_message)
    (len : Z) :
  mesh_ok s -> target_settled s -> target_settled (onDataRecv now mac msg len s).
Proof.
  intros Hmesh Hsettled. unfold onDataRecv.
  destruct ((getNodeIdFromMac s mac =? 0) || negb (len =? sizeof_struct_message));
    [exact Hsettled |].
  destruct (type msg).
  - destruct (role_eqb (myRole s) ROLE_RECEIVER); [| exact Hsettled].
    destruct ((1 <=? getNodeIdFromMac s mac) && Int.le_size _ _);
      match goal with |- context [if negb ?c then _ else _] => destruct c end;
      cbn [negb]; (apply (target_settled_frame s); [reflexivity .. | exact Hsettled]).
  - destruct (role_eqb (myRole s) ROLE_RECEIVER); [| exact Hsettled].
    apply (target_settled_frame s); [reflexivity .. | exact Hsettled].
  - apply adopt_keeps_settled. apply follow_announcer_settles.
    + exact Hmesh.
    + apply getNodeIdFromMac_is_int. exact Hmesh.
    + apply (target_settled_frame s); [reflexivity .. | exact Hsettled].
  - destruct (negb (mode_eqb (currentOperatingMode s) (newMode msg))); [| exact Hsettled].
    unfold reconfigure_ulp. state_simpl.
    destruct (newMode msg); state_simpl; destruct (myNodeId s =? 1);
      (apply (target_settled_frame s); [reflexivity .. | exact Hsettled]).
Qed.

Lemma onDataSent_keeps_settled (s : State) (mac : mac_t) (status : esp_now_send_status_t) :
  mesh_ok s -> target_settled s -> target_settled (onDataSent mac status s).
Proof.
  intros Hmesh Hsettled. unfold onDataSent. destruct status.
  - apply (target_settled_frame s); [reflexivity .. | exact Hsettled].
  - state_simpl. destruct (getNodeIdFromMac s mac =? targetNodeId s);
      [| apply (target_settled_frame s); [reflexivity .. | exact Hsettled]].
    destruct (FAILOVER_THRESHOLD <=? _);
      [| apply (target_settled_frame s); [reflexivity .. | exact Hsettled]].
    match goal with |- target_settled (set_failedLastSend false ?x) =>
      apply (target_settled_frame x); [reflexivity .. |] end.
    apply findNewTargetAndFailover_settles. exact Hmesh.
Qed.

Lemma handleClient_frame (s : State) (method : HTTPMethod) (uri : string)
    (args : request_args) :
  let s' := handleClient method uri args s in
  myRole s' = myRole s /\ targetNodeId s' = targetNodeId s /\
  nvs_target_node_id s' = nvs_target_node_id s /\ nodeMacs s' = nodeMacs s /\
  myNodeId s' = myNodeId s.
Proof.
  intros s'. subst s'. unfold handleClient.
  destruct (server_running s); [| repeat split].
  destruct (List.find _ (server_routes s)) as [r |]; [| repeat split].
  destruct (route_handler r).
  - unfold handleSensorData.
    match goal with |- context [if ?c then _ else _] => destruct c end; repeat split.
  - unfold handleSetMode.
    destruct (hasArg args "mode"); [| repeat split].
    destruct (parse_mode (arg args "mode")) as [m |]; [| repeat split].
    destruct (negb (mode_eqb (currentOperatingMode s) m)); [| repeat split].
    unfold broadcast_mode_change, reconfigure_ulp, Nat.iter. cbn [nat_rect]. state_simpl.
    destruct m; state_simpl; destruct (myNodeId s =? 1); repeat split.
Qed.

Lemma react_keeps_mesh (e : event) (s : State) :
  nodeMacs (react e s) = nodeMacs s /\ myNodeId (react e s) = myNodeId s.
Proof.
  destruct e as [now mac msg len | mac status | method uri args]; cbn [react].
  - unfold onDataRecv.
    destruct ((getNodeIdFromMac s mac =? 0) || negb (len =? sizeof_struct_message));
      [split; reflexivity |].
    destruct (type msg).
    + destruct (role_eqb (myRole s) ROLE_RECEIVER); [| split; reflexivity].
      destruct ((1 <=? getNodeIdFromMac s mac) && Int.le_size _ _);
        match goal with |- context [if negb ?c then _ else _] => destruct c end;
        cbn [negb]; split; reflexivity.
    + destruct (role_eqb (myRole s) ROLE_RECEIVER); split; reflexivity.
    + destruct (adopt_frame (newMode msg)
                  (follow_announcer (getNodeIdFromMac s mac)
                     (set_lastAnnouncedAR (senderId msg) s))) as (-> & -> & _).
      unfold follow_announcer.
      destruct (role_eqb _ ROLE_RECEIVER && _).
      * unfold reconfigure_ulp.
        destruct (currentOperatingMode (becomeSender _ _)); split; reflexivity.
      * destruct (role_eqb _ ROLE_SENDER && _); split; reflexivity.
    + destruct (negb (mode_eqb (currentOperatingMode s) (newMode msg))); [| split; reflexivity].
      unfold reconfigure_ulp. state_simpl.
      destruct (newMode msg); state_simpl; destruct (myNodeId s =? 1); split; reflexivity.
  - unfold onDataSent. destruct status; [split; reflexivity |].
    state_simpl. destruct (getNodeIdFromMac s mac =? targetNodeId s); [| split; reflexivity].
    destruct (FAILOVER_THRESHOLD <=? _); [| split; reflexivity].
    unfold findNewTargetAndFailover. state_simpl.
    destruct (getNodeIdFromMac s mac =? 0); [split; reflexivity |].
    destruct (Int.gt_size _ _ || _); split; reflexivity.
  - destruct (handleClient_frame s method uri args) as (_ & _ & _ & Hmacs & Hid).
    split; assumption.
Qed.

Lemma react_keeps_settled (e : event) (s : State) :
  mesh_ok s -> target_settled s -> target_settled (react e s).
Proof.
  intros Hmesh Hsettled.
  destruct e as [now mac msg len | mac status | method uri args]; cbn [react].
  - apply onDataRecv_keeps_settled; assumption.
  - apply onDataSent_keeps_settled; assumption.
  - destruct (handleClient_frame s method uri args) as (Hrole & Htgt & Hnvs & Hmacs & _).
    apply (target_settled_frame s); assumption.
Qed.

(** X4: whatever messages arrive, sends complete and requests come in,
    and in whatever order, the node keeps its id and its table, a
    sender's target stays inside the table, a receiver's target stays 0,
    and flash holds the current target. *)
Theorem events_keep_target_settled (events : list event) (s : State) :
  mesh_ok s -> target_settled s ->
  let s' := foldl (fun s e => react e s) s events in
  target_settled s' /\ nodeMacs s' = nodeMacs s /\ myNodeId s' = myNodeId s.
Proof.
  revert s. induction events as [| e rest IH]; intros s Hmesh Hsettled s'.
  - split; [exact Hsettled | split; reflexivity].
  - subst s'. cbn [foldl].
    destruct (react_keeps_mesh e s) as (Hmacs & Hid).
    assert (Hmesh' : mesh_ok (react e s))
      by (unfold mesh_ok, MAX_NODES in *; rewrite Hmacs; exact Hmesh).
    destruct (IH (react e s) Hmesh' (react_keeps_settled e s Hmesh Hsettled))
      as (Hsettled' & Hmacs' & Hid').
    split; [exact Hsettled' | split; congruence].
Qed.

Lemma events_keep_target_settled_witness :
  let s := becomeSender 1 (boot_state 3) in
  let events :=
    [ DataSent mac_of_node1 ESP_NOW_SEND_FAIL;
      DataRecv 5 mac_of_node2 (announce_from 2 DATA_COLLECTION_MODE) sizeof_struct_message;
      HttpRequest HTTP_GET "/set_mode" [("mode", "standby")] ] in
  let s' := foldl (fun s e => react e s) s events in
  target_settled s' /\ nodeMacs s' = nodeMacs s /\ myNodeId s' = myNodeId s.
Proof.
  intros s events.
  apply (events_keep_target_settled events s).
  - unfold mesh_ok, MAX_NODES. simpl. lia.
  - split; [change (1 <= 1 <= 3); lia | reflexivity].
Defined.









Lemma report_sends_below_threshold (reports : list send_report) :
  forall (s : State),
    0 <= consecutiveSendFailures s < FAILOVER_THRESHOLD ->
    (1 <= consecutiveSendFailures s ->
     fails_at reports 0 && fails_at reports 1 = false) ->
    (2 <= consecutiveSendFailures s -> fails_at reports 0 = false) ->
    never_three_failures_in_a_row reports ->
    myRole (report_sends reports s) = myRole s /\
    targetNodeId (report_sends reports s) = targetNodeId s.
Proof.
  unfold FAILOVER_THRESHOLD.
  induction reports as [| [mac status] rest IH]; intros s Hcount Hone Htwo Hnever.
  - split; reflexivity.
  - change (report_sends ((mac, status) :: rest) s)
      with (report_sends rest (onDataSent mac status s)).
    assert (Hrest : never_three_failures_in_a_row rest)
      by (intros i; exact (Hnever (S i))).
    destruct status.
    + destruct (IH (onDataSent mac ESP_NOW_SEND_SUCCESS s)) as (Hrole & Htarget).
      * unfold onDataSent. state_simpl. lia.
      * unfold onDataSent. state_simpl. lia.
      * unfold onDataSent. state_simpl. lia.
      * exact Hrest.
      * rewrite Hrole, Htarget. split; reflexivity.
    + assert (Hlow : consecutiveSendFailures s <= 1).
      { destruct (Z_le_gt_dec 2 (consecutiveSendFailures s)) as [Hge |]; [| lia].
        specialize (Htwo Hge). discriminate Htwo. }
      assert (Hstep :
        myRole (onDataSent mac ESP_NOW_SEND_FAIL s) = myRole s /\
        targetNodeId (onDataSent mac ESP_NOW_SEND_FAIL s) = targetNodeId s /\
        0 <= consecutiveSendFailures (onDataSent mac ESP_NOW_SEND_FAIL s)
          <= consecutiveSendFailures s + 1).
      { unfold onDataSent. state_simpl.
        destruct (getNodeIdFromMac s mac =? targetNodeId s); state_simpl;
          [| repeat split; lia].
        rewrite add_small by lia.
        destruct (FAILOVER_THRESHOLD <=? consecutiveSendFailures s + 1) eqn:Hreach;
          [unfold FAILOVER_THRESHOLD in Hreach; lia |].
        state_simpl. repeat split; lia. }
      destruct Hstep as (Hrole & Htarget & Hnext).
      destruct (IH (onDataSent mac ESP_NOW_SEND_FAIL s)) as (Hrole' & Htarget').
      * lia.
      * intros _.
        destruct (Z_le_gt_dec 1 (consecutiveSendFailures s)) as [Hge |].
        -- specialize (Hone Hge).
           change (fails_at ((mac, ESP_NOW_SEND_FAIL) :: rest) 0) with true in Hone.
           change (fails_at ((mac, ESP_NOW_SEND_FAIL) :: rest) 1)
             with (fails_at rest 0) in Hone.
           cbn [andb] in Hone. rewrite Hone. reflexivity.
        -- specialize (Hnever 0%nat).
           change (fails_at ((mac, ESP_NOW_SEND_FAIL) :: rest) 0) with true in Hnever.
           exact Hnever.
      * intros Hge. assert (Hone' : 1 <= consecutiveSendFailures s) by lia.
        specialize (Hone Hone').
        change (fails_at ((mac, ESP_NOW_SEND_FAIL) :: rest) 0) with true in Hone.
        exact Hone.
      * exact Hrest.
      * rewrite Hrole', Htarget'. split; assumption.
Qed.

(** X6: failures must be consecutive to count.  Starting from a clean
    failure counter, no run of send reports (to whichever peers, a
    broadcast included) in which three failures never follow one
    another makes the node change its role or its target. *)
Theorem no_failover_without_three_failures (reports : list send_report) (s : State) :
  consecutiveSendFailures s = 0 ->
  never_three_failures_in_a_row reports ->
  myRole (report_sends reports s) = myRole s /\
  targetNodeId (report_sends reports s) = targetNodeId s.
Proof.
  intros Hclean Hnever.
  apply report_sends_below_threshold.
  - rewrite Hclean. unfold FAILOVER_THRESHOLD. lia.
  - rewrite Hclean. lia.
  - rewrite Hclean. lia.
  - exact Hnever.
Qed.

Lemma no_failover_without_three_failures_witness :
  let reports :=
    [ (mac_of_node1, ESP_NOW_SEND_FAIL); (mac_of_node1, ESP_NOW_SEND_FAIL);
      (broadcastMac, ESP_NOW_SEND_SUCCESS);
      (mac_of_node1, ESP_NOW_SEND_FAIL); (mac_of_node1, ESP_NOW_SEND_FAIL) ] in
  let s := becomeSender 1 (boot_state 3) in
  myRole (report_sends reports s) = myRole s /\
  targetNodeId (report_sends reports s) = targetNodeId s.
Proof.
  intros reports s.
  apply (no_failover_without_three_failures reports s).
  - reflexivity.
  - intros i. do 5 (destruct i as [| i]; [reflexivity |]).
    unfold fails_at. destruct i; reflexivity.
Defined.

(** ** Received frames *)

Lemma known_sender_in_range (s : State) (mac : mac_t) :
  mesh_ok s -> getNodeIdFromMac s mac <> 0 ->
  1 <= getNodeIdFromMac s mac <= MAX_NODES s.
Proof.
  unfold mesh_ok. intros Hmesh Hknown.
  destruct (getNodeIdFromMac_range s mac) as [Hzero | Hin];
    [change (2 ^ 31) with 2147483648; lia | contradiction | exact Hin].
Qed.

Lemma accepted_frame (s : State) (mac : mac_t) :
  getNodeIdFromMac s mac <> 0 ->
  (getNodeIdFromMac s mac =? 0) || negb (sizeof_struct_message =? sizeof_struct_message)
  = false.
Proof. intros Hknown. apply Z.eqb_neq in Hknown. rewrite Hknown. reflexivity. Qed.

(** X7: a sender that hears a full-length ANNOUNCE_AR from a node of
    the table ends up a sender to that very node, in the mode the
    announcement carries; when this is a new target it is also the one
    written to flash. *)
Theorem sender_follows_announcer (s : State) (now : Z) (mac : mac_t)
    (msg : struct_message) :
  mesh_ok s -> myRole s = ROLE_SENDER ->
  type msg = MSG_TYPE_ANNOUNCE_AR -> getNodeIdFromMac s mac <> 0 ->
  let k := getNodeIdFromMac s mac in
  let s' := onDataRecv now mac msg sizeof_struct_message s in
  myRole s' = ROLE_SENDER /\ targetNodeId s' = k /\
  currentOperatingMode s' = newMode msg /\
  (k <> targetNodeId s -> nvs_target_node_id s' = Some k).
Proof.
  intros Hmesh Hrole Htype Hknown k s'.
  pose proof (known_sender_in_range s mac Hmesh Hknown) as Hk. fold k in Hk.
  unfold mesh_ok in Hmesh.
  subst s'. rewrite announce_unfold by exact Htype.
  rewrite accepted_frame by exact Hknown. fold k.
  set (s0 := set_lastAnnouncedAR (senderId msg) s).
  destruct (adopt_frame (newMode msg) (follow_announcer k s0))
    as (_ & _ & -> & -> & _).
  rewrite adopt_mode.
  assert (Hnvs : forall t, nvs_target_node_id (adopt_announced_mode (newMode msg) t)
                           = nvs_target_node_id t).
  { intros t. unfold adopt_announced_mode.
    destruct (negb (mode_eqb (currentOperatingMode t) (newMode msg))); [| reflexivity].
    unfold reconfigure_ulp. state_simpl. destruct (newMode msg); reflexivity. }
  rewrite Hnvs.
  unfold follow_announcer.
  change (myRole s0) with (myRole s). change (targetNodeId s0) with (targetNodeId s).
  rewrite Hrole. cbn [role_eqb andb].
  destruct (Z.eqb_spec k (targetNodeId s)) as [Hsame | Hnew]; cbn [negb].
  - repeat split; [exact Hrole | symmetry; exact Hsame | contradiction].
  - assert (Htarget : targetNodeId (becomeSender k s0) = k).
    { rewrite becomeSender_target;
        [| change (MAX_NODES s0) with (MAX_NODES s); change (2 ^ 31) with 2147483648; lia
         | unfold is_int; change (2 ^ 31) with 2147483648; lia ].
      change (MAX_NODES s0) with (MAX_NODES s).
      replace (k <? 1) with false by (symmetry; apply Z.ltb_ge; lia).
      replace (MAX_NODES s <? k) with false by (symmetry; apply Z.ltb_ge; lia).
      reflexivity. }
    split; [reflexivity |]. split; [exact Htarget |]. split; [reflexivity |].
    intros _.
    change (nvs_target_node_id (becomeSender k s0))
      with (Some (Int.to_i8 (targetNodeId (becomeSender k s0)))).
    rewrite Htarget. rewrite to_i8_id by (change (2 ^ 7) with 128; lia). reflexivity.
Qed.

Lemma sender_follows_announcer_witness :
  let s := becomeSender 1 (boot_state 3) in
  let s' :=
    onDataRecv 7 mac_of_node2 (announce_from 2 DATA_COLLECTION_MODE)
      sizeof_struct_message s in
  myRole s' = ROLE_SENDER /\ targetNodeId s' = getNodeIdFromMac s mac_of_node2 /\
  currentOperatingMode s' = DATA_COLLECTION_MODE /\
  (getNodeIdFromMac s mac_of_node2 <> targetNodeId s ->
   nvs_target_node_id s' = Some (getNodeIdFromMac s mac_of_node2)).
Proof.
  intros s s'.
  apply (sender_follows_announcer s 7 mac_of_node2
           (announce_from 2 DATA_COLLECTION_MODE)).
  - unfold mesh_ok, MAX_NODES. simpl. lia.
  - reflexivity.
  - reflexivity.
  - vm_compute. discriminate.
Defined.

(** X8: frames that are dropped.  A frame from an address that is not
    in the table, a frame whose length is not that of struct_message,
    and, on a sender, every DATA and every PROBE frame leave the whole
    state as it was: nothing is stored, nothing is sent. *)
Theorem frames_without_effect (s : State) (now : Z) (mac : mac_t)
    (msg : struct_message) (len : Z) :
  getNodeIdFromMac s mac = 0 \/ len <> sizeof_struct_message \/
  (myRole s = ROLE_SENDER /\
   (type msg = MSG_TYPE_DATA \/ type msg = MSG_TYPE_PROBE)) ->
  onDataRecv now mac msg len s = s.
Proof.
  intros Hwhy. unfold onDataRecv.
  destruct (Z.eqb_spec (getNodeIdFromMac s mac) 0) as [| Hknown]; [reflexivity |].
  destruct (Z.eqb_spec len sizeof_struct_message) as [Hlen |]; [| reflexivity].
  cbn [orb negb].
  destruct Hwhy as [Hzero | [Hshort | (Hrole & [Htype | Htype])]];
    [contradiction | contradiction | |];
    rewrite Htype, Hrole; reflexivity.
Qed.

Lemma frames_without_effect_witness :
  onDataRecv 7 mac_of_node2 (probe_from 2) sizeof_struct_message
    (becomeSender 1 (boot_state 3))
  = becomeSender 1 (boot_state 3).
Proof.
  apply frames_without_effect.
  right. right. split; [reflexivity | right; reflexivity].
Defined.

(** X9: a receiver answers a PROBE from a node of the table with one
    ANNOUNCE_AR sent to the prober's address, carrying its own id and
    its current mode, marks the prober as synced, and stays receiver in
    the same mode. *)
Theorem receiver_answers_probe (s : State) (now : Z) (mac : mac_t)
    (msg : struct_message) :
  myRole s = ROLE_RECEIVER -> type msg = MSG_TYPE_PROBE ->
  getNodeIdFromMac s mac <> 0 ->
  let k := getNodeIdFromMac s mac in
  let s' := onDataRecv now mac msg sizeof_struct_message s in
  let answer := messageToSend s' in
  radio_log s' = (radio_log s ++ [(mac, answer)])%list /\
  type answer = MSG_TYPE_ANNOUNCE_AR /\
  senderId answer = Int.to_u8 (myNodeId s) /\
  newMode answer = currentOperatingMode s /\
  nodeModeSynced s' = <[Z.to_nat k := true]> (nodeModeSynced s) /\
  myRole s' = ROLE_RECEIVER /\
  currentOperatingMode s' = currentOperatingMode s.
Proof.
  intros Hrole Htype Hknown k s' answer. subst answer s'.
  unfold onDataRecv. rewrite accepted_frame by exact Hknown.
  rewrite Htype, Hrole. cbn [role_eqb]. fold k.
  unfold answer_announce_ar. state_simpl.
  repeat split. exact Hrole.
Qed.

Lemma receiver_answers_probe_witness :
  let s := fresh_receiver 1 in
  let s' := onDataRecv 7 mac_of_node3 (probe_from 3) sizeof_struct_message s in
  let answer := messageToSend s' in
  radio_log s' = (radio_log s ++ [(mac_of_node3, answer)])%list /\
  type answer = MSG_TYPE_ANNOUNCE_AR /\
  senderId answer = Int.to_u8 (myNodeId s) /\
  newMode answer = currentOperatingMode s /\
  nodeModeSynced s'
  = <[Z.to_nat (getNodeIdFromMac s mac_of_node3) := true]> (nodeModeSynced s) /\
  myRole s' = ROLE_RECEIVER /\
  currentOperatingMode s' = currentOperatingMode s.
Proof.
  intros s s'.
  apply (receiver_answers_probe s 7 mac_of_node3 (probe_from 3)).
  - reflexivity.
  - reflexivity.
  - vm_compute. discriminate.
Defined.

Lemma mac_string_of_take (mac : mac_t) :
  macString_of (take ESP_NOW_ETH_ALEN mac) = macString_of mac.
Proof. unfold macString_of. rewrite take_take. reflexivity. Qed.

Lemma served_after_data (s : State) (now : Z) (mac : mac_t)
    (msg : struct_message) (args : request_args) :
  mesh_ok s -> myRole s = ROLE_RECEIVER -> type msg = MSG_TYPE_DATA ->
  let k := getNodeIdFromMac s mac in
  k <> 0 -> (Z.to_nat k < List.length (latestNodeData s))%nat ->
  hasArg args "nodeId" = true -> toInt (arg args "nodeId") = k ->
  let s1 := onDataRecv now mac msg sizeof_struct_message s in
  last_reply (handleSensorData args s1)
  = Some (mk_reply 200 "application/json"
            (json_object ": " ","
               [ ("nodeId", String_of_int k);
                 ("mac", quoted (macString_of mac));
                 ("rain", String_of_int (rain_adc_value msg));
                 ("soil", String_of_int (soil_adc_value msg));
                 ("vibration", String_of_int (vibration_milli_g msg));
                 ("tilt", String_of_int (tilt_centi_deg msg));
                 ("lastUpdated", String_of_int (Int.to_u32 now)) ])).
Proof.
  intros Hmesh Hrole Htype k Hknown Hroom Hhas Harg s1.
  pose proof (known_sender_in_range s mac Hmesh Hknown) as Hk. fold k in Hk.
  unfold mesh_ok in Hmesh.
  set (entry :=
    {| mac_addr := take ESP_NOW_ETH_ALEN mac;
       r_rain_adc_value := rain_adc_value msg;
       r_soil_adc_value := soil_adc_value msg;
       r_vibration_milli_g := vibration_milli_g msg;
       r_tilt_centi_deg := tilt_centi_deg msg;
       lastUpdated := Int.to_u32 now;
       initialized := true |}).
  assert (Hs1 : MAX_NODES s1 = MAX_NODES s /\
                latestNodeData s1 = <[Z.to_nat k := entry]> (latestNodeData s)).
  { subst s1. unfold onDataRecv. rewrite accepted_frame by exact Hknown.
    rewrite Htype, Hrole. cbn [role_eqb]. fold k.
    replace (1 <=? k) with true by (symmetry; apply Z.leb_le; lia).
    rewrite le_size_small by (change (2 ^ 32) with 4294967296; lia).
    replace (k <=? MAX_NODES s) with true by (symmetry; apply Z.leb_le; lia).
    cbn [andb].
    match goal with |- context [if negb ?c then _ else _] => destruct c end;
      cbn [negb]; split; reflexivity. }
  destruct Hs1 as (Hsize & Hdata).
  assert (Hentry : node_data s1 k = entry).
  { unfold node_data. rewrite Hdata.
    rewrite list_lookup_insert_eq by exact Hroom. reflexivity. }
  unfold handleSensorData. rewrite Hhas, Harg.
  rewrite wrap32_id by (change (2 ^ 31) with 2147483648; lia).
  rewrite Hsize, Hentry.
  replace (1 <=? k) with true by (symmetry; apply Z.leb_le; lia).
  rewrite le_size_small by (change (2 ^ 32) with 4294967296; lia).
  replace (k <=? MAX_NODES s) with true by (symmetry; apply Z.leb_le; lia).
  cbn [andb initialized entry].
  unfold last_reply, server_send. state_simpl.
  rewrite last_snoc. rewrite sensor_data_json_members.
  cbn [mac_addr r_rain_adc_value r_soil_adc_value r_vibration_milli_g r_tilt_centi_deg
       lastUpdated entry].
  rewrite mac_string_of_take. reflexivity.
Qed.

(** X10: what a receiver stores is what it serves.  After a full-length
    DATA frame from node [k] of the table, a request for [nodeId=k] is
    answered 200 with the sender's address, the four readings of the
    frame and the time of receipt. *)
Theorem stored_data_is_served (s : State) (now : Z) (mac : mac_t)
    (msg : struct_message) (args : request_args) :
  mesh_ok s -> myRole s = ROLE_RECEIVER -> type msg = MSG_TYPE_DATA ->
  let k := getNodeIdFromMac s mac in
  k <> 0 -> (Z.to_nat k < List.length (latestNodeData s))%nat ->
  hasArg args "nodeId" = true -> toInt (arg args "nodeId") = k ->
  let s1 := onDataRecv now mac msg sizeof_struct_message s in
  last_reply (handleSensorData args s1)
  = Some (mk_reply 200 "application/json"
            (json_object ": " ","
               [ ("nodeId", String_of_int k);
                 ("mac", quoted (macString_of mac));
                 ("rain", String_of_int (rain_adc_value msg));
                 ("soil", String_of_int (soil_adc_value msg));
                 ("vibration", String_of_int (vibration_milli_g msg));
                 ("tilt", String_of_int (tilt_centi_deg msg));
                 ("lastUpdated", String_of_int (Int.to_u32 now)) ])).
Proof. apply served_after_data. Qed.

Lemma stored_data_is_served_witness :
  let s := fresh_receiver 1 in
  let msg := mk_message MSG_TYPE_DATA 3 4 1250 75 1800 2100 STANDBY_MODE [0; 0; 0; 0] in
  let s1 := onDataRecv 60000 mac_of_node3 msg sizeof_struct_message s in
  last_reply (handleSensorData [("nodeId", "3")] s1)
  = Some (mk_reply 200 "application/json"
            (json_object ": " ","
               [ ("nodeId", String_of_int (getNodeIdFromMac s mac_of_node3));
                 ("mac", quoted (macString_of mac_of_node3));
                 ("rain", String_of_int (rain_adc_value msg));
                 ("soil", String_of_int (soil_adc_value msg));
                 ("vibration", String_of_int (vibration_milli_g msg));
                 ("tilt", String_of_int (tilt_centi_deg msg));
                 ("lastUpdated", String_of_int (Int.to_u32 60000)) ])).
Proof.
  intros s msg.
  apply (stored_data_is_served s 60000 mac_of_node3 msg [("nodeId", "3")]).
  - unfold mesh_ok, MAX_NODES. simpl. lia.
  - reflexivity.
  - reflexivity.
  - vm_compute. discriminate.
  - vm_compute. lia.
  - reflexivity.
  - reflexivity.
Defined.

(** X11: the mode announcement a receiver owes a peer is sent once.  The
    first full-length DATA frame from a peer not yet marked as synced
    is answered with one ANNOUNCE_AR to that peer; a further DATA frame
    from the same peer is stored and answered with nothing. *)
Theorem data_is_answered_once (s : State) (now1 now2 : Z) (mac : mac_t)
    (msg1 msg2 : struct_message) :
  myRole s = ROLE_RECEIVER ->
  type msg1 = MSG_TYPE_DATA -> type msg2 = MSG_TYPE_DATA ->
  let k := getNodeIdFromMac s mac in
  k <> 0 -> nodeModeSynced s !! Z.to_nat k = Some false ->
  let s1 := onDataRecv now1 mac msg1 sizeof_struct_message s in
  let s2 := onDataRecv now2 mac msg2 sizeof_struct_message s1 in
  radio_log s1 = (radio_log s ++ [(mac, messageToSend s1)])%list /\
  type (messageToSend s1) = MSG_TYPE_ANNOUNCE_AR /\
  newMode (messageToSend s1) = currentOperatingMode s /\
  radio_log s2 = radio_log s1.
Proof.
  intros Hrole Htype1 Htype2 k Hknown Hunsynced s1 s2.
  assert (Hroom : (Z.to_nat k < List.length (nodeModeSynced s))%nat)
    by (apply lookup_lt_Some in Hunsynced; exact Hunsynced).
  assert (Hfirst :
    radio_log s1 = (radio_log s ++ [(mac, messageToSend s1)])%list /\
    type (messageToSend s1) = MSG_TYPE_ANNOUNCE_AR /\
    newMode (messageToSend s1) = currentOperatingMode s /\
    nodeMacs s1 = nodeMacs s /\ myRole s1 = ROLE_RECEIVER /\
    nodeModeSynced s1 !! Z.to_nat k = Some true).
  { subst s1. unfold onDataRecv. rewrite accepted_frame by exact Hknown.
    rewrite Htype1, Hrole. cbn [role_eqb]. fold k.
    destruct ((1 <=? k) && Int.le_size k (MAX_NODES s));
      unfold store_node_data; state_simpl; rewrite Hunsynced; cbn [default negb];
      unfold answer_announce_ar; state_simpl;
      (repeat split; [exact Hrole | apply list_lookup_insert_eq; exact Hroom]). }
  destruct Hfirst as (Hlog & Htype & Hmode & Hmacs & Hrole1 & Hsynced).
  split; [exact Hlog |]. split; [exact Htype |]. split; [exact Hmode |].
  assert (Hk1 : getNodeIdFromMac s1 mac = k)
    by (unfold getNodeIdFromMac; rewrite Hmacs; reflexivity).
  assert (Haccepted :
    (k =? 0) || negb (sizeof_struct_message =? sizeof_struct_message) = false)
    by (apply accepted_frame; exact Hknown).
  subst s2. unfold onDataRecv. rewrite Hk1, Haccepted.
  rewrite Htype2, Hrole1. cbn [role_eqb].
  destruct ((1 <=? k) && Int.le_size k (MAX_NODES s1));
    unfold store_node_data; state_simpl; rewrite Hsynced; reflexivity.
Qed.

Lemma data_is_answered_once_witness :
  let s := fresh_receiver 1 in
  let msg := mk_message MSG_TYPE_DATA 3 4 1250 75 1800 2100 STANDBY_MODE [0; 0; 0; 0] in
  let s1 := onDataRecv 60000 mac_of_node3 msg sizeof_struct_message s in
  let s2 := onDataRecv 90000 mac_of_node3 msg sizeof_struct_message s1 in
  radio_log s1 = (radio_log s ++ [(mac_of_node3, messageToSend s1)])%list /\
  type (messageToSend s1) = MSG_TYPE_ANNOUNCE_AR /\
  newMode (messageToSend s1) = currentOperatingMode s /\
  radio_log s2 = radio_log s1.
Proof.
  intros s msg.
  apply (data_is_answered_once s 60000 90000 mac_of_node3 msg msg).
  - reflexivity.
  - reflexivity.
  - reflexivity.
  - vm_compute. discriminate.
  - reflexivity.
Defined.

(** ** The ULP wake program *)

Lemma to_u16_small (z : Z) : is_u16 z -> Int.to_u16 z = z.
Proof. unfold is_u16. intros Hz. apply to_u16_id. exact Hz. Qed.

Lemma adc_is_u16 (z : Z) : is_adc z -> is_u16 z.
Proof. unfold is_adc, is_u16, ADC_MAX. change (2 ^ 16) with 65536. lia. Qed.

Ltac ulp_run :=
  repeat
    (cbn -[Int.to_u16 Z.ltb Z.leb Z.add Z.sub Z.pow];
     change (Int.to_u16 0) with 0;
     change (Int.to_u16 DATA_READY_THRESHOLD) with 2000;
     repeat match goal with
       | H : is_u16 ?z |- context [Int.to_u16 ?z] => rewrite (to_u16_small z H)
       | H : (?a <? ?b) = _ |- context [?a <? ?b] => rewrite H
       end).

Lemma count_bumped (tc : Z) :
  Int.to_u16 (Int.to_u16 (Int.to_u16 tc) + 1) = Int.to_u16 (tc + 1).
Proof.
  unfold Int.to_u16. rewrite Z.mod_mod by (change (2 ^ 16) with 65536; lia).
  apply Zplus_mod_idemp_l.
Qed.

Ltac ulp_compare :=
  repeat match goal with
    | H : (_ <? _) = true |- _ => apply Z.ltb_lt in H
    | H : (_ <? _) = false |- _ => apply Z.ltb_ge in H
    end;
  unfold DATA_READY_THRESHOLD;
  repeat match goal with
    | |- context [?a <=? ?b] => destruct (Z.leb_spec a b); try lia
    end;
  cbn [andb orb negb].

Lemma period_outcome (rain soil ready : Z) (u : ulp_vars_t) :
  is_adc rain -> is_adc soil -> is_adc ready ->
  is_u16 (rain_lower u) -> is_u16 (rain_upper u) ->
  is_u16 (soil_lower u) -> is_u16 (soil_upper u) ->
  let rain_ok := within (rain_lower u) (rain_upper u) rain in
  let soil_ok := within (soil_lower u) (soil_upper u) soil in
  let wake := negb rain_ok || negb soil_ok || (DATA_READY_THRESHOLD <=? ready) in
  ULP.period rain soil ready u
  = Some
      ({| rain_lower := rain_lower u;
          rain_upper := rain_upper u;
          last_rain_val := rain;
          soil_lower := soil_lower u;
          soil_upper := soil_upper u;
          last_soil_val := if rain_ok then soil else last_soil_val u;
          last_ready_val := if rain_ok && soil_ok then ready else last_ready_val u;
          triggered_count :=
            if wake then Int.to_u16 (triggered_count u + 1) else triggered_count u |},
       wake).
Proof.
  intros Hrain Hsoil Hready Hrl Hru Hsl Hsu rain_ok soil_ok wake.
  apply adc_is_u16 in Hrain, Hsoil, Hready.
  destruct u as [rl ru lr sl su ls lrd tc]. cbn [rain_lower rain_upper soil_lower soil_upper
    last_rain_val last_soil_val last_ready_val triggered_count] in *.
  subst wake rain_ok soil_ok. unfold within, ULP.period.
  destruct (rain <? rl) eqn:E1;
    [ulp_run; rewrite count_bumped; ulp_compare; reflexivity |].
  destruct (ru <? rain) eqn:E2;
    [ulp_run; rewrite count_bumped; ulp_compare; reflexivity |].
  destruct (soil <? sl) eqn:E3;
    [ulp_run; rewrite count_bumped; ulp_compare; reflexivity |].
  destruct (su <? soil) eqn:E4;
    [ulp_run; rewrite count_bumped; ulp_compare; reflexivity |].
  destruct (ready <? 2000) eqn:E5;
    [ulp_run; ulp_compare; reflexivity
    | ulp_run; rewrite count_bumped; ulp_compare; reflexivity].
Qed.

(** X12: one timer period of the ULP wake program, on 12-bit samples and
    16-bit thresholds.  It always runs to its HALT.  It asks for the
    main core exactly when the rain sample lies outside the rain
    window, or the soil sample outside the soil window, or the
    data-ready sample is at least DATA_READY_THRESHOLD, and counts
    every such wake-up.  It never touches the thresholds; it records
    the rain sample always, the soil sample only when rain was inside
    its window, the data-ready sample only when both were. *)
Theorem ulp_period_wakes_outside_windows (rain soil ready : Z) (u : ulp_vars_t) :
  is_adc rain -> is_adc soil -> is_adc ready ->
  is_u16 (rain_lower u) -> is_u16 (rain_upper u) ->
  is_u16 (soil_lower u) -> is_u16 (soil_upper u) ->
  let rain_ok := within (rain_lower u) (rain_upper u) rain in
  let soil_ok := within (soil_lower u) (soil_upper u) soil in
  let wake := negb rain_ok || negb soil_ok || (DATA_READY_THRESHOLD <=? ready) in
  ULP.period rain soil ready u
  = Some
      ({| rain_lower := rain_lower u;
          rain_upper := rain_upper u;
          last_rain_val := rain;
          soil_lower := soil_lower u;
          soil_upper := soil_upper u;
          last_soil_val := if rain_ok then soil else last_soil_val u;
          last_ready_val := if rain_ok && soil_ok then ready else last_ready_val u;
          triggered_count :=
            if wake then Int.to_u16 (triggered_count u + 1) else triggered_count u |},
       wake).
Proof. apply period_outcome. Qed.

Lemma ulp_period_wakes_outside_windows_witness :
  let u := mk_ulp_vars 900 1100 1000 1900 2100 2000 0 7 in
  ULP.period 1101 2000 0 u = Some (mk_ulp_vars 900 1100 1101 1900 2100 2000 0 8, true).
Proof.
  intros u.
  apply (ulp_period_wakes_outside_windows 1101 2000 0 u);
    unfold is_adc, is_u16, ADC_MAX; cbn; lia.
Defined.

Lemma window_of_sample (v : Z) :
  is_adc v ->
  is_u16 (window_lower v) /\ is_u16 (window_upper v) /\
  window_lower v = Z.max 0 (v - SENSOR_WINDOW_MARGIN) /\
  window_upper v = v + SENSOR_WINDOW_MARGIN.
Proof.
  intros Hv. destruct (window_centred v Hv) as (Hlow & Hup & _).
  cbn [lower upper] in Hlow, Hup. rewrite Hlow, Hup.
  unfold is_adc, ADC_MAX in Hv. unfold is_u16, SENSOR_WINDOW_MARGIN.
  change (2 ^ 16) with 65536. repeat split; lia.
Qed.

(** X13: the ULP and the main core agree on what a change is.  Once
    loop() has stored a set of samples and centred the windows on them,
    the next ULP period wakes the main core exactly when the receiver's
    own check in loop() would report a change: rain or soil has moved
    by more than SENSOR_WINDOW_MARGIN from the stored sample, or the
    data-ready sample has reached DATA_READY_THRESHOLD. *)
Theorem ulp_wakes_when_main_core_would (rain0 soil0 ready0 rain soil ready : Z)
    (u : ulp_vars_t) :
  is_adc rain0 -> is_adc soil0 -> is_adc ready0 ->
  is_adc rain -> is_adc soil -> is_adc ready ->
  let u0 := store_samples rain0 soil0 ready0 u in
  let changed :=
    (SENSOR_WINDOW_MARGIN <? Z.abs (rain - rain0))
    || (SENSOR_WINDOW_MARGIN <? Z.abs (soil - soil0))
    || (DATA_READY_THRESHOLD <=? ready) in
  local_sensor_changed rain soil ready u0 = changed /\
  exists u', ULP.period rain soil ready u0 = Some (u', changed).
Proof.
  intros Hrain0 Hsoil0 Hready0 Hrain Hsoil Hready u0 changed.
  destruct (window_of_sample rain0 Hrain0) as (Hrl & Hru & Erl & Eru).
  destruct (window_of_sample soil0 Hsoil0) as (Hsl & Hsu & Esl & Esu).
  pose proof (period_outcome rain soil ready u0 Hrain Hsoil Hready Hrl Hru Hsl Hsu)
    as Hperiod.
  cbv zeta in Hperiod.
  change (rain_lower u0) with (window_lower rain0) in Hperiod.
  change (rain_upper u0) with (window_upper rain0) in Hperiod.
  change (soil_lower u0) with (window_lower soil0) in Hperiod.
  change (soil_upper u0) with (window_upper soil0) in Hperiod.
  assert (Hwake :
    negb (within (window_lower rain0) (window_upper rain0) rain)
    || negb (within (window_lower soil0) (window_upper soil0) soil)
    || (DATA_READY_THRESHOLD <=? ready) = changed).
  { subst changed. unfold within. rewrite Erl, Eru, Esl, Esu.
    unfold is_adc, ADC_MAX, SENSOR_WINDOW_MARGIN in *.
    f_equal. f_equal.
    - destruct (Z.ltb_spec 100 (Z.abs (rain - rain0)));
        repeat match goal with
          | |- context [?a <=? ?b] => destruct (Z.leb_spec a b)
          end; cbn [andb negb]; try reflexivity; lia.
    - destruct (Z.ltb_spec 100 (Z.abs (soil - soil0)));
        repeat match goal with
          | |- context [?a <=? ?b] => destruct (Z.leb_spec a b)
          end; cbn [andb negb]; try reflexivity; lia. }
  split.
  - subst changed. unfold local_sensor_changed.
    change (last_rain_val u0) with (Int.to_u16 rain0).
    change (last_soil_val u0) with (Int.to_u16 soil0).
    rewrite (to_u16_small rain0) by (apply adc_is_u16; exact Hrain0).
    rewrite (to_u16_small soil0) by (apply adc_is_u16; exact Hsoil0).
    unfold is_adc, ADC_MAX in *. unfold Int.abs.
    rewrite !sub_small by (change (2 ^ 31) with 2147483648; lia).
    rewrite !wrap32_id by (change (2 ^ 31) with 2147483648; lia).
    reflexivity.
  - rewrite Hwake in Hperiod. eexists. exact Hperiod.
Qed.

Lemma ulp_wakes_when_main_core_would_witness :
  let u0 := store_samples 1000 2000 0 (mk_ulp_vars 0 0 0 0 0 0 0 0) in
  let changed :=
    (SENSOR_WINDOW_MARGIN <? Z.abs (1101 - 1000))
    || (SENSOR_WINDOW_MARGIN <? Z.abs (2000 - 2000))
    || (DATA_READY_THRESHOLD <=? 0) in
  local_sensor_changed 1101 2000 0 u0 = changed /\
  exists u', ULP.period 1101 2000 0 u0 = Some (u', changed).
Proof.
  apply (ulp_wakes_when_main_core_would 1000 2000 0 1101 2000 0
           (mk_ulp_vars 0 0 0 0 0 0 0 0));
    unfold is_adc, ADC_MAX; lia.
Defined.

(** ** The PWM decoder *)

(** X14: the tilt reading is monotone in the pulse width, for every
    pulse pulseIn can report: of two HIGH pulses on the tilt pin that
    end before the timeout of two periods, the wider never decodes to
    the smaller angle, whatever the vibration pin does. *)
Theorem tilt_reading_monotone (t1 w1 t2 w2 : Z) (v1 v2 : Arduino.pin_activity) :
  0 <= w1 <= t1 -> 0 <= w2 <= t2 ->
  t1 <= 2 * TILT_PWM_PERIOD_US -> t2 <= 2 * TILT_PWM_PERIOD_US ->
  w1 <= w2 ->
  0 <= fst (decodePwmSignals (Arduino.PulseSeen t1 w1) v1)
    <= fst (decodePwmSignals (Arduino.PulseSeen t2 w2) v2).
Proof.
  rewrite tilt_period. intros H1 H2 Ht1 Ht2 Hle.
  unfold decodePwmSignals. cbn [fst]. rewrite tilt_period.
  change (Int.mul 100000 2) with 200000.
  unfold Arduino.pulseIn. change (Int.to_u32 200000) with 200000.
  replace (t1 <=? 200000) with true by (symmetry; apply Z.leb_le; lia).
  replace (t2 <=? 200000) with true by (symmetry; apply Z.leb_le; lia).
  rewrite !to_u32_id by (change (2 ^ 32) with 4294967296; lia).
  rewrite !wrap32_id by (change (2 ^ 31) with 2147483648; lia).
  split.
  - change 0 with (decode_tilt 0) at 1.
    apply decode_tilt_monotone; unfold MAX_EXACT_PULSE_US; lia.
  - apply decode_tilt_monotone; unfold MAX_EXACT_PULSE_US; lia.
Qed.

Lemma tilt_reading_monotone_witness :
  0 <= fst (decodePwmSignals (Arduino.PulseSeen 60000 25000) Arduino.NoPulse)
    <= fst (decodePwmSignals (Arduino.PulseSeen 90000 50000)
              (Arduino.PulseSeen 500000 100000)).
Proof.
  apply (tilt_reading_monotone 60000 25000 90000 50000);
    rewrite ?tilt_period; lia.
Defined.

(** ** setup() *)

Lemma mesh_ok_frame (s s' : State) :
  nodeMacs s' = nodeMacs s -> mesh_ok s -> mesh_ok s'.
Proof. unfold mesh_ok, MAX_NODES. intros ->. auto. Qed.

Lemma setup_wake_role_frame (s : State) :
  myNodeId (setup_wake_role s) = myNodeId s /\
  nodeMacs (setup_wake_role s) = nodeMacs s /\
  currentOperatingMode (setup_wake_role s) = currentOperatingMode s /\
  latestNodeData (setup_wake_role s) = latestNodeData s.
Proof.
  unfold setup_wake_role.
  destruct (FAILOVER_THRESHOLD <=? consecutiveSendFailures s).
  - unfold findNewTargetAndFailover.
    destruct (lastFailedTargetId s =? 0); [repeat split |].
    destruct (Int.gt_size _ _ || _); repeat split.
  - destruct (negb (lastAnnouncedAR s =? 0) && negb (lastAnnouncedAR s =? myNodeId s));
      repeat split.
Qed.

Lemma setup_wake_role_settles (s : State) :
  mesh_ok s -> is_int (lastAnnouncedAR s) -> target_settled (setup_wake_role s).
Proof.
  intros Hmesh Hint. unfold setup_wake_role.
  assert (Hprobe : forall t : State,
    target_settled t ->
    target_settled
      (if role_eqb (myRole t) ROLE_SENDER
       then esp_now_send broadcastMac
              (set_messageToSend
                 (msg_set_wakeCounter 0
                    (msg_set_senderId (Int.to_u8 (myNodeId t))
                       (msg_set_type MSG_TYPE_PROBE (messageToSend t)))) t)
       else t)).
  { intros t Ht. destruct (role_eqb (myRole t) ROLE_SENDER); [| exact Ht].
    apply (target_settled_frame t); [reflexivity .. | exact Ht]. }
  apply Hprobe.
  destruct (FAILOVER_THRESHOLD <=? consecutiveSendFailures s).
  - apply findNewTargetAndFailover_settles. exact Hmesh.
  - destruct (negb (lastAnnouncedAR s =? 0) && negb (lastAnnouncedAR s =? myNodeId s)).
    + apply becomeSender_settles; assumption.
    + apply becomeSender_settles;
        [exact Hmesh | unfold is_int; change (2 ^ 31) with 2147483648; lia].
Qed.

Lemma to_u8_is_int (z : Z) : is_int (Int.to_u8 z).
Proof.
  unfold is_int, Int.to_u8. change (2 ^ 8) with 256. change (2 ^ 31) with 2147483648.
  pose proof (Z.mod_pos_bound z 256). lia.
Qed.

Lemma booted_well_intro (inp : setup_inputs) (s s' : State) :
  1 <= getNodeIdFromMac s (device_mac inp) <= MAX_NODES s ->
  myNodeId s' = getNodeIdFromMac s (device_mac inp) ->
  nodeMacs s' = nodeMacs s ->
  readModeFromNVS s = Some (currentOperatingMode s') ->
  target_settled s' ->
  (myNodeId s' = 1 -> myRole s' = ROLE_RECEIVER) ->
  (myNodeId s' <> 1 -> deep_sleep_wakeup inp = false -> myRole s' = ROLE_SENDER) ->
  (forall k, k <> getNodeIdFromMac s (device_mac inp) ->
             initialized (node_data s' k) = false) ->
  booted_well inp s s'.
Proof. unfold booted_well. intros Hrange Hid. rewrite Hid. tauto. Qed.

Lemma setup_node_data_clears (mac : mac_t) (t : State) (k : Z) :
  1 <= myNodeId t -> k <> myNodeId t ->
  initialized (node_data (setup_node_data mac t) k) = false.
Proof.
  intros Hid Hk. unfold setup_node_data, node_data. state_simpl.
  rewrite list_lookup_insert_ne by lia.
  rewrite list_lookup_fmap.
  destruct (latestNodeData t !! Z.to_nat k); reflexivity.
Qed.

Lemma booted_well_ulp_init (inp : setup_inputs) (s s' : State) :
  booted_well inp s s' -> booted_well inp s (ulp_init s').
Proof.
  unfold booted_well. intros (H1 & H2 & H3 & H4 & H5 & H6 & H7 & H8).
  change (node_data (ulp_init s')) with (node_data s').
  change (myNodeId (ulp_init s')) with (myNodeId s').
  change (nodeMacs (ulp_init s')) with (nodeMacs s').
  change (currentOperatingMode (ulp_init s')) with (currentOperatingMode s').
  change (myRole (ulp_init s')) with (myRole s').
  repeat split; try tauto.
  - apply (target_settled_frame s'); [reflexivity .. | exact H5].
  - apply (target_settled_frame s'); [reflexivity .. | exact H5].
Qed.

Lemma setup_outcome_of (inp : setup_inputs) (s : State) (u : ulp_vars_t) :
  mesh_ok s -> is_int (lastAnnouncedAR s) ->
  match setup inp s u with
  | HaltsUnknownDevice => getNodeIdFromMac s (device_mac inp) = 0
  | ReadsUnnamedMode => readModeFromNVS s = None
  | Booted s' u' => booted_well inp s s'
  end.
Proof.
  intros Hmesh Hint. unfold setup.
  assert (Hrange : getNodeIdFromMac s (device_mac inp) <> 0 ->
                   1 <= getNodeIdFromMac s (device_mac inp) <= MAX_NODES s)
    by (apply known_sender_in_range; exact Hmesh).
  set (mac := device_mac inp) in *.
  set (id := getNodeIdFromMac s mac) in *.
  change (myNodeId (set_myNodeId id s)) with id.
  destruct (Z.eqb_spec id 0) as [Hzero | Hknown]; [exact Hzero |].
  specialize (Hrange Hknown).
  change (readModeFromNVS (set_wifi_mode WIFI_STA (set_myNodeId id s)))
    with (readModeFromNVS s).
  destruct (readModeFromNVS s) as [mode |] eqn:Hmode; [| reflexivity].
  set (s1 := set_currentOperatingMode mode (set_wifi_mode WIFI_STA (set_myNodeId id s))).
  set (s2 := if targetNodeId (set_targetNodeId (readTargetNodeIdFromNVS s1) s1) =? 0
             then writeTargetNodeIdToNVS 1
                    (set_targetNodeId 1 (set_targetNodeId (readTargetNodeIdFromNVS s1) s1))
             else set_targetNodeId (readTargetNodeIdFromNVS s1) s1).
  set (s0 := setup_node_data mac s2).
  assert (Hs0 :
    myNodeId s0 = id /\ nodeMacs s0 = nodeMacs s /\ currentOperatingMode s0 = mode /\
    lastAnnouncedAR s0 = lastAnnouncedAR s /\ is_int (targetNodeId s0) /\
    forall k, k <> id -> initialized (node_data s0 k) = false).
  { assert (Hcleared : forall k, k <> id -> initialized (node_data s0 k) = false).
    { intros k Hk. subst s0. apply setup_node_data_clears.
      - subst s2.
        destruct (targetNodeId (set_targetNodeId (readTargetNodeIdFromNVS s1) s1) =? 0);
          exact (proj1 Hrange).
      - subst s2.
        destruct (targetNodeId (set_targetNodeId (readTargetNodeIdFromNVS s1) s1) =? 0);
          exact Hk. }
    assert (Hstored : is_int (readTargetNodeIdFromNVS s1)).
    { unfold readTargetNodeIdFromNVS. destruct (nvs_target_node_id s1);
        [apply to_u8_is_int | unfold is_int; change (2 ^ 31) with 2147483648; lia]. }
    subst s0 s2.
    destruct (targetNodeId (set_targetNodeId (readTargetNodeIdFromNVS s1) s1) =? 0).
    - do 4 (split; [reflexivity |]). split; [| exact Hcleared].
      unfold is_int. change (2 ^ 31) with 2147483648. cbn. lia.
    - do 4 (split; [reflexivity |]). split; [exact Hstored | exact Hcleared]. }
  clearbody s0. clear s2 s1.
  destruct Hs0 as (Hid & Hmacs & Hcur & Hlast & Htarget & Hcleared).
  assert (Hmesh0 : mesh_ok s0) by (apply (mesh_ok_frame s); assumption).
  assert (Hreceiver : forall t : State,
    myNodeId t = myNodeId s0 -> nodeMacs t = nodeMacs s0 ->
    currentOperatingMode t = currentOperatingMode s0 ->
    latestNodeData t = latestNodeData s0 -> id = 1 ->
    booted_well inp s (becomeActiveReceiver t)).
  { intros t Ht Htm Htc Htd Hone. apply booted_well_intro.
    - exact Hrange.
    - change (myNodeId (becomeActiveReceiver t)) with (myNodeId t). rewrite Ht. exact Hid.
    - change (nodeMacs (becomeActiveReceiver t)) with (nodeMacs t). rewrite Htm. exact Hmacs.
    - change (currentOperatingMode (becomeActiveReceiver t)) with (currentOperatingMode t).
      rewrite Htc, Hcur. exact Hmode.
    - apply becomeActiveReceiver_settles.
    - intros _. reflexivity.
    - change (myNodeId (becomeActiveReceiver t)) with (myNodeId t).
      rewrite Ht, Hid. intros Hne. contradiction.
    - intros k Hk. unfold node_data.
      change (latestNodeData (becomeActiveReceiver t)) with (latestNodeData t).
      rewrite Htd. apply Hcleared. exact Hk. }
  assert (Hsender : forall (t : State) (k : Z),
    myNodeId t = myNodeId s0 -> nodeMacs t = nodeMacs s0 ->
    currentOperatingMode t = currentOperatingMode s0 ->
    latestNodeData t = latestNodeData s0 -> is_int k -> id <> 1 ->
    booted_well inp s (becomeSender k t)).
  { intros t k Ht Htm Htc Htd Hk Hne. apply booted_well_intro.
    - exact Hrange.
    - change (myNodeId (becomeSender k t)) with (myNodeId t). rewrite Ht. exact Hid.
    - change (nodeMacs (becomeSender k t)) with (nodeMacs t). rewrite Htm. exact Hmacs.
    - change (currentOperatingMode (becomeSender k t)) with (currentOperatingMode t).
      rewrite Htc, Hcur. exact Hmode.
    - apply becomeSender_settles; [| exact Hk].
      apply (mesh_ok_frame s0); assumption.
    - change (myNodeId (becomeSender k t)) with (myNodeId t).
      rewrite Ht, Hid. intros Hone. contradiction.
    - intros _ _. reflexivity.
    - intros j Hj. unfold node_data.
      change (latestNodeData (becomeSender k t)) with (latestNodeData t).
      rewrite Htd. apply Hcleared. exact Hj. }
  destruct (deep_sleep_wakeup inp) eqn:Hwake.
  - change (currentOperatingMode (set_ulpJustWoke true s0)) with (currentOperatingMode s0).
    change (myNodeId (set_ulpJustWoke true s0)) with (myNodeId s0).
    change (targetNodeId (set_ulpJustWoke true s0)) with (targetNodeId s0).
    rewrite Hid, Hcur.
    destruct mode; destruct (Z.eqb_spec id 1) as [Hone | Hne];
      [ apply (Hreceiver (set_ulpJustWoke true s0)); [reflexivity .. | exact Hone]
      |
      | apply (Hreceiver (set_ulpJustWoke true s0)); [reflexivity .. | exact Hone]
      | apply (Hsender (set_ulpJustWoke true s0) (targetNodeId s0));
          [reflexivity .. | exact Htarget | exact Hne] ].
    set (t := set_ulpJustWoke true s0).
    destruct (setup_wake_role_frame t) as (Hwid & Hwmacs & Hwcur & Hwdata).
    apply booted_well_intro.
    + exact Hrange.
    + rewrite Hwid. exact Hid.
    + rewrite Hwmacs. exact Hmacs.
    + rewrite Hwcur. change (currentOperatingMode t) with (currentOperatingMode s0).
      rewrite Hcur. exact Hmode.
    + apply setup_wake_role_settles;
        [apply (mesh_ok_frame s0); [reflexivity | exact Hmesh0]
        | change (lastAnnouncedAR t) with (lastAnnouncedAR s0); rewrite Hlast; exact Hint].
    + rewrite Hwid. change (myNodeId t) with (myNodeId s0). rewrite Hid.
      intros Hone. contradiction.
    + intros _ Hfalse. rewrite Hwake in Hfalse. discriminate Hfalse.
    + intros k Hk. unfold node_data. rewrite Hwdata.
      change (latestNodeData t) with (latestNodeData s0). apply Hcleared. exact Hk.
  - change (myNodeId (set_ulpJustWoke false s0)) with (myNodeId s0).
    set (t0 := if myNodeId s0 =? 1
               then reset_nodeModeSynced (set_ulpJustWoke false s0)
               else set_ulpJustWoke false s0).
    set (t := set_probingForFailover false
                (set_lastFailedTargetId 0
                   (set_consecutiveSendFailures 0 (set_failedLastSend false t0)))).
    assert (Ht :
      myNodeId t = myNodeId s0 /\ nodeMacs t = nodeMacs s0 /\
      currentOperatingMode t = currentOperatingMode s0 /\
      targetNodeId t = targetNodeId s0 /\ latestNodeData t = latestNodeData s0).
    { subst t t0. destruct (myNodeId s0 =? 1); repeat split. }
    clearbody t. clear t0. destruct Ht as (Htid & Htmacs & Htcur & Httarget & Htdata).
    rewrite Htid, Hid, Httarget.
    destruct (Z.eqb_spec id 1) as [Hone | Hne].
    + pose proof (Hreceiver t Htid Htmacs Htcur Htdata Hone) as Hboot.
      change (currentOperatingMode (becomeActiveReceiver t)) with (currentOperatingMode t).
      rewrite Htcur, Hcur.
      destruct mode; [apply booted_well_ulp_init |]; exact Hboot.
    + pose proof (Hsender t (targetNodeId s0) Htid Htmacs Htcur Htdata Htarget Hne) as Hboot.
      change (currentOperatingMode (becomeSender (targetNodeId s0) t))
        with (currentOperatingMode t).
      rewrite Htcur, Hcur.
      destruct mode; [apply booted_well_ulp_init |]; exact Hboot.
Qed.



(** X16: a restart forgets what the peers reported.  Whatever setup()
    boots into holds no initialized snapshot but the node's own, so a
    request for any other node is answered 404 until a DATA frame from
    that node arrives. *)
Theorem setup_forgets_peers (inp : setup_inputs) (s : State) (u : ulp_vars_t)
    (args : request_args) :
  mesh_ok s -> is_int (lastAnnouncedAR s) ->
  hasArg args "nodeId" = true ->
  match setup inp s u with
  | Booted s' u' =>
      toInt (arg args "nodeId") <> myNodeId s' ->
      initialized (node_data s' (toInt (arg args "nodeId"))) = false /\
      last_reply (handleSensorData args s')
      = Some (mk_reply 404 "application/json"
                (json_object ":" ","
                   [ ("error",
                      quoted "Sensor data for requested nodeId not found or invalid.") ]))
  | _ => True
  end.
Proof.
  intros Hmesh Hint Hhas. pose proof (setup_outcome_of inp s u Hmesh Hint) as Hsetup.
  destruct (setup inp s u) as [s' u' | |]; [| exact I | exact I].
  destruct Hsetup as (_ & _ & _ & _ & _ & _ & _ & Hcleared).
  intros Hother. specialize (Hcleared _ Hother).
  split; [exact Hcleared |].
  unfold handleSensorData. rewrite Hhas.
  pose proof (toInt_is_int (arg args "nodeId")) as Hk. unfold is_int in Hk.
  rewrite wrap32_id by exact Hk.
  rewrite Hcleared, !andb_false_r.
  unfold last_reply, server_send. state_simpl. rewrite last_snoc.
  rewrite sensor_data_not_found_members. reflexivity.
Qed.

Lemma setup_forgets_peers_witness :
  match
    setup (mk_setup_inputs mac_of_node1 true 0 0 0)
      (store_node_data 5 mac_of_node3 3 blank_message (boot_state 0))
      (mk_ulp_vars 0 0 0 0 0 0 0 0)
  with
  | Booted s' u' =>
      toInt (arg [("nodeId", "3")] "nodeId") <> myNodeId s' ->
      initialized (node_data s' (toInt (arg [("nodeId", "3")] "nodeId"))) = false /\
      last_reply (handleSensorData [("nodeId", "3")] s')
      = Some (mk_reply 404 "application/json"
                (json_object ":" ","
                   [ ("error",
                      quoted "Sensor data for requested nodeId not found or invalid.") ]))
  | _ => True
  end.
Proof.
  apply (setup_forgets_peers (mk_setup_inputs mac_of_node1 true 0 0 0)
           (store_node_data 5 mac_of_node3 3 blank_message (boot_state 0))
           (mk_ulp_vars 0 0 0 0 0 0 0 0) [("nodeId", "3")]).
  - unfold mesh_ok, MAX_NODES. simpl. lia.
  - unfold is_int. simpl. lia.
  - reflexivity.
Defined.

(** X17: the windows a first boot leaves, and what the ULP makes of
    them.  The rain window is centred on the first rain sample, or on
    1000 when that sample reads 0; the soil window on the first soil
    sample, or on 2000.  So a ULP period that meets the same samples
    again wakes the main core exactly when the rain or the soil sample
    reads 0, or data-ready has reached DATA_READY_THRESHOLD. *)
Theorem first_boot_windows (rain soil ready0 ready : Z) :
  is_adc rain -> is_adc soil -> is_adc ready ->
  let u := setup_first_boot_ulp_vars rain soil ready0 in
  centred_on (if 0 <? rain then rain else 1000) (rain_window u) /\
  centred_on (if 0 <? soil then soil else 2000) (soil_window u) /\
  triggered_count u = 0 /\
  exists u',
    ULP.period rain soil ready u
    = Some (u', (rain =? 0) || (soil =? 0) || (DATA_READY_THRESHOLD <=? ready)).
Proof.
  intros Hrain Hsoil Hready u.
  set (r := if 0 <? rain then rain else 1000).
  set (g := if 0 <? soil then soil else 2000).
  assert (Hr : is_adc r)
    by (subst r; unfold is_adc, ADC_MAX in *; destruct (0 <? rain); lia).
  assert (Hg : is_adc g)
    by (subst g; unfold is_adc, ADC_MAX in *; destruct (0 <? soil); lia).
  assert (Hu : u = mk_ulp_vars (window_lower r) (window_upper r) r
                     (window_lower g) (window_upper g) g (Int.to_u16 ready0) 0).
  { subst u. unfold setup_first_boot_ulp_vars. fold r. fold g.
    rewrite (to_u16_small r) by (apply adc_is_u16; exact Hr).
    rewrite (to_u16_small g) by (apply adc_is_u16; exact Hg).
    reflexivity. }
  split; [rewrite Hu; apply (window_centred r Hr) |].
  split; [rewrite Hu; apply (window_centred g Hg) |].
  split; [rewrite Hu; reflexivity |].
  destruct (window_of_sample r Hr) as (Hrl & Hru & Erl & Eru).
  destruct (window_of_sample g Hg) as (Hsl & Hsu & Esl & Esu).
  assert (Hperiod := period_outcome rain soil ready u Hrain Hsoil Hready).
  rewrite Hu in Hperiod. cbn [rain_lower rain_upper soil_lower soil_upper] in Hperiod.
  specialize (Hperiod Hrl Hru Hsl Hsu). cbv zeta in Hperiod.
  rewrite <- Hu in Hperiod.
  assert (Hwake :
    negb (within (window_lower r) (window_upper r) rain)
    || negb (within (window_lower g) (window_upper g) soil)
    || (DATA_READY_THRESHOLD <=? ready)
    = (rain =? 0) || (soil =? 0) || (DATA_READY_THRESHOLD <=? ready)).
  { unfold within. rewrite Erl, Eru, Esl, Esu.
    unfold is_adc, ADC_MAX, SENSOR_WINDOW_MARGIN in *. subst r g.
    f_equal. f_equal.
    - destruct (Z.ltb_spec 0 rain); destruct (Z.eqb_spec rain 0);
        repeat match goal with
          | |- context [?a <=? ?b] => destruct (Z.leb_spec a b)
          end; cbn [andb negb]; try reflexivity; lia.
    - destruct (Z.ltb_spec 0 soil); destruct (Z.eqb_spec soil 0);
        repeat match goal with
          | |- context [?a <=? ?b] => destruct (Z.leb_spec a b)
          end; cbn [andb negb]; try reflexivity; lia. }
  rewrite Hwake in Hperiod. eexists. exact Hperiod.
Qed.

Lemma first_boot_windows_witness :
  let u := setup_first_boot_ulp_vars 0 1800 0 in
  centred_on (if 0 <? 0 then 0 else 1000) (rain_window u) /\
  centred_on (if 0 <? 1800 then 1800 else 2000) (soil_window u) /\
  triggered_count u = 0 /\
  exists u',
    ULP.period 0 1800 0 u
    = Some (u', (0 =? 0) || (1800 =? 0) || (DATA_READY_THRESHOLD <=? 0)).
Proof.
  apply (first_boot_windows 0 1800 0 0); unfold is_adc, ADC_MAX; lia.
Defined.

(** ** loop() *)

Lemma radio_only_refl (s : State) : radio_only s s.
Proof. unfold radio_only. destruct s. reflexivity. Qed.

Lemma radio_only_trans (a b c : State) :
  radio_only a b -> radio_only b c -> radio_only a c.
Proof.
  unfold radio_only. intros Hab Hbc. rewrite Hbc at 1. rewrite Hab at 1.
  destruct a. reflexivity.
Qed.

Lemma radio_only_send (mac : mac_t) (m : struct_message) (s : State) :
  radio_only s (esp_now_send mac (set_messageToSend m s)).
Proof. unfold radio_only. destruct s. reflexivity. Qed.

Lemma probe_of_again (mac : mac_t) (s : State) :
  probe_of (esp_now_send mac (set_messageToSend (probe_of s) s)) = probe_of s.
Proof. unfold probe_of. destruct (messageToSend s). reflexivity. Qed.

Lemma probes_sent (rows : list nat) :
  forall s : State,
    let s' :=
      foldl
        (fun s i => esp_now_send (mac_of_index s (Z.of_nat i))
                      (set_messageToSend (probe_of s) s))
        s rows in
    radio_only s s' /\
    radio_log s'
    = (radio_log s ++ ((fun i => (mac_of_index s (Z.of_nat i), probe_of s)) <$> rows))%list.
Proof.
  induction rows as [| i rest IH]; intros s s'; subst s'.
  - split; [apply radio_only_refl |]. cbn. rewrite app_nil_r. reflexivity.
  - cbn [foldl].
    set (t := esp_now_send (mac_of_index s (Z.of_nat i)) (set_messageToSend (probe_of s) s)).
    destruct (IH t) as (Honly & Hlog).
    split.
    + apply (radio_only_trans s t); [apply radio_only_send | exact Honly].
    + rewrite Hlog. subst t. rewrite probe_of_again.
      cbn [fmap list_fmap]. unfold esp_now_send at 1. state_simpl.
      rewrite <- app_assoc. reflexivity.
Qed.

Lemma rows_by_index (s : State) (n : nat) :
  (n <= List.length (nodeMacs s))%nat ->
  (fun i => (mac_of_index s (Z.of_nat i), probe_of s)) <$> seq 0 n
  = (fun row => (row, probe_of s)) <$> take n (nodeMacs s).
Proof.
  induction n as [| n IH]; intros Hn; [reflexivity |].
  rewrite seq_S, fmap_app, IH by lia. cbn [fmap list_fmap Nat.add].
  destruct (lookup_lt_is_Some_2 (nodeMacs s) n) as [row Hrow]; [lia |].
  rewrite (take_S_r _ _ _ Hrow), fmap_app. cbn [fmap list_fmap].
  unfold mac_of_index.
  replace (Z.of_nat n <? 0) with false by (symmetry; apply Z.ltb_ge; lia).
  rewrite Nat2Z.id. unfold mac_t in *. rewrite Hrow. reflexivity.
Qed.

Lemma probe_lower_ids_sent (s : State) :
  mesh_ok s -> 1 <= myNodeId s <= MAX_NODES s ->
  radio_only s (probe_lower_ids s) /\
  radio_log (probe_lower_ids s)
  = (radio_log s
     ++ ((fun row => (row, probe_of s)) <$> take (Z.to_nat (myNodeId s - 1)) (nodeMacs s)))%list.
Proof.
  unfold mesh_ok. intros Hmesh Hid.
  destruct (probes_sent (seq 0 (Z.to_nat (Int.sub (myNodeId s) 1))) s) as (Honly & Hlog).
  split; [exact Honly |].
  unfold probe_lower_ids. cbv zeta in Hlog. unfold probe_of in Hlog at 1.
  rewrite Hlog. f_equal.
  rewrite sub_small by (change (2 ^ 31) with 2147483648; lia).
  apply rows_by_index. unfold MAX_NODES in Hid. lia.
Qed.

(** X18: whom a node probes.  One round of probing sends one PROBE to
    each row of the table above the node's own, in table order, and to
    nobody else (node 1 probes nobody); every PROBE carries the node's
    id, and nothing but messageToSend and the radio changes. *)
Theorem probes_go_to_lower_ids (s : State) :
  mesh_ok s -> 1 <= myNodeId s <= MAX_NODES s ->
  let s' := probe_lower_ids s in
  radio_only s s' /\
  sent_since s s'
  = ((fun row => (row, probe_of s)) <$> take (Z.to_nat (myNodeId s - 1)) (nodeMacs s)) /\
  type (probe_of s) = MSG_TYPE_PROBE /\
  senderId (probe_of s) = Int.to_u8 (myNodeId s).
Proof.
  intros Hmesh Hid s'. subst s'.
  destruct (probe_lower_ids_sent s Hmesh Hid) as (Honly & Hlog).
  split; [exact Honly |]. split; [| split; reflexivity].
  unfold sent_since. rewrite Hlog. apply drop_app_length.
Qed.

Lemma probes_go_to_lower_ids_witness :
  let s := becomeSender 1 (boot_state 3) in
  let s' := probe_lower_ids s in
  radio_only s s' /\
  sent_since s s'
  = ((fun row => (row, probe_of s)) <$> take (Z.to_nat (myNodeId s - 1)) (nodeMacs s)) /\
  type (probe_of s) = MSG_TYPE_PROBE /\
  senderId (probe_of s) = Int.to_u8 (myNodeId s).
Proof.
  apply (probes_go_to_lower_ids (becomeSender 1 (boot_state 3))).
  - unfold mesh_ok, MAX_NODES. simpl. lia.
  - unfold MAX_NODES. simpl. lia.
Defined.








Lemma loop_button_keeps (s : State) :
  myRole (loop_button s) = myRole s /\ targetNodeId (loop_button s) = targetNodeId s /\
  nodeMacs (loop_button s) = nodeMacs s /\ myNodeId (loop_button s) = myNodeId s /\
  failedLastSend (loop_button s) = failedLastSend s /\
  currentOperatingMode (loop_button s) = other_mode (currentOperatingMode s).
Proof.
  unfold loop_button, broadcast_mode_change, reconfigure_ulp, Nat.iter. cbn [nat_rect].
  state_simpl. destruct (currentOperatingMode s); repeat split.
Qed.



Lemma sends_refl (P : mac_t * struct_message -> Prop) (s : State) : sends P s s.
Proof. exists []. split; [rewrite app_nil_r; reflexivity | constructor]. Qed.

Lemma sends_trans (P : mac_t * struct_message -> Prop) (a b c : State) :
  sends P a b -> sends P b c -> sends P a c.
Proof.
  intros (x & Hx & Px) (y & Hy & Py). exists (x ++ y)%list.
  split; [rewrite Hy, Hx, app_assoc; reflexivity | apply Forall_app; split; assumption].
Qed.

Lemma sends_quiet (P : mac_t * struct_message -> Prop) (a b : State) :
  radio_log b = radio_log a -> sends P a b.
Proof. intros Hsame. exists []. rewrite app_nil_r. split; [exact Hsame | constructor]. Qed.

Lemma probe_lower_ids_sends (s0 s : State) : sends (data_to_target s0) s (probe_lower_ids s).
Proof.
  destruct (probes_sent (seq 0 (Z.to_nat (Int.sub (myNodeId s) 1))) s) as (_ & Hlog).
  eexists. split; [exact Hlog |].
  apply Forall_fmap, Forall_forall. intros i _ Hdata. discriminate Hdata.
Qed.

Lemma probe_after_failure_sends (s0 s : State) :
  sends (data_to_target s0) s (probe_after_failure s).
Proof.
  unfold probe_after_failure.
  destruct (failedLastSend s && negb (probingForFailover s)); [| apply sends_refl].
  apply (sends_trans _ s (probe_lower_ids s)); [apply probe_lower_ids_sends |].
  apply sends_quiet. reflexivity.
Qed.

Lemma loop_button_sends (s0 s : State) : sends (data_to_target s0) s (loop_button s).
Proof.
  unfold sends, loop_button, broadcast_mode_change, broadcast_announce_ar, reconfigure_ulp,
    reset_nodeModeSynced, Nat.iter.
  cbn [nat_rect]. state_simpl.
  destruct (currentOperatingMode s); state_simpl;
    (eexists; split;
     [repeat rewrite <- app_assoc; reflexivity
     | repeat (apply List.Forall_cons; [intros Hdata; discriminate Hdata |]);
       apply List.Forall_nil]).
Qed.

Lemma send_data_sends (s0 t : State) (c tilt v r g : Z) :
  mesh_ok s0 -> myRole s0 = ROLE_SENDER -> 1 <= targetNodeId s0 <= MAX_NODES s0 ->
  nodeMacs t = nodeMacs s0 -> targetNodeId t = targetNodeId s0 -> myNodeId t = myNodeId s0 ->
  sends (data_to_target s0) t (send_data c tilt v r g t).
Proof.
  unfold mesh_ok. intros Hmesh Hrole Htarget Hmacs Htgt Hid.
  eexists. split; [reflexivity |].
  constructor; [| constructor]. intros _. cbn [fst snd].
  split; [exact Hrole |]. split.
  - unfold mac_of_index. rewrite Htgt, Hmacs.
    rewrite sub_small by (change (2 ^ 31) with 2147483648; lia).
    replace (targetNodeId s0 - 1 <? 0) with false by (symmetry; apply Z.ltb_ge; lia).
    destruct (lookup_lt_is_Some_2 (nodeMacs s0) (Z.to_nat (targetNodeId s0 - 1)))
      as [row Hrow]; [unfold MAX_NODES in Htarget; lia |].
    unfold mac_t in *. rewrite Hrow. reflexivity.
  - cbn. rewrite Hid. reflexivity.
Qed.

(** X20: DATA goes to the target and to nobody else.  On a mesh of 1 to
    127 nodes, whatever a pass of loop() sends, a frame of type DATA
    among it is sent by a sender, to the table row of its current
    target, under its own id; a receiver sends no DATA at all. *)
Theorem loop_sends_data_to_target_only (inp : loop_inputs) (s : State) (u : ulp_vars_t) :
  mesh_ok s ->
  (myRole s = ROLE_SENDER -> 1 <= targetNodeId s <= MAX_NODES s) ->
  match loop inp s u with
  | (s', u', sleeps) =>
      exists sent,
        radio_log s' = (radio_log s ++ sent)%list /\
        forall mac m, (mac, m) ∈ sent -> type m = MSG_TYPE_DATA ->
          myRole s = ROLE_SENDER /\
          nodeMacs s !! Z.to_nat (targetNodeId s - 1) = Some mac /\
          senderId m = Int.to_u8 (myNodeId s)
  end.
Proof.
  intros Hmesh Htarget.
  assert (Hsends : match loop inp s u with (s', _, _) => sends (data_to_target s) s s' end).
  { unfold loop.
    set (t := if role_eqb (myRole s) ROLE_RECEIVER && button_event inp
              then loop_button s else s).
    assert (Ht : sends (data_to_target s) s t /\ myRole t = myRole s /\
                 nodeMacs t = nodeMacs s /\ targetNodeId t = targetNodeId s /\
                 myNodeId t = myNodeId s).
    { subst t. destruct (role_eqb (myRole s) ROLE_RECEIVER && button_event inp).
      - destruct (loop_button_keeps s) as (Br & Bt & Bm & Bi & _).
        split; [apply loop_button_sends | tauto].
      - split; [apply sends_refl | tauto]. }
    clearbody t. destruct Ht as (Hst & Hr & Hm & Htg & Hi).
    assert (Hprobe : sends (data_to_target s) t
                       (if probe_due inp then probe_lower_ids t else t))
      by (destruct (probe_due inp); [apply probe_lower_ids_sends | apply sends_refl]).
    destruct (currentOperatingMode t).
    - destruct (myRole t) eqn:Hrole.
      + symmetry in Hr. specialize (Htarget Hr).
        set (sent := if (if ulpJustWoke t then true
                         else if data_ready_high inp then true
                         else failedLastSend t && retry_due inp)
                     then _ else t).
        assert (Hsent : sends (data_to_target s) t sent).
        { subst sent.
          destruct (if ulpJustWoke t then true
                    else if data_ready_high inp then true
                    else failedLastSend t && retry_due inp); [| apply sends_refl].
          destruct (decodePwmSignals (tilt_pin inp) (vibration_pin inp)) as [tilt vib].
          apply send_data_sends; assumption. }
        assert (Hall : sends (data_to_target s) s (probe_after_failure sent)).
        { apply (sends_trans _ _ _ _ Hst). apply (sends_trans _ _ _ _ Hsent).
          apply probe_after_failure_sends. }
        destruct (negb (failedLastSend (probe_after_failure sent))
                  && role_eqb (myRole (probe_after_failure sent)) ROLE_SENDER);
          exact Hall.
      + destruct (local_check_due inp).
        * destruct (decodePwmSignals (tilt_pin inp) (vibration_pin inp)) as [tilt vib].
          apply (sends_trans _ _ _ _ Hst). apply (sends_trans _ _ _ _ Hprobe).
          apply sends_quiet. reflexivity.
        * apply (sends_trans _ _ _ _ Hst). exact Hprobe.
    - destruct (decodePwmSignals (tilt_pin inp) (vibration_pin inp)) as [tilt vib].
      set (stored := store_own_data _ _ _ _ _ t).
      assert (Hstored : sends (data_to_target s) t stored)
        by (apply sends_quiet; reflexivity).
      assert (Hrole' : myRole stored = myRole t) by reflexivity.
      rewrite Hrole'. destruct (myRole t) eqn:Hrole.
      + symmetry in Hr. specialize (Htarget Hr).
        apply (sends_trans _ _ _ _ Hst). apply (sends_trans _ _ _ _ Hstored).
        apply (sends_trans _ _ (send_data 0 tilt vib (currentRainADC inp)
                                  (currentSoilADC inp) stored)).
        * apply send_data_sends; assumption.
        * apply probe_after_failure_sends.
      + apply (sends_trans _ _ _ _ Hst). apply (sends_trans _ _ _ _ Hstored).
        destruct (probe_due inp); [apply probe_lower_ids_sends | apply sends_refl]. }
  destruct (loop inp s u) as [[s' u'] sleeps].
  destruct Hsends as (sent & Hlog & Hall).
  exists sent. split; [exact Hlog |].
  intros mac m Hin Hdata.
  rewrite Forall_forall in Hall. exact (Hall (mac, m) Hin Hdata).
Qed.

Lemma loop_sends_data_to_target_only_witness :
  match
    loop (mk_loop_inputs false true false false false
            (Arduino.PulseSeen 60000 25000) Arduino.NoPulse 1500 1800 2500 42)
      (becomeSender 2 (boot_state 3)) (mk_ulp_vars 1400 1600 1500 1700 1900 1800 0 4)
  with
  | (s', u', sleeps) =>
      exists sent,
        radio_log s' = (radio_log (becomeSender 2 (boot_state 3)) ++ sent)%list /\
        forall mac m, (mac, m) ∈ sent -> type m = MSG_TYPE_DATA ->
          myRole (becomeSender 2 (boot_state 3)) = ROLE_SENDER /\
          nodeMacs (becomeSender 2 (boot_state 3))
            !! Z.to_nat (targetNodeId (becomeSender 2 (boot_state 3)) - 1) = Some mac /\
          senderId m = Int.to_u8 (myNodeId (becomeSender 2 (boot_state 3)))
  end.
Proof.
  apply (loop_sends_data_to_target_only
           (mk_loop_inputs false true false false false
              (Arduino.PulseSeen 60000 25000) Arduino.NoPulse 1500 1800 2500 42)
           (becomeSender 2 (boot_state 3)) (mk_ulp_vars 1400 1600 1500 1700 1900 1800 0 4)).
  - unfold mesh_ok, MAX_NODES. simpl. lia.
  - intros _. unfold MAX_NODES. simpl. lia.
Defined.

Lemma loop_collects (inp : loop_inputs) (s : State) (u : ulp_vars_t) :
  myRole s = ROLE_SENDER -> currentOperatingMode s = DATA_COLLECTION_MODE ->
  match loop inp s u with
  | (s', u', sleeps) =>
      exists m rest,
        sent_since s s' = (mac_of_index s (Int.sub (targetNodeId s) 1), m) :: rest /\
        type m = MSG_TYPE_DATA /\
        senderId m = Int.to_u8 (myNodeId s) /\
        rain_adc_value m = currentRainADC inp /\
        soil_adc_value m = currentSoilADC inp /\
        tilt_centi_deg m = fst (decodePwmSignals (tilt_pin inp) (vibration_pin inp)) /\
        vibration_milli_g m = snd (decodePwmSignals (tilt_pin inp) (vibration_pin inp))
  end.
Proof.
  intros Hrole Hmode. unfold loop. rewrite Hrole. cbn [role_eqb andb]. rewrite Hmode.
  destruct (decodePwmSignals (tilt_pin inp) (vibration_pin inp)) as [tilt vib].
  set (stored := store_own_data _ _ _ _ _ s).
  assert (Hrole' : myRole stored = ROLE_SENDER) by exact Hrole.
  rewrite Hrole'.
  set (sent := send_data 0 tilt vib (currentRainADC inp) (currentSoilADC inp) stored).
  destruct (probe_after_failure_sends s sent) as (rest & Hlog & _).
  exists (messageToSend sent), rest.
  split; [| repeat split].
  unfold sent_since. rewrite Hlog.
  change (radio_log sent)
    with (radio_log s
          ++ [(mac_of_index s (Int.sub (targetNodeId s) 1), messageToSend sent)])%list.
  rewrite <- app_assoc. rewrite drop_app_length. reflexivity.
Qed.

(** X21: what a sender measures is what the receiver serves.  In
    DATA_COLLECTION_MODE the first frame a sender's pass of loop() puts
    on the air is a DATA frame; once a receiver that knows the sender's
    address has taken it in, a request for that node is answered 200
    with the rain and soil samples of that pass and the tilt and
    vibration its decoder read. *)
Theorem measured_is_served (inp : loop_inputs) (sender : State) (u : ulp_vars_t)
    (receiver : State) (now : Z) (sender_mac : mac_t) (args : request_args) :
  myRole sender = ROLE_SENDER -> currentOperatingMode sender = DATA_COLLECTION_MODE ->
  mesh_ok receiver -> myRole receiver = ROLE_RECEIVER ->
  let k := getNodeIdFromMac receiver sender_mac in
  k <> 0 -> (Z.to_nat k < List.length (latestNodeData receiver))%nat ->
  hasArg args "nodeId" = true -> toInt (arg args "nodeId") = k ->
  match loop inp sender u with
  | (sender', u', sleeps) =>
      exists dest m rest,
        sent_since sender sender' = (dest, m) :: rest /\
        last_reply
          (handleSensorData args
             (onDataRecv now sender_mac m sizeof_struct_message receiver))
        = Some (mk_reply 200 "application/json"
                  (json_object ": " ","
                     [ ("nodeId", String_of_int k);
                       ("mac", quoted (macString_of sender_mac));
                       ("rain", String_of_int (currentRainADC inp));
                       ("soil", String_of_int (currentSoilADC inp));
                       ("vibration",
                        String_of_int
                          (snd (decodePwmSignals (tilt_pin inp) (vibration_pin inp))));
                       ("tilt",
                        String_of_int
                          (fst (decodePwmSignals (tilt_pin inp) (vibration_pin inp))));
                       ("lastUpdated", String_of_int (Int.to_u32 now)) ]))
  end.
Proof.
  intros Hsender Hmode Hmesh Hreceiver k Hknown Hroom Hhas Harg.
  pose proof (loop_collects inp sender u Hsender Hmode) as Hloop.
  destruct (loop inp sender u) as [[sender' u'] sleeps].
  destruct Hloop as (m & rest & Hsent & Htype & _ & Hrain & Hsoil & Htilt & Hvib).
  exists (mac_of_index sender (Int.sub (targetNodeId sender) 1)), m, rest.
  split; [exact Hsent |].
  rewrite (served_after_data receiver now sender_mac m args Hmesh Hreceiver Htype
             Hknown Hroom Hhas Harg).
  rewrite Hrain, Hsoil, Htilt, Hvib. reflexivity.
Qed.

Lemma measured_is_served_witness :
  let inp :=
    mk_loop_inputs false false false false false
      (Arduino.PulseSeen 60000 25000) Arduino.NoPulse 1500 1800 0 42 in
  let sender := set_currentOperatingMode DATA_COLLECTION_MODE (becomeSender 1 (boot_state 3)) in
  let receiver := fresh_receiver 1 in
  let k := getNodeIdFromMac receiver mac_of_node3 in
  match loop inp sender (mk_ulp_vars 0 0 0 0 0 0 0 0) with
  | (sender', u', sleeps) =>
      exists dest m rest,
        sent_since sender sender' = (dest, m) :: rest /\
        last_reply
          (handleSensorData [("nodeId", "3")]
             (onDataRecv 77 mac_of_node3 m sizeof_struct_message receiver))
        = Some (mk_reply 200 "application/json"
                  (json_object ": " ","
                     [ ("nodeId", String_of_int k);
                       ("mac", quoted (macString_of mac_of_node3));
                       ("rain", String_of_int (currentRainADC inp));
                       ("soil", String_of_int (currentSoilADC inp));
                       ("vibration",
                        String_of_int
                          (snd (decodePwmSignals (tilt_pin inp) (vibration_pin inp))));
                       ("tilt",
                        String_of_int
                          (fst (decodePwmSignals (tilt_pin inp) (vibration_pin inp))));
                       ("lastUpdated", String_of_int (Int.to_u32 77)) ]))
  end.
Proof.
  intros inp sender receiver k.
  apply (measured_is_served inp sender (mk_ulp_vars 0 0 0 0 0 0 0 0) receiver 77
           mac_of_node3 [("nodeId", "3")]).
  - reflexivity.
  - reflexivity.
  - unfold mesh_ok, MAX_NODES. simpl. lia.
  - reflexivity.
  - vm_compute. discriminate.
  - vm_compute. lia.
  - reflexivity.
  - reflexivity.
Defined.

Lemma probe_after_failure_probes (s : State) :
  exists sent,
    radio_log (probe_after_failure s) = (radio_log s ++ sent)%list /\
    Forall (fun frame => type (snd frame) = MSG_TYPE_PROBE) sent.
Proof.
  unfold probe_after_failure.
  destruct (failedLastSend s && negb (probingForFailover s)).
  - destruct (probes_sent (seq 0 (Z.to_nat (Int.sub (myNodeId s) 1))) s) as (_ & Hlog).
    eexists. split; [exact Hlog |].
    apply Forall_fmap, Forall_forall. intros i _. reflexivity.
  - exists []. split; [rewrite app_nil_r; reflexivity | apply List.Forall_nil].
Qed.

(** X22: what a sender in STANDBY_MODE reports.  It sends when the ULP
    has just woken it, when the data-ready pin reads HIGH, or when a
    failed send is due for a retry; the first frame of the pass is then
    a DATA frame that carries the ULP's wake-up count and the rain and
    soil samples the ULP stored last, not fresh ones.  Without such a
    reason the pass sends no frame but PROBEs.  The RTC block is left
    as it was. *)
Theorem standby_sender_reports_ulp_samples (inp : loop_inputs) (s : State)
    (u : ulp_vars_t) :
  myRole s = ROLE_SENDER -> currentOperatingMode s = STANDBY_MODE ->
  let due := ulpJustWoke s || data_ready_high inp || (failedLastSend s && retry_due inp) in
  match loop inp s u with
  | (s', u', sleeps) =>
      u' = u /\
      (due = true ->
       exists m rest,
         sent_since s s' = (mac_of_index s (Int.sub (targetNodeId s) 1), m) :: rest /\
         type m = MSG_TYPE_DATA /\
         wakeCounter m = triggered_count u /\
         rain_adc_value m = last_rain_val u /\
         soil_adc_value m = last_soil_val u) /\
      (due = false ->
       Forall (fun frame => type (snd frame) = MSG_TYPE_PROBE) (sent_since s s'))
  end.
Proof.
  intros Hrole Hmode due. unfold loop. rewrite Hrole. cbn [role_eqb andb].
  rewrite Hmode, Hrole.
  assert (Hdue : (if ulpJustWoke s then true
                  else if data_ready_high inp then true
                  else failedLastSend s && retry_due inp) = due)
    by (subst due; destruct (ulpJustWoke s), (data_ready_high inp); reflexivity).
  rewrite Hdue. clearbody due.
  destruct (decodePwmSignals (tilt_pin inp) (vibration_pin inp)) as [tilt vib].
  set (sent := if due then send_data _ _ _ _ _ s else s).
  destruct (probe_after_failure_probes sent) as (rest & Hlog & Hprobes).
  assert (Hresult :
    (due = true ->
     exists m rest,
       sent_since s (probe_after_failure sent)
       = (mac_of_index s (Int.sub (targetNodeId s) 1), m) :: rest /\
       type m = MSG_TYPE_DATA /\
       wakeCounter m = triggered_count u /\
       rain_adc_value m = last_rain_val u /\
       soil_adc_value m = last_soil_val u) /\
    (due = false ->
     Forall (fun frame => type (snd frame) = MSG_TYPE_PROBE)
       (sent_since s (probe_after_failure sent)))).
  { unfold sent_since. rewrite Hlog. subst sent. destruct due.
    - split; [intros _ | discriminate].
      eexists _, rest.
      split;
        [ unfold send_data, esp_now_send; state_simpl;
          rewrite <- app_assoc, drop_app_length; reflexivity
        | repeat split ].
    - split; [discriminate | intros _].
      rewrite drop_app_length. exact Hprobes. }
  destruct (negb (failedLastSend (probe_after_failure sent))
            && role_eqb (myRole (probe_after_failure sent)) ROLE_SENDER);
    (split; [reflexivity | exact Hresult]).
Qed.

Lemma standby_sender_reports_ulp_samples_witness :
  let inp :=
    mk_loop_inputs false false false false false
      (Arduino.PulseSeen 60000 25000) Arduino.NoPulse 1500 1800 0 42 in
  let s := set_ulpJustWoke true (becomeSender 1 (boot_state 3)) in
  let u := mk_ulp_vars 1400 1600 1650 1700 1900 1800 0 4 in
  let due := ulpJustWoke s || data_ready_high inp || (failedLastSend s && retry_due inp) in
  match loop inp s u with
  | (s', u', sleeps) =>
      u' = u /\
      (due = true ->
       exists m rest,
         sent_since s s' = (mac_of_index s (Int.sub (targetNodeId s) 1), m) :: rest /\
         type m = MSG_TYPE_DATA /\
         wakeCounter m = triggered_count u /\
         rain_adc_value m = last_rain_val u /\
         soil_adc_value m = last_soil_val u) /\
      (due = false ->
       Forall (fun frame => type (snd frame) = MSG_TYPE_PROBE) (sent_since s s'))
  end.
Proof.
  intros inp s u.
  apply (standby_sender_reports_ulp_samples inp s u); reflexivity.
Defined.

(** ** Roles and modes, in general *)

(** X23: what can demote a receiver among frames and requests.  On a
    mesh of 1 to 127 nodes a received frame turns an Active Receiver
    into a sender exactly when it is a full-length ANNOUNCE_AR from a
    node of the table with a lower id, and then into a sender to that
    node; every other frame, and every HTTP request, leaves it Active
    Receiver. *)
Theorem only_lower_announce_demotes (s : State) (now : Z) (mac : mac_t)
    (msg : struct_message) (len : Z) (method : HTTPMethod) (uri : string)
    (args : request_args) :
  mesh_ok s -> myRole s = ROLE_RECEIVER ->
  let k := getNodeIdFromMac s mac in
  let s' := onDataRecv now mac msg len s in
  let yields :=
    k <> 0 /\ len = sizeof_struct_message /\
    type msg = MSG_TYPE_ANNOUNCE_AR /\ k < myNodeId s in
  (yields -> role_of s' = Sender k) /\
  (~ yields -> role_of s' = ActiveReceiver) /\
  role_of (handleClient method uri args s) = ActiveReceiver.
Proof.
  intros Hmesh Hrole k s' yields.
  destruct (receiver_yields_to_lower_announcer s now mac msg len Hmesh Hrole)
    as (Hyes & Hno).
  split; [exact Hyes |]. split; [exact Hno |].
  rewrite handleClient_keeps_role. unfold role_of. rewrite Hrole. reflexivity.
Qed.

Lemma only_lower_announce_demotes_witness :
  let s := fresh_receiver 2 in
  let k := getNodeIdFromMac s mac_of_node1 in
  let s' :=
    onDataRecv 9 mac_of_node1 (announce_from 1 STANDBY_MODE) sizeof_struct_message s in
  let yields :=
    k <> 0 /\ sizeof_struct_message = sizeof_struct_message /\
    type (announce_from 1 STANDBY_MODE) = MSG_TYPE_ANNOUNCE_AR /\ k < myNodeId s in
  (yields -> role_of s' = Sender k) /\
  (~ yields -> role_of s' = ActiveReceiver) /\
  role_of (handleClient HTTP_GET "/set_mode" [("mode", "standby")] s) = ActiveReceiver.
Proof.
  apply (only_lower_announce_demotes (fresh_receiver 2) 9 mac_of_node1
           (announce_from 1 STANDBY_MODE) sizeof_struct_message
           HTTP_GET "/set_mode" [("mode", "standby")]).
  - unfold mesh_ok, MAX_NODES. simpl. lia.
  - reflexivity.
Defined.

(** X24: GET /set_mode on a node that has just become Active Receiver.
    No mode argument: 400.  An argument that is neither standby nor
    data_collection (letter case apart): 400.  The mode already set:
    200 "unchanged", and nothing but the reply changes.  The other
    mode: 200 "success", the node is in that mode and flash holds it. *)
Theorem set_mode_get_contract (s : State) (args : request_args) :
  server_routes s = [] ->
  let r := becomeActiveReceiver s in
  let modeStr := arg args "mode" in
  let r' := handleClient HTTP_GET "/set_mode" args r in
  (hasArg args "mode" = false ->
   r' = server_send 400 "application/json" set_mode_missing r) /\
  (hasArg args "mode" = true -> parse_mode modeStr = None ->
   r' = server_send 400 "application/json" set_mode_invalid r) /\
  (forall m, hasArg args "mode" = true -> parse_mode modeStr = Some m ->
     currentOperatingMode r = m ->
     r' = server_send 200 "application/json" (set_mode_unchanged modeStr) r) /\
  (forall m, hasArg args "mode" = true -> parse_mode modeStr = Some m ->
     currentOperatingMode r <> m ->
     last_reply r' = Some (mk_reply 200 "application/json" (set_mode_success modeStr)) /\
     currentOperatingMode r' = m /\
     readModeFromNVS r' = Some m).
Proof.
  intros Hroutes r modeStr r'.
  destruct (get_reaches_handlers s args Hroutes) as (_ & Hroute).
  subst r'. fold r in Hroute. rewrite Hroute.
  destruct (handleSetMode_replies r args) as (Hmissing & Hinvalid & Hsame & Hnew).
  split; [exact Hmissing |]. split; [exact Hinvalid |]. split; [exact Hsame |].
  intros m Hhas Hparse Hdiff.
  destruct (Hnew m Hhas Hparse Hdiff) as (Hreply & Hmode & Hflash).
  split; [exact Hreply |]. split; [exact Hmode |].
  unfold readModeFromNVS. rewrite Hflash. destruct m; reflexivity.
Qed.

Lemma set_mode_get_contract_witness :
  let r := becomeActiveReceiver (boot_state 1) in
  let args := [("mode", "Data_Collection")] in
  let modeStr := arg args "mode" in
  let r' := handleClient HTTP_GET "/set_mode" args r in
  (hasArg args "mode" = false ->
   r' = server_send 400 "application/json" set_mode_missing r) /\
  (hasArg args "mode" = true -> parse_mode modeStr = None ->
   r' = server_send 400 "application/json" set_mode_invalid r) /\
  (forall m, hasArg args "mode" = true -> parse_mode modeStr = Some m ->
     currentOperatingMode r = m ->
     r' = server_send 200 "application/json" (set_mode_unchanged modeStr) r) /\
  (forall m, hasArg args "mode" = true -> parse_mode modeStr = Some m ->
     currentOperatingMode r <> m ->
     last_reply r' = Some (mk_reply 200 "application/json" (set_mode_success modeStr)) /\
     currentOperatingMode r' = m /\
     readModeFromNVS r' = Some m).
Proof.
  apply (set_mode_get_contract (boot_state 1) [("mode", "Data_Collection")]).
  reflexivity.
Defined.

(** X25: who re-announces after a MODE_CHANGE.  A full-length
    MODE_CHANGE from a node of the table that brings a new mode makes
    node 1 take the mode over, persist it, reconfigure the ULP, clear
    every sync flag and broadcast one ANNOUNCE_AR with the new mode.  A
    node with any other id, whatever its role, sends nothing on any
    MODE_CHANGE and leaves its sync flags as they are. *)
Theorem mode_change_reannounced_by_node_1_only (s : State) (now : Z) (mac : mac_t)
    (msg : struct_message) :
  type msg = MSG_TYPE_MODE_CHANGE ->
  let s' := onDataRecv now mac msg sizeof_struct_message s in
  (myNodeId s = 1 -> getNodeIdFromMac s mac <> 0 ->
   newMode msg <> currentOperatingMode s ->
   currentOperatingMode s' = newMode msg /\
   readModeFromNVS s' = Some (newMode msg) /\
   ulp_running s' = mode_eqb (newMode msg) STANDBY_MODE /\
   nodeModeSynced s' = replicate (S (List.length (nodeMacs s))) false /\
   exists m,
     radio_log s' = (radio_log s ++ [(broadcastMac, m)])%list /\
     type m = MSG_TYPE_ANNOUNCE_AR /\ newMode m = newMode msg) /\
  (myNodeId s <> 1 ->
   nodeModeSynced s' = nodeModeSynced s /\ radio_log s' = radio_log s /\
   myRole s' = myRole s).
Proof.
  intros Htype s'. subst s'. split.
  - intros Hid Hknown Hnew.
    destruct (mode_change_on_node_1 s now mac msg Hid Hknown Htype Hnew)
      as (Hmode & Hflash & Hulp & Hsync & Hsent).
    split; [exact Hmode |].
    split; [unfold readModeFromNVS; rewrite Hflash;
            destruct (newMode msg); reflexivity |].
    split; [rewrite Hulp; destruct (newMode msg); reflexivity |].
    split; [exact Hsync | exact Hsent].
  - intros Hid. exact (mode_change_off_node_1 s now mac msg sizeof_struct_message Hid Htype).
Qed.

Lemma mode_change_reannounced_by_node_1_only_witness :
  let s := fresh_receiver 1 in
  let msg := mode_change_from 3 DATA_COLLECTION_MODE in
  let s' := onDataRecv 30 mac_of_node3 msg sizeof_struct_message s in
  (myNodeId s = 1 -> getNodeIdFromMac s mac_of_node3 <> 0 ->
   newMode msg <> currentOperatingMode s ->
   currentOperatingMode s' = newMode msg /\
   readModeFromNVS s' = Some (newMode msg) /\
   ulp_running s' = mode_eqb (newMode msg) STANDBY_MODE /\
   nodeModeSynced s' = replicate (S (List.length (nodeMacs s))) false /\
   exists m,
     radio_log s' = (radio_log s ++ [(broadcastMac, m)])%list /\
     type m = MSG_TYPE_ANNOUNCE_AR /\ newMode m = newMode msg) /\
  (myNodeId s <> 1 ->
   nodeModeSynced s' = nodeModeSynced s /\ radio_log s' = radio_log s /\
   myRole s' = myRole s).
Proof.
  apply (mode_change_reannounced_by_node_1_only (fresh_receiver 1) 30 mac_of_node3
           (mode_change_from 3 DATA_COLLECTION_MODE)).
  reflexivity.
Defined.
